(** * NexusEnroll: validation pipeline, grade strategies, event bus, services

    A shallow embedding of [main.py].  Python objects that the program
    mutates in place (courses, student records, rosters, the grade book,
    the bus queue) are threaded through the functions as explicit state;
    an unhandled exception of a route is the result [Crash], which Flask
    turns into a 500 response; every reading of [datetime.now()] is an
    explicit argument of the function that reads the clock. *)

From Stdlib Require Import ZArith QArith String List Lia.
From stdpp Require Import base gmap list strings fin_maps pretty.

Local Open Scope Z_scope.

(* ================================================================== *)
(** ** Shared models *)

(** [class Course].  The attribute [schedule] is the same literal for
    every instance and is never assigned again; it is the constant
    [Course_schedule] below.  [capacity] and [enrolled] are Python ints
    (a bool stored there counts as 1 or 0). *)
Record Course := mkCourse {
  course_id : string;
  name : string;
  instructor : string;
  capacity : Z;
  enrolled : Z;
  prerequisites : list string
}.

Definition set_enrolled (c : Course) (n : Z) : Course :=
  mkCourse (course_id c) (name c) (instructor c) (capacity c) n (prerequisites c).

(** A reading of [datetime.now()], kept as its [isoformat()] text. *)
Definition timestamp := string.

(* ================================================================== *)
(** ** Python dicts with str keys, in insertion order *)

Module Dict.
Section dict.
Context {V : Type}.

Definition t := list (string * V).

(** [d.get(k)] *)
Fixpoint get (k : string) (d : t) : option V :=
  match d with
  | [] => None
  | (k', v) :: d' => if String.eqb k k' then Some v else get k d'
  end.

(** [d[k] = v]: an existing key keeps its place, a new key goes last. *)
Fixpoint set (k : string) (v : V) (d : t) : t :=
  match d with
  | [] => [(k, v)]
  | (k', v') :: d' =>
    if String.eqb k k' then (k, v) :: d' else (k', v') :: set k v d'
  end.

(** [list(d.values())] *)
Definition values (d : t) : list V := map snd d.
End dict.
Arguments t V : clear implicits.
End Dict.

(* ================================================================== *)
(** ** Python values *)

Module Py.

(** Dynamically typed data: parsed request bodies, event payloads,
    response payloads and the [Any] argument of the DTO factories.
    [PFloat q] is a finite float of exact value [q]; [PPercent e c] is the
    float [round((e / c) * 100, 2)], kept by its two integer operands. *)
#[warnings="-register-all"]
Inductive pyval :=
| PNone
| PBool (b : bool)
| PInt (z : Z)
| PFloat (q : Q)
| PPercent (e c : Z)
| PStr (s : string)
| PList (l : list pyval)
| PDict (d : list (string * pyval))
| PCourse (c : Course).

(** The exceptions the modelled code can raise.  All are subclasses of
    [Exception] but [BaseExc], which stands for a [BaseException] outside
    [Exception] ([SystemExit], [KeyboardInterrupt]). *)
Inductive exn :=
| ZeroDivisionError (msg : string)
| OverflowError (msg : string)
| TypeError (msg : string)
| AttributeError (msg : string)
| KeyError (key : string)
| OtherException (msg : string)
| BaseExc (msg : string).

Definition is_Exception (e : exn) : bool :=
  match e with BaseExc _ => false | _ => true end.

(** [str(e)] *)
Definition exn_str (e : exn) : string :=
  match e with
  | ZeroDivisionError m | OverflowError m | TypeError m
  | AttributeError m | OtherException m | BaseExc m => m
  | KeyError k => "'" +:+ k +:+ "'"
  end.

Inductive result (A : Type) :=
| Ok (a : A)
| Raise (e : exn).
Arguments Ok {A} a.
Arguments Raise {A} e.

#[global] Instance result_ret : MRet result := fun A a => Ok a.
#[global] Instance result_bind : MBind result := fun A B k r =>
  match r with Ok a => k a | Raise e => Raise e end.

(** [for x in l: f(x)] collecting the results, stopping at the first raise. *)
Fixpoint mapM {A B} (f : A -> result B) (l : list A) : result (list B) :=
  match l with
  | [] => Ok []
  | x :: l' => y ← f x; ys ← mapM f l'; Ok (y :: ys)
  end.

(** Truth value of a Python object ([bool(v)]), used on request bodies
    only; a body is never a computed percentage or a [Course], whose
    cases are there for totality. *)
Definition truthy (v : pyval) : bool :=
  match v with
  | PNone => false
  | PBool b => b
  | PInt z => negb (Z.eqb z 0)
  | PFloat q => negb (Z.eqb (Qnum q) 0)
  | PPercent e _ => negb (Z.eqb e 0)
  | PStr s => negb (String.eqb s EmptyString)
  | PList l => match l with [] => false | _ => true end
  | PDict d => match d with [] => false | _ => true end
  | PCourse _ => true
  end.

(** [d.get(k)] on the entries of a dict: [None] when the key is absent. *)
Definition lookup_key (k : string) (d : list (string * pyval)) : option pyval :=
  Dict.get k d.

Definition dict_get (k : string) (d : list (string * pyval)) : pyval :=
  default PNone (lookup_key k d).

(** [v.get(k)] on an arbitrary object: only dicts have the method. *)
Definition get (v : pyval) (k : string) : result pyval :=
  match v with
  | PDict d => Ok (dict_get k d)
  | _ => Raise (AttributeError "object has no attribute 'get'")
  end.

(** [request.get_json(silent=True) or {}]: a missing or unparsable body is
    [PNone]. *)
Definition get_json_or_empty (body : pyval) : pyval :=
  if truthy body then body else PDict [].

(** [sep.join(l)] on a list of strings. *)
Fixpoint join (sep : string) (l : list string) : string :=
  match l with
  | [] => EmptyString
  | [s] => s
  | s :: l' => s +:+ sep +:+ join sep l'
  end.

(** [x in l] on a list of strings. *)
Definition mem (x : string) (l : list string) : bool := bool_decide (x ∈ l).

(** [l.remove(x)] where [x in l] has been tested: drops the first
    occurrence. *)
Fixpoint remove_first (x : string) (l : list string) : list string :=
  match l with
  | [] => []
  | y :: l' => if decide (x = y) then l' else y :: remove_first x l'
  end.

(** [s.startswith(p)] *)
Definition startswith (p s : string) : bool := String.prefix p s.

(** Can the value be hashed (looked up in a set)?  Lists and dicts cannot;
    instances of a plain class hash by identity. *)
Definition hashable (v : pyval) : bool :=
  match v with PList _ | PDict _ => false | _ => true end.

(** [a / b] on ints, then [* 100] and [round(_, 2)]: raises on a zero
    divisor, and when the quotient rounds outside the range of a float
    (beyond [2^1024 - 2^970] in magnitude). *)
Definition percent (e c : Z) : result pyval :=
  if Z.eqb c 0 then Raise (ZeroDivisionError "division by zero")
  else if Z.leb ((2 ^ 1024 - 2 ^ 970) * Z.abs c) (Z.abs e)
       then Raise (OverflowError "integer division result too large for a float")
       else Ok (PPercent e c).

End Py.
Import Py.

(** [Course.schedule], set by [__init__]. *)
Definition Course_schedule : pyval :=
  PDict [("days", PList [PStr "Mon"; PStr "Wed"]);
         ("time", PStr "10:00-11:30");
         ("location", PStr "Room 101")].

(** [class Event] *)
Record Event := mkEvent {
  event_type : string;
  data : list (string * pyval);
  event_timestamp : timestamp
}.

(* ================================================================== *)
(** ** Observer pattern: the event bus *)

Module EventBus.
Section bus.
(** [W] is everything the subscribed callbacks can read and change (the
    services and standard output); [print] writes one line to standard
    output. *)
Context {W : Type} (print : string → W → W).

(** A callback returns the state it leaves behind, and the exception it
    raised if it raised one. *)
Definition callback := Event → W → W * option exn.

Record t := mk {
  subscribers : gmap string (list callback);
  event_queue : list Event
}.

(** The bus built by [__new__]. *)
Definition new : t := mk ∅ [].

Definition subscribe (et : string) (cb : callback) (b : t) : t :=
  mk (<[et := default [] (subscribers b !! et) ++ [cb]]> (subscribers b))
     (event_queue b).

Definition publish (ev : Event) (b : t) : t :=
  mk (subscribers b) (event_queue b ++ [ev]).

(** The [for callback in ...] loop of [process_events].  The inner [try]
    catches [Exception] and prints; any other exception leaves the loop
    (and ends the dispatcher thread), which is the [Some] result. *)
Fixpoint run_callbacks (ev : Event) (cbs : list callback) (w : W)
  : W * option exn :=
  match cbs with
  | [] => (w, None)
  | cb :: rest =>
    match cb ev w with
    | (w', None) => run_callbacks ev rest w'
    | (w', Some e) =>
      if is_Exception e
      then run_callbacks ev rest
             (print ("Error processing event " +:+ event_type ev +:+ ": "
                     +:+ exn_str e) w')
      else (w', Some e)
    end
  end.

(** The body of the [while True] loop for an event taken off the queue. *)
Definition handle_event (subs : gmap string (list callback)) (ev : Event)
    (w : W) : W * option exn :=
  match subs !! event_type ev with
  | Some cbs => run_callbacks ev cbs w
  | None => (w, None)
  end.

(** One iteration of [process_events]: nothing happens on an empty
    queue ([queue.Empty], [continue]). *)
Definition step (b : t) (w : W) : t * W * option exn :=
  match event_queue b with
  | [] => (b, w, None)
  | ev :: q =>
    let '(w', r) := handle_event (subscribers b) ev w in
    (mk (subscribers b) q, w', r)
  end.

(** The dispatcher running through queued events, first in first out,
    as long as the thread lives.  The result lists the events left
    unprocessed. *)
Fixpoint process_events (subs : gmap string (list callback))
    (q : list Event) (w : W) : list Event * W * option exn :=
  match q with
  | [] => ([], w, None)
  | ev :: q' =>
    match handle_event subs ev w with
    | (w', None) => process_events subs q' w'
    | (w', Some e) => (q', w', Some e)
    end
  end.

Definition drain (b : t) (w : W) : t * W * option exn :=
  let '(q, w', r) := process_events (subscribers b) (event_queue b) w in
  (mk (subscribers b) q, w', r).


End bus.
Arguments t W : clear implicits.
Arguments callback W : clear implicits.
End EventBus.

(* ================================================================== *)
(** ** Factory method pattern: response DTOs *)

(** [len(s)] of a str held as UTF-8 bytes: the bytes that start a
    character. *)
Fixpoint utf8_length (s : string) : Z :=
  match s with
  | EmptyString => 0
  | String a s' =>
    (if N.eqb (N.land (Ascii.N_of_ascii a) 192) 128 then 0 else 1) + utf8_length s'
  end.

(** [len(v)] *)
Definition py_len (v : pyval) : result Z :=
  match v with
  | PStr s => Ok (utf8_length s)
  | PList l => Ok (Z.of_nat (length l))
  | PDict d => Ok (Z.of_nat (length d))
  | _ => Raise (TypeError "object has no len()")
  end.

(** [k in d] on the entries of a dict *)
Definition has_key (k : string) (d : list (string * pyval)) : bool :=
  bool_decide (is_Some (lookup_key k d)).

Definition unsupported : pyval := PDict [("error", PStr "Unsupported data type")].

Module StudentDTOFactory.
Fixpoint create_response_dto (data : pyval) : pyval :=
  match data with
  | PCourse c =>
    PDict [("course_id", PStr (course_id c));
           ("name", PStr (name c));
           ("instructor", PStr (instructor c));
           ("available_seats", PInt (capacity c - enrolled c));
           ("schedule", Course_schedule);
           ("prerequisites", PList (map PStr (prerequisites c)));
           ("can_enroll", PBool true)]
  | PList l => PDict [("courses", PList (map create_response_dto l))]
  | _ => unsupported
  end.
End StudentDTOFactory.

Module FacultyDTOFactory.
Definition create_response_dto (data : pyval) : result pyval :=
  match data with
  | PCourse c =>
    pct ← percent (enrolled c) (capacity c);
    Ok (PDict [("course_id", PStr (course_id c));
               ("name", PStr (name c));
               ("enrollment_count", PInt (enrolled c));
               ("capacity", PInt (capacity c));
               ("enrollment_percentage", pct)])
  | PDict d =>
    match lookup_key "students" d with
    | Some students =>
      n ← py_len students;
      Ok (PDict [("course_id", dict_get "course_id" d);
                 ("students", students);
                 ("total_enrolled", PInt n)])
    | None => Ok unsupported
    end
  | _ => Ok unsupported
  end.
End FacultyDTOFactory.

Module AdminDTOFactory.
(** [now] is the reading of the clock taken in the report branch. *)
Definition create_response_dto (now : timestamp) (data : pyval) : result pyval :=
  match data with
  | PCourse c =>
    pct ← percent (enrolled c) (capacity c);
    Ok (PDict [("course_id", PStr (course_id c));
               ("name", PStr (name c));
               ("instructor", PStr (instructor c));
               ("capacity", PInt (capacity c));
               ("enrolled", PInt (enrolled c));
               ("utilization_rate", pct);
               ("schedule", Course_schedule);
               ("prerequisites", PList (map PStr (prerequisites c)));
               ("status", PStr "active")])
  | PDict d =>
    match lookup_key "report_type" d with
    | Some report_type =>
      Ok (PDict [("report_type", report_type);
                 ("generated_at", PStr now);
                 ("data", default (PList []) (lookup_key "data" d));
                 ("summary", default (PDict []) (lookup_key "summary" d))])
    | None => Ok unsupported
    end
  | _ => Ok unsupported
  end.
End AdminDTOFactory.

(** The three implementations of [DTOFactory], and the call through the
    abstract method. *)
Inductive DTOFactory := Student_dto | Faculty_dto | Admin_dto.

Definition create_response_dto (f : DTOFactory) (now : timestamp) (data : pyval)
  : result pyval :=
  match f with
  | Student_dto => Ok (StudentDTOFactory.create_response_dto data)
  | Faculty_dto => FacultyDTOFactory.create_response_dto data
  | Admin_dto => AdminDTOFactory.create_response_dto now data
  end.

(** Does the factory's [isinstance] chain have a branch for the value? *)
Definition supported (f : DTOFactory) (data : pyval) : bool :=
  match f, data with
  | _, PCourse _ => true
  | Student_dto, PList _ => true
  | Faculty_dto, PDict d => has_key "students" d
  | Admin_dto, PDict d => has_key "report_type" d
  | _, _ => false
  end.

(** The one place where a factory reads the clock: the administrator's
    factory on a report bundle. *)
Definition reads_clock (f : DTOFactory) (data : pyval) : bool :=
  match f, data with
  | Admin_dto, PDict d => has_key "report_type" d
  | _, _ => false
  end.

(* ================================================================== *)
(** ** Strategy pattern: enrollment validation *)

(** The dict returned by [validate]. *)
Record ValidationResult := mkResult {
  valid : bool;
  message : string
}.

Definition result_py (r : ValidationResult) : pyval :=
  PDict [("valid", PBool (valid r)); ("message", PStr (message r))].

(** The [context] dict handed to the strategies: [ctx_course] is
    [context.get("course")], the two lists are the [get]s with their
    default [[]]. *)
Record context := mkContext {
  ctx_course : option Course;
  student_completed_courses : list string;
  student_current_courses : list string
}.

(** [ValidationStrategy.validate(student_id, course_id, context)] *)
Definition ValidationStrategy := string → string → context → ValidationResult.

Module PrerequisiteValidationStrategy.
Definition missing_prereqs (c : Course) (student_courses : list string)
  : list string :=
  filter (λ prereq, prereq ∉ student_courses) (prerequisites c).

Definition validate : ValidationStrategy := λ student_id course_id context,
  match ctx_course context with
  | None => mkResult true "No prerequisites required"
  | Some course =>
    match prerequisites course with
    | [] => mkResult true "No prerequisites required"
    | _ =>
      match missing_prereqs course (student_completed_courses context) with
      | [] => mkResult true "Prerequisites satisfied"
      | missing => mkResult false ("Missing prerequisites: " +:+ join ", " missing)
      end
    end
  end.
End PrerequisiteValidationStrategy.

Module CapacityValidationStrategy.
Definition validate : ValidationStrategy := λ student_id course_id context,
  match ctx_course context with
  | None => mkResult false "Course not found"
  | Some course =>
    if bool_decide (enrolled course >= capacity course)
    then mkResult false "Course is at full capacity"
    else mkResult true "Capacity available"
  end.
End CapacityValidationStrategy.

Module ScheduleConflictValidationStrategy.
Definition validate : ValidationStrategy := λ student_id course_id context,
  match ctx_course context with
  | None => mkResult false "Course not found"
  | Some course =>
    if bool_decide (Z.of_nat (length (student_current_courses context)) >= 5)
    then mkResult false "Schedule conflict: Maximum 5 courses allowed"
    else mkResult true "No schedule conflicts"
  end.
End ScheduleConflictValidationStrategy.

Module ValidationContext.
(** [self.strategies] *)
Definition t := list ValidationStrategy.

Definition new : t := [].

Definition add_strategy (strategy : ValidationStrategy) (self : t) : t :=
  self ++ [strategy].

(** The loop of [validate_all]: the result is appended, then the loop
    breaks if it is not valid. *)
Fixpoint validate_all (self : t) (student_id course_id : string)
    (ctx : context) : list ValidationResult :=
  match self with
  | [] => []
  | strategy :: rest =>
    let result := strategy student_id course_id ctx in
    if valid result
    then result :: validate_all rest student_id course_id ctx
    else [result]
  end.
End ValidationContext.

(* ================================================================== *)
(** ** Strategy pattern: grade processing *)

(** The dict returned by [process]. *)
Record GradeResult := mkGradeResult {
  scheme : string;
  grades_valid : bool;
  invalid_entries : list pyval
}.

Definition processed_py (p : GradeResult) : pyval :=
  PDict [("scheme", PStr (scheme p));
         ("valid", PBool (grades_valid p));
         ("invalid_entries", PList (invalid_entries p))].

(** [v not in VALID] for a set of strings: hashing [v] raises on a list or
    a dict; only an equal string is a member. *)
Definition not_in_set (VALID : list string) (v : pyval) : result bool :=
  if hashable v
  then Ok (match v with PStr s => negb (mem s VALID) | _ => true end)
  else Raise (TypeError "unhashable type").

(** [[g for g in grades_data if g.get("grade") not in VALID]] *)
Fixpoint invalid_of (VALID : list string) (grades_data : list pyval)
  : result (list pyval) :=
  match grades_data with
  | [] => Ok []
  | g :: rest =>
    grade ← get g "grade";
    bad ← not_in_set VALID grade;
    invalid ← invalid_of VALID rest;
    Ok (if (bad : bool) then g :: invalid else invalid)
  end.

Inductive GradeProcessingStrategy := LetterGradeStrategy | PassFailGradeStrategy.

Definition VALID (s : GradeProcessingStrategy) : list string :=
  match s with
  | LetterGradeStrategy => ["A"; "A-"; "B+"; "B"; "B-"; "C+"; "C"; "C-"; "D"; "F"]
  | PassFailGradeStrategy => ["P"; "F"]
  end.

Definition scheme_name (s : GradeProcessingStrategy) : string :=
  match s with
  | LetterGradeStrategy => "letter"
  | PassFailGradeStrategy => "pass_fail"
  end.

(** [strategy.process(grades_data)], the same body in both classes. *)
Definition process (s : GradeProcessingStrategy) (grades_data : list pyval)
  : result GradeResult :=
  invalid ← invalid_of (VALID s) grades_data;
  Ok (mkGradeResult (scheme_name s) (bool_decide (length invalid = 0%nat)) invalid).

(** [GradeProcessor(strategy).process] *)
Definition GradeProcessor_process := process.

(* ================================================================== *)
(** ** Admin notification factory *)

(** Two builtins are taken as given: [repr] is [str(v)] on a value that
    is not a str, and [int_of] is [int(v)] on a str or a float, [None]
    where it raises. *)
Class Builtins := {
  repr : pyval → string;
  int_of : pyval → option Z
}.

(** [str(v)], also what an f-string puts for [{v}]. *)
Definition py_str `{!Builtins} (v : pyval) : string :=
  match v with PStr s => s | _ => repr v end.

(** [int(v)]: [None] where it raises. *)
Definition py_int `{!Builtins} (v : pyval) : option Z :=
  match v with
  | PStr _ | PFloat _ | PPercent _ _ => int_of v
  | PInt z => Some z
  | PBool b => Some (Z.b2z b)
  | PNone | PList _ | PDict _ | PCourse _ => None
  end.

Module AdminNotificationFactory.
(** [now] is the reading of the clock for the [timestamp] entry; a key
    assigned later is added at the end of the dict. *)
Definition create `{!Builtins} (now : timestamp)
    (notification_type : string) (data : list (string * pyval)) : pyval :=
  let base : list (string * pyval) :=
    [("type", PStr notification_type); ("timestamp", PStr now)] in
  if String.eqb notification_type "system_config_updated" then
    PDict (base ++
      [("message", default (PStr "System configuration updated")
                           (lookup_key "message" data));
       ("recipients", PList [PStr "students"; PStr "faculty"; PStr "administrators"])])
  else if String.eqb notification_type "course_created" then
    PDict (base ++
      [("message", PStr ("Course " +:+ py_str (dict_get "course_id" data) +:+ " created"));
       ("recipients", PList [PStr "administrators"; PStr "faculty"])])
  else
    PDict (base ++
      [("message", default (PStr "Notification") (lookup_key "message" data))]).
End AdminNotificationFactory.

(* ================================================================== *)
(** ** HTTP plumbing *)

(** What a route gives back: [jsonify(body)] with a status, or an
    exception that nothing caught, which Flask answers with a 500. *)
Inductive response :=
| Resp (status : Z) (body : pyval)
| Crash (e : exn).

Definition status_of (r : response) : Z :=
  match r with Resp s _ => s | Crash _ => 500 end.

(** The readings of [datetime.now()] during one call, in the order taken. *)
Definition clock := nat → timestamp.

(* ================================================================== *)
(** ** Student service *)

(** An entry of [student_data]. *)
Record StudentRecord := mkStudent {
  completed_courses : list string;
  current_courses : list string;
  enrollment_history : list pyval
}.

Module StudentService.
Record t := mk {
  courses : Dict.t Course;
  student_data : gmap string StudentRecord
}.

(** The mock data of [__init__]. *)
Definition init : t :=
  mk
    [("CS101", mkCourse "CS101" "Intro to Programming" "Dr. Smith" 30 25 []);
     ("CS201", mkCourse "CS201" "Data Structures" "Dr. Johnson" 25 20 ["CS101"]);
     ("CS301", mkCourse "CS301" "Algorithms" "Dr. Brown" 20 15 ["CS101"; "CS201"])]
    {[ "STU001" := mkStudent ["CS101"] ["CS201"] [] ]}.

(** [GET /courses] *)
Definition get_courses (self : t) : response :=
  Resp 200 (StudentDTOFactory.create_response_dto
              (PList (map PCourse (Dict.values (courses self))))).

(** The validator assembled by [enroll_student] for a course. *)
Definition validator_for (course : Course) : ValidationContext.t :=
  let validator := ValidationContext.new in
  let validator :=
    match prerequisites course with
    | [] => validator
    | _ => ValidationContext.add_strategy PrerequisiteValidationStrategy.validate validator
    end in
  let validator :=
    ValidationContext.add_strategy CapacityValidationStrategy.validate validator in
  ValidationContext.add_strategy ScheduleConflictValidationStrategy.validate validator.

(** The [context] dict of [enroll_student]. *)
Definition context_for (self : t) (student_id : string)
    (course : Course) : context :=
  mkContext (Some course)
    (from_option completed_courses [] (student_data self !! student_id))
    (from_option current_courses [] (student_data self !! student_id)).

(** [POST /enroll].  The result is the service afterwards, the events
    published and the response.  Clock readings: 0 for the history
    entry, 1 for the event. *)
Definition enroll_student (now : clock) (body : pyval) (self : t)
  : t * list Event * response :=
  match get_json_or_empty body with
  | PDict d =>
    match dict_get "student_id" d, dict_get "course_id" d with
    | PStr student_id, PStr course_id =>
      match Dict.get course_id (courses self) with
      | None => (self, [], Resp 404 (PDict [("error", PStr "Course not found")]))
      | Some course =>
        let validator := validator_for course in
        let ctx := context_for self student_id course in
        let validation_results :=
          ValidationContext.validate_all validator student_id course_id ctx in
        match find (λ r, negb (valid r)) validation_results with
        | Some failed_validation =>
          (self, [],
           Resp 400 (PDict [("success", PBool false);
                            ("message", PStr (message failed_validation));
                            ("validation_results",
                             PList (map result_py validation_results))]))
        | None =>
          let course' := set_enrolled course (enrolled course + 1) in
          let record :=
            default (mkStudent [] [] []) (student_data self !! student_id) in
          let record' :=
            mkStudent (completed_courses record)
              (current_courses record ++ [course_id])
              (enrollment_history record ++
                 [PDict [("course_id", PStr course_id);
                         ("action", PStr "enrolled");
                         ("timestamp", PStr (now 0%nat))]]) in
          let event :=
            mkEvent "student_enrolled"
              [("student_id", PStr student_id);
               ("course_id", PStr course_id);
               ("advisor_email",
                PStr ("advisor_" +:+ student_id +:+ "@university.edu"))]
              (now 1%nat) in
          (mk (Dict.set course_id course' (courses self))
                            (<[student_id := record']> (student_data self)),
           [event],
           Resp 200 (PDict [("success", PBool true);
                            ("message",
                             PStr ("Successfully enrolled in " +:+ name course));
                            ("validation_results",
                             PList (map result_py validation_results))]))
        end
      end
    | _, _ => (self, [], Resp 400 (PDict [("error", PStr "Invalid payload")]))
    end
  | _ => (self, [], Crash (AttributeError "object has no attribute 'get'"))
  end.

(** [POST /drop].  Clock reading 0 is for the event. *)
Definition drop_course (now : clock) (body : pyval) (self : t)
  : t * list Event * response :=
  match get_json_or_empty body with
  | PDict d =>
    match dict_get "student_id" d, dict_get "course_id" d with
    | PStr student_id, PStr course_id =>
      match Dict.get course_id (courses self) with
      | None => (self, [], Resp 404 (PDict [("error", PStr "Course not found")]))
      | Some course =>
        match student_data self !! student_id with
        | Some record =>
          if mem course_id (current_courses record) then
            let course' := set_enrolled course (enrolled course - 1) in
            let record' :=
              mkStudent (completed_courses record)
                (remove_first course_id (current_courses record))
                (enrollment_history record) in
            let event :=
              mkEvent "student_dropped"
                [("student_id", PStr student_id); ("course_id", PStr course_id)]
                (now 0%nat) in
            (mk (Dict.set course_id course' (courses self))
                              (<[student_id := record']> (student_data self)),
             [event],
             Resp 200 (PDict [("success", PBool true);
                              ("message",
                               PStr ("Successfully dropped " +:+ name course))]))
          else
            (self, [],
             Resp 400 (PDict [("error", PStr "Student not enrolled in this course")]))
        | None =>
          (self, [],
           Resp 400 (PDict [("error", PStr "Student not enrolled in this course")]))
        end
      end
    | _, _ => (self, [], Resp 400 (PDict [("error", PStr "Invalid payload")]))
    end
  | _ => (self, [], Crash (AttributeError "object has no attribute 'get'"))
  end.
End StudentService.

(* ================================================================== *)
(** ** Faculty service *)

(** Are two values the same dict key?  Numbers compare by value across
    bool, int and float; the values a request body cannot hold
    ([PPercent], [PCourse]) are never equal to a stored key here. *)
Definition number (v : pyval) : option Q :=
  match v with
  | PBool b => Some (inject_Z (Z.b2z b))
  | PInt z => Some (inject_Z z)
  | PFloat q => Some q
  | _ => None
  end.

Definition key_eqb (a b : pyval) : bool :=
  match a, b with
  | PNone, PNone => true
  | PStr s, PStr s' => String.eqb s s'
  | _, _ =>
    match number a, number b with
    | Some x, Some y => Qeq_bool x y
    | _, _ => false
    end
  end.

(** [book[k] = v] on a dict whose keys are arbitrary hashable values. *)
Fixpoint book_set (k v : pyval) (book : list (pyval * pyval)) : list (pyval * pyval) :=
  match book with
  | [] => [(k, v)]
  | (k', v') :: book' =>
    if key_eqb k k' then (k', v) :: book' else (k', v') :: book_set k v book'
  end.

(** [g[k]] on an entry of the batch. *)
Definition subscript (g : pyval) (k : string) : result pyval :=
  match g with
  | PDict d =>
    match lookup_key k d with
    | Some v => Ok v
    | None => Raise (KeyError k)
    end
  | _ => Raise (TypeError "object is not subscriptable")
  end.

Module FacultyService.
Record t := mk {
  courses : Dict.t Course;
  rosters : gmap string (list string);
  grades : gmap string (list (pyval * pyval))
}.

(** The mock data of [__init__]. *)
Definition init : t :=
  mk [("CS101", mkCourse "CS101" "Intro to Programming" "Dr. Smith" 30 25 []);
      ("CS201", mkCourse "CS201" "Data Structures" "Dr. Johnson" 25 20 [])]
     {[ "CS101" := ["STU001"; "STU002"; "STU003"];
        "CS201" := ["STU001"; "STU004"; "STU005"] ]}
     ∅.

(** [GET /roster/<course_id>] *)
Definition get_roster (course_id : string) (self : t) : response :=
  match rosters self !! course_id with
  | None => Resp 404 (PDict [("error", PStr "Course not found")])
  | Some roster =>
    let roster_data :=
      PDict [("course_id", PStr course_id);
             ("students",
              PList (map (λ sid, PDict [("student_id", PStr sid);
                                        ("name", PStr ("Student " +:+ sid))])
                         roster))] in
    match FacultyDTOFactory.create_response_dto roster_data with
    | Ok response => Resp 200 response
    | Raise e => Crash e
    end
  end.

(** The loop that stores the grades and publishes one event for each;
    entry [i] of the batch reads the clock once.  A raise leaves what
    was stored and published before it. *)
Fixpoint store_grades (now : clock) (i : nat) (course_id : string)
    (grades_data : list pyval) (book : list (pyval * pyval))
  : list (pyval * pyval) * list Event * option exn :=
  match grades_data with
  | [] => (book, [], None)
  | grade_entry :: rest =>
    match subscript grade_entry "student_id" with
    | Raise e => (book, [], Some e)
    | Ok student_id =>
      match subscript grade_entry "grade" with
      | Raise e => (book, [], Some e)
      | Ok grade =>
        if hashable student_id then
          let event :=
            mkEvent "grade_submitted"
              [("student_id", student_id);
               ("course_id", PStr course_id);
               ("grade", grade)]
              (now i) in
          let '(book', events, r) :=
            store_grades now (S i) course_id rest (book_set student_id grade book) in
          (book', event :: events, r)
        else (book, [], Some (TypeError "unhashable type"))
      end
    end
  end.

(** The strategy chosen by [submit_grades]. *)
Definition strategy_for (course_id : string) : GradeProcessingStrategy :=
  if startswith "PF" course_id then PassFailGradeStrategy else LetterGradeStrategy.

(** [POST /submit_grades] *)
Definition submit_grades (now : clock) (body : pyval) (self : t)
  : t * list Event * response :=
  match get_json_or_empty body with
  | PDict d =>
    let course_id := dict_get "course_id" d in
    let grades_data := dict_get "grades" d in
    if negb (hashable course_id) then (self, [], Crash (TypeError "unhashable type"))
    else
      match course_id with
      | PStr course_id =>
        match Dict.get course_id (courses self) with
        | None => (self, [], Resp 404 (PDict [("error", PStr "Course not found")]))
        | Some _ =>
          match grades_data with
          | PList grades_data =>
            match GradeProcessor_process (strategy_for course_id) grades_data with
            | Raise e => (self, [], Crash e)
            | Ok processed =>
              if negb (grades_valid processed) then
                (self, [],
                 Resp 400 (PDict [("success", PBool false);
                                  ("error", PStr "Invalid grade entries");
                                  ("details", processed_py processed)]))
              else
                let book := default [] (grades self !! course_id) in
                let '(book', events, r) :=
                  store_grades now 0 course_id grades_data book in
                (mk (courses self) (rosters self) (<[course_id := book']> (grades self)),
                 events,
                 match r with
                 | Some e => Crash e
                 | None =>
                   Resp 200
                     (PDict [("success", PBool true);
                             ("message",
                              PStr ("Grades submitted for "
                                    +:+ pretty (Z.of_nat (length grades_data))
                                    +:+ " students in " +:+ course_id));
                             ("processing", processed_py processed)])
                 end)
            end
          | _ => (self, [], Resp 400 (PDict [("error", PStr "Invalid grades payload")]))
          end
        end
      | _ => (self, [], Resp 404 (PDict [("error", PStr "Course not found")]))
      end
  | _ => (self, [], Crash (AttributeError "object has no attribute 'get'"))
  end.


(** The two observer callbacks: the service afterwards and the lines
    printed. *)
Definition _on_student_enrolled (event : Event) (self : t) : t * list string :=
  match dict_get "course_id" (data event), dict_get "student_id" (data event) with
  | PStr cid, PStr sid =>
    match rosters self !! cid with
    | Some roster =>
      if mem sid roster then (self, [])
      else
        (mk (courses self) (<[cid := roster ++ [sid]]> (rosters self)) (grades self),
         ["FACULTY SERVICE: Added " +:+ sid +:+ " to roster for " +:+ cid])
    | None => (self, [])
    end
  | _, _ => (self, [])
  end.

Definition _on_student_dropped (event : Event) (self : t) : t * list string :=
  match dict_get "course_id" (data event), dict_get "student_id" (data event) with
  | PStr cid, PStr sid =>
    match rosters self !! cid with
    | Some roster =>
      if mem sid roster then
        (mk (courses self) (<[cid := remove_first sid roster]> (rosters self))
            (grades self),
         ["FACULTY SERVICE: Removed " +:+ sid +:+ " from roster for " +:+ cid])
      else (self, [])
    | None => (self, [])
    end
  | _, _ => (self, [])
  end.
End FacultyService.

(* ================================================================== *)
(** ** Notification service *)

Module NotificationService.
(** [data[k]] on the payload of an event. *)
Definition item (d : list (string * pyval)) (k : string) : result pyval :=
  match lookup_key k d with
  | Some v => Ok v
  | None => Raise (KeyError k)
  end.

(** Each handler gives the lines it printed, or the exception it raised
    before printing anything. *)
Definition _handle_enrollment_notification `{!Builtins} (event : Event)
  : result (list string) :=
  let data := data event in
  student_id ← item data "student_id";
  course_id ← item data "course_id";
  Ok ["NOTIFICATION: Student " +:+ py_str student_id +:+ " enrolled in "
        +:+ py_str course_id;
      "   â†’ Notifying advisor: "
        +:+ py_str (default (PStr "advisor@university.edu")
                            (lookup_key "advisor_email" data));
      "   â†’ Updating billing system for course fees"].

Definition _handle_drop_notification `{!Builtins} (event : Event)
  : result (list string) :=
  let data := data event in
  student_id ← item data "student_id";
  course_id ← item data "course_id";
  Ok ["NOTIFICATION: Student " +:+ py_str student_id +:+ " dropped "
        +:+ py_str course_id;
      "   â†’ Notifying waitlisted students"].

Definition _handle_grade_notification `{!Builtins} (event : Event)
  : result (list string) :=
  let data := data event in
  grade ← item data "grade";
  student_id ← item data "student_id";
  course_id ← item data "course_id";
  Ok ["NOTIFICATION: Grade " +:+ py_str grade +:+ " submitted for student "
        +:+ py_str student_id +:+ " in " +:+ py_str course_id;
      "   â†’ Emailing student " +:+ py_str student_id;
      "   â†’ Informing department administrator"].

Definition _handle_course_created_notification `{!Builtins} (event : Event)
  : result (list string) :=
  course_id ← item (data event) "course_id";
  Ok ["NOTIFICATION: New course " +:+ py_str course_id +:+ " created by admin"].

Definition _handle_system_config_notification `{!Builtins} (event : Event)
  : result (list string) :=
  let msg := default (PStr "Configuration changed") (lookup_key "message" (data event)) in
  Ok ["SYSTEM CONFIG UPDATE: " +:+ py_str msg;
      "   â†’ Notifying all stakeholders: students, faculty, administrators"].
End NotificationService.

(* ================================================================== *)
(** ** Administrator service *)

Module AdminService.
Record t := mk {
  courses : Dict.t Course
}.

(** The mock data of [__init__]. *)
Definition init : t :=
  mk [("CS101", mkCourse "CS101" "Intro to Programming" "Dr. Smith" 30 25 []);
      ("CS201", mkCourse "CS201" "Data Structures" "Dr. Johnson" 25 20 []);
      ("CS301", mkCourse "CS301" "Algorithms" "Dr. Brown" 20 15 [])].

(** [GET /courses].  The factory is called on courses, where it does
    not read the clock. *)
Definition get_all_courses (now : clock) (self : t) : response :=
  match mapM (λ course, AdminDTOFactory.create_response_dto (now 0%nat) (PCourse course))
             (Dict.values (courses self)) with
  | Ok admin_courses => Resp 200 (PDict [("courses", PList admin_courses)])
  | Raise e => Crash e
  end.

(** The narrowing of [capacity] in [create_course]: an int is kept,
    anything else goes through [int()] and becomes 20 when that raises.
    A bool is an int for [isinstance] and is kept too; it is held here
    as the integer it equals and computes as ([True] as 1, [False] as
    0), so a payload showing such a capacity has 1 or 0 where [jsonify]
    writes [true] or [false]. *)
Definition narrow_capacity `{!Builtins} (capacity : pyval) : Z :=
  match capacity with
  | PInt z => z
  | PBool b => Z.b2z b
  | _ => default 20 (py_int capacity)
  end.

Definition narrow_prerequisites `{!Builtins} (prerequisites : pyval) : list string :=
  match prerequisites with
  | PList l => map py_str l
  | _ => []
  end.

(** [POST /course].  Clock readings: 0 for the notification, 1 for the
    event (the factory does not read the clock on a course).  The course
    is stored and the event published before the response is built. *)
Definition create_course `{!Builtins} (now : clock) (body : pyval) (self : t)
  : t * list Event * response :=
  match get_json_or_empty body with
  | PDict d =>
    let capacity := default (PInt 20) (lookup_key "capacity" d) in
    let prerequisites := default (PList []) (lookup_key "prerequisites" d) in
    match dict_get "course_id" d with
    | PStr course_id =>
      match dict_get "name" d with
      | PStr name =>
        match dict_get "instructor" d with
        | PStr instructor =>
          let capacity := narrow_capacity capacity in
          let prerequisites := narrow_prerequisites prerequisites in
          match Dict.get course_id (courses self) with
          | Some _ =>
            (self, [], Resp 400 (PDict [("error", PStr "Course already exists")]))
          | None =>
            let new_course :=
              mkCourse course_id name instructor capacity 0 prerequisites in
            let self' := mk (Dict.set course_id new_course (courses self)) in
            let payload :=
              [("course_id", PStr course_id);
               ("name", PStr name);
               ("instructor", PStr instructor);
               ("notification",
                AdminNotificationFactory.create (now 0%nat) "course_created"
                  [("course_id", PStr course_id)])] in
            let event := mkEvent "course_created" payload (now 1%nat) in
            (self', [event],
             match AdminDTOFactory.create_response_dto (now 2%nat) (PCourse new_course) with
             | Ok response =>
               Resp 200 (PDict [("success", PBool true); ("course", response)])
             | Raise e => Crash e
             end)
          end
        | _ => (self, [], Resp 400 (PDict [("error", PStr "Invalid payload: instructor")]))
        end
      | _ => (self, [], Resp 400 (PDict [("error", PStr "Invalid payload: name")]))
      end
    | _ => (self, [], Resp 400 (PDict [("error", PStr "Invalid payload: course_id")]))
    end
  | _ => (self, [], Crash (AttributeError "object has no attribute 'get'"))
  end.

(** [sum(f(course) for course in self.courses.values())] *)
Definition total (f : Course → Z) (self : t) : Z :=
  foldr (λ course acc, f course + acc) 0 (Dict.values (courses self)).

(** One entry of the [data] list of the report. *)
Definition report_entry (course : Course) : result pyval :=
  utilization ← percent (enrolled course) (capacity course);
  Ok (PDict [("course_id", PStr (course_id course));
             ("name", PStr (name course));
             ("enrolled", PInt (enrolled course));
             ("capacity", PInt (capacity course));
             ("utilization", utilization)]).

(** [GET /reports/enrollment].  Clock reading 0 is the factory's. *)
Definition generate_enrollment_report (now : clock) (self : t) : response :=
  let total_capacity := total capacity self in
  let total_enrolled := total enrolled self in
  let report :=
    entries ← mapM report_entry (Dict.values (courses self));
    overall_utilization ← percent total_enrolled total_capacity;
    AdminDTOFactory.create_response_dto (now 0%nat)
      (PDict [("report_type", PStr "enrollment_summary");
              ("data", PList entries);
              ("summary",
               PDict [("total_courses", PInt (Z.of_nat (length (courses self))));
                      ("total_capacity", PInt total_capacity);
                      ("total_enrolled", PInt total_enrolled);
                      ("overall_utilization", overall_utilization)])]) in
  match report with
  | Ok response => Resp 200 response
  | Raise e => Crash e
  end.

(** [POST /config].  Clock readings: 0 for the notification, 1 for the
    event. *)
Definition update_system_config `{!Builtins} (now : clock) (body : pyval)
  : list Event * response :=
  match get_json_or_empty body with
  | PDict d =>
    let message := default (PStr "System maintenance scheduled") (lookup_key "message" d) in
    let notification :=
      AdminNotificationFactory.create (now 0%nat) "system_config_updated"
        [("message", message)] in
    ([mkEvent "system_config_updated"
        [("message", message); ("notification", notification)] (now 1%nat)],
     Resp 200 (PDict [("success", PBool true); ("message", message)]))
  | _ => ([], Crash (AttributeError "object has no attribute 'get'"))
  end.
End AdminService.

(* ================================================================== *)
(** ** The running system *)

(** Everything the callbacks of the bus can reach. *)
Record World := mkWorld {
  student : StudentService.t;
  faculty : FacultyService.t;
  admin : AdminService.t;
  stdout : list string
}.

Definition print (line : string) (w : World) : World :=
  mkWorld (student w) (faculty w) (admin w) (stdout w ++ [line]).

Definition print_lines (lines : list string) (w : World) : World :=
  mkWorld (student w) (faculty w) (admin w) (stdout w ++ lines).

(** A handler of the notification service as a callback of the bus. *)
Definition notifier (h : Event → result (list string)) : EventBus.callback World :=
  λ event w,
    match h event with
    | Ok lines => (print_lines lines w, None)
    | Raise e => (w, Some e)
    end.

(** A callback of the faculty service as a callback of the bus. *)
Definition faculty_callback (h : Event → FacultyService.t → FacultyService.t * list string)
  : EventBus.callback World :=
  λ event w,
    let '(f, lines) := h event (faculty w) in
    (mkWorld (student w) f (admin w) (stdout w ++ lines), None).

(** The process: the services, the singleton bus, and whether the
    dispatcher thread is still running. *)
Record System := mkSystem {
  world : World;
  bus : EventBus.t World;
  dispatcher_alive : bool
}.

Module System.
(** The subscriptions made by [NotificationService()] and then
    [FacultyService()], in the order of [__main__] and of the tests. *)
Definition subscriptions `{!Builtins} : EventBus.t World :=
  let b := EventBus.new in
  let b := EventBus.subscribe "student_enrolled"
             (notifier NotificationService._handle_enrollment_notification) b in
  let b := EventBus.subscribe "student_dropped"
             (notifier NotificationService._handle_drop_notification) b in
  let b := EventBus.subscribe "grade_submitted"
             (notifier NotificationService._handle_grade_notification) b in
  let b := EventBus.subscribe "course_created"
             (notifier NotificationService._handle_course_created_notification) b in
  let b := EventBus.subscribe "system_config_updated"
             (notifier NotificationService._handle_system_config_notification) b in
  let b := EventBus.subscribe "student_enrolled"
             (faculty_callback FacultyService._on_student_enrolled) b in
  EventBus.subscribe "student_dropped"
    (faculty_callback FacultyService._on_student_dropped) b.

Definition init `{!Builtins} : System :=
  mkSystem (mkWorld StudentService.init FacultyService.init AdminService.init [])
           subscriptions true.

(** What can happen next: a request reaches a route, or the dispatcher
    thread makes one turn of its loop. *)
Inductive action :=
| Enroll (now : clock) (body : pyval)
| Drop (now : clock) (body : pyval)
| SubmitGrades (now : clock) (body : pyval)
| CreateCourse (now : clock) (body : pyval)
| UpdateConfig (now : clock) (body : pyval)
| Dispatch.

Definition publish_all (events : list Event) (b : EventBus.t World) : EventBus.t World :=
  foldl (λ b event, EventBus.publish event b) b events.

Definition step `{!Builtins} (a : action) (s : System) : System * option response :=
  let w := world s in
  match a with
  | Enroll now body =>
    let '(st, events, r) := StudentService.enroll_student now body (student w) in
    (mkSystem (mkWorld st (faculty w) (admin w) (stdout w))
              (publish_all events (bus s)) (dispatcher_alive s), Some r)
  | Drop now body =>
    let '(st, events, r) := StudentService.drop_course now body (student w) in
    (mkSystem (mkWorld st (faculty w) (admin w) (stdout w))
              (publish_all events (bus s)) (dispatcher_alive s), Some r)
  | SubmitGrades now body =>
    let '(f, events, r) := FacultyService.submit_grades now body (faculty w) in
    (mkSystem (mkWorld (student w) f (admin w) (stdout w))
              (publish_all events (bus s)) (dispatcher_alive s), Some r)
  | CreateCourse now body =>
    let '(a, events, r) := AdminService.create_course now body (admin w) in
    (mkSystem (mkWorld (student w) (faculty w) a (stdout w))
              (publish_all events (bus s)) (dispatcher_alive s), Some r)
  | UpdateConfig now body =>
    let '(events, r) := AdminService.update_system_config now body in
    (mkSystem w (publish_all events (bus s)) (dispatcher_alive s), Some r)
  | Dispatch =>
    if dispatcher_alive s then
      let '(b, w', r) := EventBus.step print (bus s) w in
      (mkSystem w' b (bool_decide (r = None)), None)
    else (s, None)
  end.

Definition run `{!Builtins} (actions : list action) (s : System) : System :=
  foldl (λ s a, (step a s).1) s actions.
End System.

(** Builtins for running the model on examples whose result does not
    depend on them. *)
Definition sample_builtins : Builtins :=
  {| repr := λ _, "<object>"; int_of := λ _, None |}.

(** The words of the specification on grade batches: the grade of an
    entry, whether it lies in the legal set of the scheme, and the entries
    of a batch whose grade lies outside it. *)
Definition grade_of (g : pyval) : pyval :=
  match g with PDict d => dict_get "grade" d | _ => PNone end.

Definition legal_grade (s : GradeProcessingStrategy) (g : pyval) : bool :=
  match grade_of g with PStr x => mem x (VALID s) | _ => false end.

Definition illegal_entries (s : GradeProcessingStrategy) (batch : list pyval)
  : list pyval :=
  filter (λ g, legal_grade s g = false) batch.

(** An entry of a grade batch as a request carries it: a JSON object whose
    grade, if it has one, is not itself an array or an object. *)
Definition grade_entry (g : pyval) : bool :=
  match g with PDict d => hashable (dict_get "grade" d) | _ => false end.

(** The student and the course named by a request body, when both are
    strs. *)
Definition body_ids (body : pyval) : option (string * string) :=
  match get_json_or_empty body with
  | PDict d =>
    match dict_get "student_id" d, dict_get "course_id" d with
    | PStr student_id, PStr course_id => Some (student_id, course_id)
    | _, _ => None
    end
  | _ => None
  end.

(** The requests that change the student service, and the service after
    a sequence of them, handled one after the other. *)
Inductive student_request :=
| PostEnroll (now : clock) (body : pyval)
| PostDrop (now : clock) (body : pyval).

Definition handle_student_request (self : StudentService.t) (req : student_request)
  : StudentService.t :=
  match req with
  | PostEnroll now body => (StudentService.enroll_student now body self).1.1
  | PostDrop now body => (StudentService.drop_course now body self).1.1
  end.

Definition handle_student_requests (reqs : list student_request)
    (self : StudentService.t) : StudentService.t :=
  foldl handle_student_request self reqs.

(** How often [x] occurs in a list, and how often a course occurs among
    the current courses of all the students together. *)
Fixpoint count (x : string) (l : list string) : nat :=
  match l with
  | [] => 0
  | y :: l' => (if decide (x = y) then 1 else 0) + count x l'
  end.

Definition holders (course_id : string) (students : gmap string StudentRecord) : nat :=
  map_fold (λ _ record n, count course_id (current_courses record) + n)%nat 0%nat students.

(** The invariant of the student service: a course has at least as many
    students enrolled as hold it among their current courses, and no more
    than its capacity. *)
Definition seats_consistent (self : StudentService.t) : Prop :=
  ∀ course_id course,
    Dict.get course_id (StudentService.courses self) = Some course →
    Z.of_nat (holders course_id (StudentService.student_data self)) ≤ enrolled course
    ∧ enrolled course ≤ capacity course.

(** What the seeded student service keeps true of CS301: the course map
    has the three seeded ids only, CS301 requires CS201, and no student
    has completed CS201. *)
Definition CS301_closed (self : StudentService.t) : Prop :=
  (∀ course_id, is_Some (Dict.get course_id (StudentService.courses self)) →
                course_id ∈ ["CS101"; "CS201"; "CS301"])
  ∧ (∀ course, Dict.get "CS301" (StudentService.courses self) = Some course →
               "CS201" ∈ prerequisites course)
  ∧ (∀ student_id record,
       StudentService.student_data self !! student_id = Some record →
       "CS201" ∉ completed_courses record).

(** The student is on the faculty's roster of the course. *)
Definition on_roster (f : FacultyService.t) (course_id student_id : string) : Prop :=
  ∃ roster, FacultyService.rosters f !! course_id = Some roster ∧ student_id ∈ roster.

(** No roster of the faculty service lists a student twice. *)
Definition rosters_nodup (f : FacultyService.t) : Prop :=
  ∀ course_id roster, FacultyService.rosters f !! course_id = Some roster → NoDup roster.

(** The dispatcher taking [event] off the head of the queue, with the
    subscriptions of the running system: the queue and the world
    afterwards, and the exception that ended the thread if one did. *)
Definition dispatch_head `{!Builtins} (event : Event) (q : list Event) (w : World)
  : EventBus.t World * World * option exn :=
  EventBus.step print
    (EventBus.mk (EventBus.subscribers System.subscriptions) (event :: q)) w.

(** The turns of the dispatcher among the actions of the system. *)
Fixpoint dispatches (actions : list System.action) : nat :=
  match actions with
  | [] => 0
  | System.Dispatch :: rest => S (dispatches rest)
  | _ :: rest => dispatches rest
  end.


Definition printing_callback : EventBus.callback (list string) :=
  λ event w, (w ++ ["seen " +:+ event_type event], None).


(** The [message] entry of the body of a response, if it has one. *)
Definition response_message (r : response) : option pyval :=
  match r with
  | Resp _ (PDict d) => lookup_key "message" d
  | _ => None
  end.

(** The [error] entry of the body of a response, if it has one. *)
Definition response_error (r : response) : option pyval :=
  match r with
  | Resp _ (PDict d) => lookup_key "error" d
  | _ => None
  end.

(** The requests to the student service among the actions of the system,
    in order. *)
Definition student_requests (actions : list System.action) : list student_request :=
  omap (λ a, match a with
             | System.Enroll now body => Some (PostEnroll now body)
             | System.Drop now body => Some (PostDrop now body)
             | _ => None
             end) actions.

(** Between two states of the world, only what the rosters list and what
    was printed may differ: the student and administrator services, the
    faculty service's courses and grades and the set of rostered courses
    are the same, and no roster got a student twice. *)
Definition only_rosters_changed (w w' : World) : Prop :=
  student w' = student w
  ∧ admin w' = admin w
  ∧ FacultyService.courses (faculty w') = FacultyService.courses (faculty w)
  ∧ FacultyService.grades (faculty w') = FacultyService.grades (faculty w)
  ∧ dom (FacultyService.rosters (faculty w')) = dom (FacultyService.rosters (faculty w))
  ∧ (rosters_nodup (faculty w) → rosters_nodup (faculty w')).

(** A callback that changes nothing else and raises nothing outside
    [Exception]. *)
Definition roster_only (cb : EventBus.callback World) : Prop :=
  ∀ event w,
    only_rosters_changed w (cb event w).1
    ∧ ∀ e, (cb event w).2 = Some e → is_Exception e = true.

(** A handler of the notification service raises nothing but [KeyError]. *)
Definition raises_KeyError (h : Event → result (list string)) : Prop :=
  ∀ event e, h event = Raise e → ∃ k, e = KeyError k.

(** What every state of the running system satisfies. *)
Definition system_invariant `{!Builtins} (s : System) : Prop :=
  dispatcher_alive s = true
  ∧ EventBus.subscribers (bus s) = EventBus.subscribers System.subscriptions
  ∧ FacultyService.courses (faculty (world s)) = FacultyService.courses FacultyService.init
  ∧ dom (FacultyService.rosters (faculty (world s)))
    = dom (FacultyService.rosters FacultyService.init)
  ∧ rosters_nodup (faculty (world s)).

(** An entry of a batch that [submit_grades] stores under the scheme: a
    JSON object with a str [student_id] and a grade of the legal set. *)
Definition storable_entry (s : GradeProcessingStrategy) (g : pyval) : bool :=
  match g with
  | PDict d =>
    match lookup_key "student_id" d, lookup_key "grade" d with
    | Some (PStr _), Some (PStr x) => mem x (VALID s)
    | _, _ => false
    end
  | _ => false
  end.

(** [book.get(k)] on a dict whose keys are arbitrary hashable values. *)
Fixpoint book_get (k : pyval) (book : list (pyval * pyval)) : option pyval :=
  match book with
  | [] => None
  | (k', v) :: book' => if key_eqb k k' then Some v else book_get k book'
  end.

(** The grade of the last entry of a batch for the student, if there is
    one. *)
Fixpoint last_grade (student_id : string) (batch : list pyval) : option pyval :=
  match batch with
  | [] => None
  | g :: rest =>
    match last_grade student_id rest with
    | Some grade => Some grade
    | None =>
      match g with
      | PDict d =>
        match lookup_key "student_id" d with
        | Some (PStr s) =>
          if String.eqb student_id s then lookup_key "grade" d else None
        | _ => None
        end
      | _ => None
      end
    end
  end.

(** The event that [submit_grades] publishes for entry [i] of a batch. *)
Definition grade_event (now : clock) (course_id : string) (i : nat) (g : pyval) : Event :=
  mkEvent "grade_submitted"
    [("student_id", match g with PDict d => dict_get "student_id" d | _ => PNone end);
     ("course_id", PStr course_id);
     ("grade", grade_of g)]
    (now i).

(** [isinstance(v, str)] *)
Definition is_str (v : pyval) : bool :=
  match v with PStr _ => true | _ => false end.


(** The handler that [_setup_event_subscriptions] subscribes for an event
    type. *)
Definition notification_handler `{!Builtins} (et : string)
  : option (Event → result (list string)) :=
  if String.eqb et "student_enrolled"
  then Some NotificationService._handle_enrollment_notification
  else if String.eqb et "student_dropped"
  then Some NotificationService._handle_drop_notification
  else if String.eqb et "grade_submitted"
  then Some NotificationService._handle_grade_notification
  else if String.eqb et "course_created"
  then Some NotificationService._handle_course_created_notification
  else if String.eqb et "system_config_updated"
  then Some NotificationService._handle_system_config_notification
  else None.

(** The notification service has a handler for the type of the event,
    and the handler returns on it. *)
Definition notified `{!Builtins} (event : Event) : Prop :=
  ∃ h lines, notification_handler (event_type event) = Some h ∧ h event = Ok lines.

(* ================================================================== *)
(** * Properties *)

(** ** Dicts and request bodies *)

Section dict_facts.
Context {V : Type}.
Implicit Types (d : Dict.t V) (k : string) (v : V).

Lemma Dict_get_set_eq k v d : Dict.get k (Dict.set k v d) = Some v.
Proof.
  induction d as [|[k' v'] d IH]; simpl.
  - by rewrite String.eqb_refl.
  - destruct (String.eqb k k') eqn:E; simpl.
    + by rewrite String.eqb_refl.
    + by rewrite E.
Qed.

Lemma Dict_get_set_ne k k' v d :
  k ≠ k' → Dict.get k' (Dict.set k v d) = Dict.get k' d.
Proof.
  intros Hne.
  assert (String.eqb k' k = false) as Hk by (apply String.eqb_neq; congruence).
  induction d as [|[k0 v0] d IH]; simpl.
  - by rewrite Hk.
  - destruct (String.eqb k k0) eqn:E; simpl.
    + apply String.eqb_eq in E. subst k0. by rewrite Hk.
    + by rewrite IH.
Qed.
End dict_facts.

(** A body that holds a str under some key is a non-empty dict, so the
    [or {}] keeps it. *)
Lemma get_json_dict d k s :
  dict_get k d = PStr s → get_json_or_empty (PDict d) = PDict d.
Proof. by destruct d. Qed.

(** ** The validation pipeline *)

Section pipeline.
Variables (student_id course_id : string) (ctx : context).

(** The result of one strategy on the request at hand. *)
Let run (s : ValidationStrategy) : ValidationResult := s student_id course_id ctx.
Let passes (s : ValidationStrategy) : Prop := valid (run s) = true.

Lemma validate_all_passing (vs : ValidationContext.t) :
  Forall passes vs →
  ValidationContext.validate_all vs student_id course_id ctx = map run vs.
Proof.
  induction 1 as [|s vs Hs _ IH]; simpl; [done|].
  unfold passes, run in Hs. rewrite Hs. by rewrite IH.
Qed.

Lemma validate_all_failing (pre post : ValidationContext.t) (v : ValidationStrategy) :
  Forall passes pre → valid (run v) = false →
  ValidationContext.validate_all (pre ++ v :: post) student_id course_id ctx
  = map run pre ++ [run v].
Proof.
  intros Hpre Hv. induction Hpre as [|s pre Hs _ IH]; simpl.
  - unfold run in Hv. by rewrite Hv.
  - unfold passes, run in Hs. rewrite Hs. by rewrite IH.
Qed.

Lemma first_invalid_found (pre : ValidationContext.t) (r : ValidationResult) :
  Forall passes pre → valid r = false →
  find (λ r, negb (valid r)) (map run pre ++ [r]) = Some r.
Proof.
  intros Hpre Hr. induction Hpre as [|s pre Hs _ IH]; simpl.
  - by rewrite Hr.
  - unfold passes in Hs. by rewrite Hs.
Qed.

Lemma no_invalid_found (vs : ValidationContext.t) :
  Forall passes vs → find (λ r, negb (valid r)) (map run vs) = None.
Proof.
  induction 1 as [|s vs Hs _ IH]; simpl; [done|].
  unfold passes in Hs. by rewrite Hs.
Qed.
End pipeline.

(** C2.  [validate_all] runs the strategies in order and stops at the
    first one whose result is not valid: when the strategies [pre] all
    pass and [v] fails, the trace of [pre ++ v :: post] is the results of
    [pre] followed by the result of [v], with nothing from [post].  When
    that pipeline is the one [enroll_student] assembled for the course,
    the request is answered 400, its message is the message of [v]'s
    result, the trace is returned with it, and the service is left as it
    was with no event published. *)
Theorem validate_all_stops_at_first_failure
    (pre post : ValidationContext.t) (v : ValidationStrategy)
    (student_id course_id : string) (ctx : context) :
  Forall (λ s, valid (s student_id course_id ctx) = true) pre →
  valid (v student_id course_id ctx) = false →
  let trace := map (λ s, s student_id course_id ctx) pre ++ [v student_id course_id ctx] in
  ValidationContext.validate_all (pre ++ v :: post) student_id course_id ctx = trace
  ∧ ∀ now d self course,
      dict_get "student_id" d = PStr student_id →
      dict_get "course_id" d = PStr course_id →
      Dict.get course_id (StudentService.courses self) = Some course →
      StudentService.validator_for course = pre ++ v :: post →
      StudentService.context_for self student_id course = ctx →
      StudentService.enroll_student now (PDict d) self
      = (self, [],
         Resp 400 (PDict [("success", PBool false);
                          ("message", PStr (message (v student_id course_id ctx)));
                          ("validation_results", PList (map result_py trace))])).
Proof.
  intros Hpre Hv trace. split.
  - by apply validate_all_failing.
  - intros now d self course Hsid Hcid Hcourse Hvs Hctx.
    unfold StudentService.enroll_student.
    rewrite (get_json_dict _ _ _ Hsid), Hsid, Hcid, Hcourse, Hvs, Hctx.
    rewrite validate_all_failing by done.
    by rewrite first_invalid_found.
Qed.

Lemma validate_all_stops_at_first_failure_witness :
  let ctx := StudentService.context_for StudentService.init "STU002"
               (mkCourse "CS201" "Data Structures" "Dr. Johnson" 25 20 ["CS101"]) in
  let body := PDict [("student_id", PStr "STU002"); ("course_id", PStr "CS201")] in
  ValidationContext.validate_all
    ([] ++ PrerequisiteValidationStrategy.validate
        :: [CapacityValidationStrategy.validate;
            ScheduleConflictValidationStrategy.validate])
    "STU002" "CS201" ctx
  = [mkResult false "Missing prerequisites: CS101"]
  ∧ StudentService.enroll_student (λ _, "2025-01-01T10:00:00") body StudentService.init
    = (StudentService.init, [],
       Resp 400
         (PDict [("success", PBool false);
                 ("message", PStr "Missing prerequisites: CS101");
                 ("validation_results",
                  PList [PDict [("valid", PBool false);
                                ("message", PStr "Missing prerequisites: CS101")]])])).
Proof.
  intros ctx body.
  destruct (validate_all_stops_at_first_failure []
              [CapacityValidationStrategy.validate;
               ScheduleConflictValidationStrategy.validate]
              PrerequisiteValidationStrategy.validate "STU002" "CS201" ctx)
    as [Htrace Henroll].
  - constructor.
  - reflexivity.
  - split; [exact Htrace|].
    apply (Henroll _ _ StudentService.init
             (mkCourse "CS201" "Data Structures" "Dr. Johnson" 25 20 ["CS101"]));
      reflexivity.
Defined.

(** ** Enrollment against unmet prerequisites *)

Lemma validator_for_prerequisites (course : Course) :
  prerequisites course ≠ [] →
  StudentService.validator_for course
  = [PrerequisiteValidationStrategy.validate;
     CapacityValidationStrategy.validate;
     ScheduleConflictValidationStrategy.validate].
Proof. unfold StudentService.validator_for. by destruct (prerequisites course). Qed.

Lemma validator_for_no_prerequisites (course : Course) :
  prerequisites course = [] →
  StudentService.validator_for course
  = [CapacityValidationStrategy.validate;
     ScheduleConflictValidationStrategy.validate].
Proof. unfold StudentService.validator_for. by intros ->. Qed.

Lemma prerequisite_validate_missing sid cid (course : Course) completed current :
  prerequisites course ≠ [] →
  PrerequisiteValidationStrategy.missing_prereqs course completed ≠ [] →
  PrerequisiteValidationStrategy.validate sid cid (mkContext (Some course) completed current)
  = mkResult false
      ("Missing prerequisites: "
       +:+ join ", " (PrerequisiteValidationStrategy.missing_prereqs course completed)).
Proof.
  intros Hpre Hmiss. unfold PrerequisiteValidationStrategy.validate. simpl.
  destruct (prerequisites course) eqn:E; [done|].
  by destruct (PrerequisiteValidationStrategy.missing_prereqs course completed).
Qed.

(** The answer of [enroll_student] when a prerequisite is missing. *)
Lemma enroll_student_missing_prerequisite
    (now : clock) (d : list (string * pyval)) (self : StudentService.t)
    (student_id course_id : string) (course : Course) :
  dict_get "student_id" d = PStr student_id →
  dict_get "course_id" d = PStr course_id →
  Dict.get course_id (StudentService.courses self) = Some course →
  let completed :=
    from_option completed_courses [] (StudentService.student_data self !! student_id) in
  (∃ p, p ∈ prerequisites course ∧ p ∉ completed) →
  let failure :=
    mkResult false
      ("Missing prerequisites: "
       +:+ join ", " (PrerequisiteValidationStrategy.missing_prereqs course completed)) in
  StudentService.enroll_student now (PDict d) self
  = (self, [],
     Resp 400 (PDict [("success", PBool false);
                      ("message", PStr (message failure));
                      ("validation_results", PList [result_py failure])])).
Proof.
  intros Hsid Hcid Hcourse completed [p [Hp Hnot]] failure.
  assert (prerequisites course ≠ []) as Hpre.
  { intros E. rewrite E in Hp. by apply not_elem_of_nil in Hp. }
  assert (PrerequisiteValidationStrategy.missing_prereqs course completed ≠ []) as Hne.
  { intros E.
    assert (p ∈ PrerequisiteValidationStrategy.missing_prereqs course completed) as Hin.
    { unfold PrerequisiteValidationStrategy.missing_prereqs.
      by apply list_elem_of_filter. }
    rewrite E in Hin. by apply not_elem_of_nil in Hin. }
  unfold StudentService.enroll_student.
  rewrite (get_json_dict _ _ _ Hsid), Hsid, Hcid, Hcourse.
  rewrite validator_for_prerequisites by done.
  unfold StudentService.context_for. fold completed.
  simpl ValidationContext.validate_all.
  rewrite prerequisite_validate_missing by done.
  done.
Qed.

(** C3.  A request to enroll in a known course that has prerequisites, by
    a student whose completed courses miss at least one of them, is
    answered 400; the message is "Missing prerequisites: " followed by the
    missing ids joined by ", ", where the missing ids are the prerequisites
    of the course that are not among the completed courses, in the order
    of the course's list; the service is returned as it was (so neither
    [enrolled] nor [current_courses] changes) and no event is published. *)
Theorem enroll_with_unmet_prerequisites_fails
    (now : clock) (d : list (string * pyval)) (self : StudentService.t)
    (student_id course_id : string) (course : Course) :
  dict_get "student_id" d = PStr student_id →
  dict_get "course_id" d = PStr course_id →
  Dict.get course_id (StudentService.courses self) = Some course →
  prerequisites course ≠ [] →
  let completed :=
    from_option completed_courses [] (StudentService.student_data self !! student_id) in
  (∃ p, p ∈ prerequisites course ∧ p ∉ completed) →
  let missing := PrerequisiteValidationStrategy.missing_prereqs course completed in
  let failure := mkResult false ("Missing prerequisites: " +:+ join ", " missing) in
  (∀ p, p ∈ missing ↔ p ∈ prerequisites course ∧ p ∉ completed)
  ∧ StudentService.enroll_student now (PDict d) self
    = (self, [],
       Resp 400 (PDict [("success", PBool false);
                        ("message", PStr (message failure));
                        ("validation_results", PList [result_py failure])])).
Proof.
  intros Hsid Hcid Hcourse Hpre completed Hmissing missing failure. split.
  - intros q. unfold missing, PrerequisiteValidationStrategy.missing_prereqs.
    rewrite list_elem_of_filter. tauto.
  - by apply (enroll_student_missing_prerequisite _ _ _ student_id course_id).
Qed.

Lemma enroll_with_unmet_prerequisites_fails_witness :
  StudentService.enroll_student (λ _, "2025-01-01T10:00:00")
    (PDict [("student_id", PStr "STU002"); ("course_id", PStr "CS301")])
    StudentService.init
  = (StudentService.init, [],
     Resp 400
       (PDict [("success", PBool false);
               ("message", PStr "Missing prerequisites: CS101, CS201");
               ("validation_results",
                PList [PDict [("valid", PBool false);
                              ("message", PStr "Missing prerequisites: CS101, CS201")]])])).
Proof.
  refine (proj2 (enroll_with_unmet_prerequisites_fails _ _ StudentService.init
                   "STU002" "CS301"
                   (mkCourse "CS301" "Algorithms" "Dr. Brown" 20 15 ["CS101"; "CS201"])
                   _ _ _ _ _)).
  - reflexivity.
  - reflexivity.
  - reflexivity.
  - discriminate.
  - exists "CS101". split; [by constructor|]. vm_compute. apply not_elem_of_nil.
Defined.

(** ** The schedule-conflict strategy *)

(** The claim C8 as stated fails on a context that carries no course: the
    strategy answers "Course not found" whatever the student's load. *)
Lemma schedule_conflict_without_course :
  let ctx := mkContext None [] [] in
  ¬ (valid (ScheduleConflictValidationStrategy.validate "STU001" "CS101" ctx) = false
     ↔ (5 ≤ length (student_current_courses ctx))%nat).
Proof. simpl. intros [H _]. specialize (H eq_refl). lia. Qed.

(** C8, amended.  On a context that carries a course the schedule-conflict
    strategy is invalid exactly when the student has 5 current courses or
    more, with the messages of the source; on a context without a course
    it is invalid with "Course not found". *)
Theorem schedule_conflict_validate_spec
    (student_id course_id : string) (completed current : list string) :
  (∀ course : Course,
     let r := ScheduleConflictValidationStrategy.validate student_id course_id
                (mkContext (Some course) completed current) in
     (valid r = false ↔ (5 ≤ length current)%nat)
     ∧ (valid r = true ↔ (length current < 5)%nat)
     ∧ r = if bool_decide (5 ≤ length current)%nat
           then mkResult false "Schedule conflict: Maximum 5 courses allowed"
           else mkResult true "No schedule conflicts")
  ∧ ScheduleConflictValidationStrategy.validate student_id course_id
      (mkContext None completed current)
    = mkResult false "Course not found".
Proof.
  split; [|done]. intros course. simpl.
  unfold ScheduleConflictValidationStrategy.validate. simpl.
  repeat case_bool_decide; simpl; repeat split; intros; try done; try lia.
Qed.

(** ** Repeated enrollment *)

(** C10.  [enroll_student] never looks for the course among the student's
    current courses.  In the seeded service STU001 is enrolled in CS201;
    a request to enroll STU001 in CS201 again is answered 200, the
    enrolled count of CS201 goes from 20 to 21, and CS201 is now twice in
    the student's [current_courses]. *)
Theorem enroll_twice_succeeds :
  ∃ (now : clock) (body : pyval),
    let before := StudentService.init in
    let '(after, events, r) := StudentService.enroll_student now body before in
    body_ids body = Some ("STU001", "CS201")
    ∧ current_courses <$> StudentService.student_data before !! "STU001" = Some ["CS201"]
    ∧ enrolled <$> Dict.get "CS201" (StudentService.courses before) = Some 20
    ∧ status_of r = 200
    ∧ enrolled <$> Dict.get "CS201" (StudentService.courses after) = Some 21
    ∧ current_courses <$> StudentService.student_data after !! "STU001"
      = Some ["CS201"; "CS201"]
    ∧ length events = 1%nat.
Proof.
  exists (λ _, "2025-01-01T10:00:00"),
    (PDict [("student_id", PStr "STU001"); ("course_id", PStr "CS201")]).
  vm_compute. repeat split.
Qed.

(** ** Course capacity in the administrator service *)

(** C9.  [create_course] narrows the type of [capacity] and nothing else.
    A request with capacity 0 is not rejected: the course is stored with
    capacity 0 and the event is published, then building the response
    divides by the capacity and the request ends in [ZeroDivisionError];
    from then on the enrollment report and the course list of the
    administrator service end the same way.  A request with capacity -5
    is answered 200 and the course is stored with capacity -5. *)
Theorem create_course_accepts_zero_capacity `{!Builtins} (now : clock) :
  let request capacity :=
    PDict [("course_id", PStr "CS000"); ("name", PStr "Seminar");
           ("instructor", PStr "Dr. Zero"); ("capacity", PInt capacity)] in
  let '(after, events, r) := AdminService.create_course now (request 0) AdminService.init in
  let '(after', events', r') :=
    AdminService.create_course now (request (-5)) AdminService.init in
  capacity <$> Dict.get "CS000" (AdminService.courses after) = Some 0
  ∧ event_type <$> events = ["course_created"]
  ∧ r = Crash (ZeroDivisionError "division by zero")
  ∧ AdminService.generate_enrollment_report now after
    = Crash (ZeroDivisionError "division by zero")
  ∧ AdminService.get_all_courses now after
    = Crash (ZeroDivisionError "division by zero")
  ∧ capacity <$> Dict.get "CS000" (AdminService.courses after') = Some (-5)
  ∧ status_of r' = 200.
Proof. vm_compute. repeat split. Qed.

(** ** The response factories *)

Lemma has_key_lookup k d :
  has_key k d = true ↔ ∃ v, lookup_key k d = Some v.
Proof. unfold has_key. rewrite bool_decide_eq_true. done. Qed.

Lemma has_key_false k d : has_key k d = false ↔ lookup_key k d = None.
Proof.
  unfold has_key. rewrite bool_decide_eq_false, <-eq_None_not_Some. done.
Qed.

(** The claim C6 as stated fails for the administrator's factory on a
    report bundle: two calls on the same bundle at different times give
    different payloads. *)
Lemma admin_report_payload_differs :
  let bundle := PDict [("report_type", PStr "enrollment_summary")] in
  create_response_dto Admin_dto "2025-01-01T10:00:00" bundle
  ≠ create_response_dto Admin_dto "2025-01-01T10:00:01" bundle.
Proof. simpl. discriminate. Qed.

(** C6, amended.  A factory's payload is determined by its argument,
    except that the administrator's factory on a report bundle also puts
    the time of the call under [generated_at]: there the payload is the
    bundle's [report_type], [data] and [summary] with that time, and two
    calls agree on everything else; in every other case two calls on the
    same argument give the same result whatever the clock says.  A value
    for which the factory has no branch gives the payload
    [{"error": "Unsupported data type"}] and no exception.  The factories
    take the value and give back the payload only: no entity and no
    service is changed by a call. *)
Theorem response_factories_depend_on_argument_only
    (f : DTOFactory) (now now' : timestamp) (data : pyval) :
  (if reads_clock f data
   then ∃ d report_type,
          data = PDict d ∧ lookup_key "report_type" d = Some report_type
          ∧ ∀ t, create_response_dto f t data
                 = Ok (PDict [("report_type", report_type);
                              ("generated_at", PStr t);
                              ("data", default (PList []) (lookup_key "data" d));
                              ("summary", default (PDict []) (lookup_key "summary" d))])
   else create_response_dto f now data = create_response_dto f now' data)
  ∧ (if supported f data then True
     else create_response_dto f now data = Ok unsupported).
Proof.
  split.
  - destruct f, data; simpl; try done.
    destruct (has_key "report_type" d) eqn:E.
    + apply has_key_lookup in E as [v Hv]. exists d, v.
      repeat split; [done|]. intros t. by rewrite Hv.
    + apply has_key_false in E. by rewrite E.
  - destruct f, data; simpl; try done.
    + destruct (has_key "students" d) eqn:E; [done|].
      apply has_key_false in E. by rewrite E.
    + destruct (has_key "report_type" d) eqn:E; [done|].
      apply has_key_false in E. by rewrite E.
Qed.

(** ** The dispatcher *)

Section dispatcher.
Context {W : Type} (print : string → W → W).
Implicit Types (cb : EventBus.callback W) (cbs : list (EventBus.callback W))
  (subs : gmap string (list (EventBus.callback W))) (w : W) (ev : Event).



(** A [BaseException] outside [Exception] is not caught: the loop over
    the callbacks ends there and the rest are not called. *)
Lemma run_callbacks_base_exception ev cb cbs w w' msg :
  cb ev w = (w', Some (BaseExc msg)) →
  EventBus.run_callbacks print ev (cb :: cbs) w = (w', Some (BaseExc msg)).
Proof. intros E. simpl. by rewrite E. Qed.
End dispatcher.




(** ** Grade batches *)

Lemma invalid_of_illegal_entries (s : GradeProcessingStrategy) (batch : list pyval) :
  forallb grade_entry batch = true →
  invalid_of (VALID s) batch = Ok (illegal_entries s batch).
Proof.
  induction batch as [|g batch IH]; simpl; [done|].
  intros [Hg Hbatch]%andb_prop. specialize (IH Hbatch).
  unfold illegal_entries in *. rewrite filter_cons.
  destruct g as [| | | | | |l|d|]; try discriminate Hg.
  simpl in Hg. unfold legal_grade, grade_of. simpl.
  unfold not_in_set. rewrite Hg. simpl. rewrite IH. simpl.
  destruct (dict_get "grade" d); simpl; try done.
  by destruct (mem _ _).
Qed.

Lemma submit_grades_known_course now d self cid (course : Course) batch :
  dict_get "course_id" d = PStr cid →
  Dict.get cid (FacultyService.courses self) = Some course →
  dict_get "grades" d = PList batch →
  FacultyService.submit_grades now (PDict d) self
  = match GradeProcessor_process (FacultyService.strategy_for cid) batch with
    | Raise e => (self, [], Crash e)
    | Ok processed =>
      if negb (grades_valid processed) then
        (self, [],
         Resp 400 (PDict [("success", PBool false);
                          ("error", PStr "Invalid grade entries");
                          ("details", processed_py processed)]))
      else
        let '(book', events, r) :=
          FacultyService.store_grades now 0 cid batch
            (default [] (FacultyService.grades self !! cid)) in
        (FacultyService.mk (FacultyService.courses self) (FacultyService.rosters self)
           (<[cid := book']> (FacultyService.grades self)),
         events,
         match r with
         | Some e => Crash e
         | None =>
           Resp 200
             (PDict [("success", PBool true);
                     ("message",
                      PStr ("Grades submitted for "
                            +:+ pretty (Z.of_nat (length batch))
                            +:+ " students in " +:+ cid));
                     ("processing", processed_py processed)])
         end)
    end.
Proof.
  intros Hcid Hcourse Hgrades. unfold FacultyService.submit_grades.
  rewrite (get_json_dict _ _ _ Hcid), Hcid, Hgrades, Hcourse. simpl. done.
Qed.

(** A request that [submit_grades] answers 400 or 404 leaves the faculty
    service as it was and publishes nothing, whatever the body. *)
Lemma submit_grades_rejected_unchanged now body self self' events r :
  FacultyService.submit_grades now body self = (self', events, r) →
  status_of r = 400 ∨ status_of r = 404 →
  self' = self ∧ events = [].
Proof.
  unfold FacultyService.submit_grades. intros H Hr.
  repeat match type of H with
  | context [match ?x with _ => _ end] => destruct x eqn:?
  | context [if ?x then _ else _] => destruct x eqn:?
  end; simplify_eq; simpl in Hr; try done; try lia.
Qed.

(** Where the batch is one of grade entries (JSON objects whose grade,
    if there is one, is a scalar): for a known course id,
    [submit_grades] uses the pass/fail scheme, with legal grades P and F,
    exactly when the id starts with "PF", and the letter scheme, with
    legal grades A, A-, B+, B, B-, C+, C, C-, D and F, otherwise.
    Processing the batch gives as [invalid_entries] the entries of the
    batch whose grade is outside the legal set of that scheme, in the
    order of the batch, and [valid] is true exactly when there is none.
    When there is one, the request is answered 400 with that result as
    [details], the service (its grade book included) is left as it was
    and nothing is published.  Whatever the body, a request answered 400
    or 404 changes nothing. *)
Lemma submit_grades_rejects_whole_batch
    (now : clock) (d : list (string * pyval)) (self : FacultyService.t)
    (course_id : string) (course : Course) (batch : list pyval) :
  dict_get "course_id" d = PStr course_id →
  Dict.get course_id (FacultyService.courses self) = Some course →
  dict_get "grades" d = PList batch →
  forallb grade_entry batch = true →
  let s := FacultyService.strategy_for course_id in
  let illegal := illegal_entries s batch in
  (s = (if String.prefix "PF" course_id
        then PassFailGradeStrategy else LetterGradeStrategy))
  ∧ VALID PassFailGradeStrategy = ["P"; "F"]
  ∧ VALID LetterGradeStrategy = ["A"; "A-"; "B+"; "B"; "B-"; "C+"; "C"; "C-"; "D"; "F"]
  ∧ (∃ processed,
       GradeProcessor_process s batch = Ok processed
       ∧ scheme processed = scheme_name s
       ∧ invalid_entries processed = illegal
       ∧ (grades_valid processed = true ↔ illegal = [])
       ∧ (illegal ≠ [] →
          FacultyService.submit_grades now (PDict d) self
          = (self, [],
             Resp 400 (PDict [("success", PBool false);
                              ("error", PStr "Invalid grade entries");
                              ("details", processed_py processed)]))))
  ∧ (∀ body self' events r,
       FacultyService.submit_grades now body self = (self', events, r) →
       status_of r = 400 ∨ status_of r = 404 →
       self' = self ∧ events = []).
Proof.
  intros Hcid Hcourse Hgrades Hbatch s illegal.
  split_and!; try done.
  - exists (mkGradeResult (scheme_name s) (bool_decide (length illegal = 0%nat)) illegal).
    assert (GradeProcessor_process s batch
            = Ok (mkGradeResult (scheme_name s)
                    (bool_decide (length illegal = 0%nat)) illegal)) as Hprocess.
    { unfold GradeProcessor_process, process.
      by rewrite invalid_of_illegal_entries. }
    split_and!; try done.
    + simpl. rewrite bool_decide_eq_true. apply length_zero_iff_nil.
    + intros Hne.
      rewrite (submit_grades_known_course _ _ _ _ _ _ Hcid Hcourse Hgrades).
      fold s. rewrite Hprocess. simpl.
      rewrite bool_decide_eq_false_2; [done|].
      by rewrite length_zero_iff_nil.
  - intros body self' events r. apply submit_grades_rejected_unchanged.
Qed.

(** C4.  The claim is that for every known course and every batch an
    entry with a grade outside the legal set makes [submit_grades] answer
    400; the code does not for a batch with an entry whose grade is a
    JSON array.  On the seeded faculty service, for the known course
    CS101 and the batch of the one entry
    [{"student_id": "STU001", "grade": ["A"]}]: the letter scheme is
    selected and the entry's grade is outside its legal set, so the claim
    has the request answered 400 with that entry under
    [invalid_entries]; in the code the test [g.get("grade") not in
    self.VALID] raises [TypeError] (a list cannot be hashed), no result
    is built and the request ends in that exception, a 500.  The same
    happens when a later entry of the batch has the illegal grade "Z".
    The grade book is as before and nothing is published. *)
Theorem submit_grades_unhashable_grade_raises :
  let now : clock := λ _, "2025-01-01T10:00:00" in
  let entry := PDict [("student_id", PStr "STU001"); ("grade", PList [PStr "A"])] in
  let later := PDict [("student_id", PStr "STU004"); ("grade", PStr "Z")] in
  let body batch := PDict [("course_id", PStr "CS101"); ("grades", PList batch)] in
  let s := FacultyService.strategy_for "CS101" in
  is_Some (Dict.get "CS101" (FacultyService.courses FacultyService.init))
  ∧ s = LetterGradeStrategy
  ∧ illegal_entries s [entry] = [entry]
  ∧ illegal_entries s [entry; later] = [entry; later]
  ∧ GradeProcessor_process s [entry] = Raise (TypeError "unhashable type")
  ∧ FacultyService.submit_grades now (body [entry]) FacultyService.init
    = (FacultyService.init, [], Crash (TypeError "unhashable type"))
  ∧ FacultyService.submit_grades now (body [entry; later]) FacultyService.init
    = (FacultyService.init, [], Crash (TypeError "unhashable type"))
  ∧ status_of (FacultyService.submit_grades now (body [entry]) FacultyService.init).2
    = 500.
Proof.
  intros now entry later body s. split_and!; try (by vm_compute).
  by eexists.
Qed.

(** ** Rosters kept by events *)

Section rosters.
Context `{!Builtins}.

Lemma subscribers_student_enrolled :
  EventBus.subscribers System.subscriptions !! "student_enrolled"
  = Some [notifier NotificationService._handle_enrollment_notification;
          faculty_callback FacultyService._on_student_enrolled].
Proof. reflexivity. Qed.

Lemma subscribers_student_dropped :
  EventBus.subscribers System.subscriptions !! "student_dropped"
  = Some [notifier NotificationService._handle_drop_notification;
          faculty_callback FacultyService._on_student_dropped].
Proof. reflexivity. Qed.
(** What a successful request published. *)
Lemma enroll_student_published now d st st' events r sid cid :
  dict_get "student_id" d = PStr sid →
  dict_get "course_id" d = PStr cid →
  StudentService.enroll_student now (PDict d) st = (st', events, r) →
  status_of r = 200 →
  events = [mkEvent "student_enrolled"
              [("student_id", PStr sid); ("course_id", PStr cid);
               ("advisor_email", PStr ("advisor_" +:+ sid +:+ "@university.edu"))]
              (now 1%nat)].
Proof.
  intros Hsid Hcid. unfold StudentService.enroll_student.
  rewrite (get_json_dict _ _ _ Hsid), Hsid, Hcid.
  intros Hrun Hr.
  repeat match type of Hrun with
  | context [match ?x with _ => _ end] => destruct x eqn:?
  end; simplify_eq; simpl in Hr; try lia; done.
Qed.

Lemma drop_course_published now d st st' events r sid cid :
  dict_get "student_id" d = PStr sid →
  dict_get "course_id" d = PStr cid →
  StudentService.drop_course now (PDict d) st = (st', events, r) →
  status_of r = 200 →
  events = [mkEvent "student_dropped"
              [("student_id", PStr sid); ("course_id", PStr cid)] (now 0%nat)].
Proof.
  intros Hsid Hcid. unfold StudentService.drop_course.
  rewrite (get_json_dict _ _ _ Hsid), Hsid, Hcid.
  intros Hrun Hr.
  repeat match type of Hrun with
  | context [match ?x with _ => _ end] => destruct x eqn:?
  | context [if ?x then _ else _] => destruct x eqn:?
  end; simplify_eq; simpl in Hr; try lia; done.
Qed.

(** The two callbacks of the faculty service on the events of the student
    service. *)
Lemma on_student_enrolled_rosters sid cid extra t (f : FacultyService.t) :
  FacultyService.rosters
    (FacultyService._on_student_enrolled
       (mkEvent "student_enrolled"
          (("student_id", PStr sid) :: ("course_id", PStr cid) :: extra) t) f).1
  = match FacultyService.rosters f !! cid with
    | Some roster =>
      if mem sid roster then FacultyService.rosters f
      else <[cid := roster ++ [sid]]> (FacultyService.rosters f)
    | None => FacultyService.rosters f
    end.
Proof.
  unfold FacultyService._on_student_enrolled. simpl.
  destruct (FacultyService.rosters f !! cid) as [roster|]; [|done].
  by destruct (mem sid roster).
Qed.

Lemma on_student_dropped_rosters sid cid extra t (f : FacultyService.t) :
  FacultyService.rosters
    (FacultyService._on_student_dropped
       (mkEvent "student_dropped"
          (("student_id", PStr sid) :: ("course_id", PStr cid) :: extra) t) f).1
  = match FacultyService.rosters f !! cid with
    | Some roster =>
      if mem sid roster
      then <[cid := remove_first sid roster]> (FacultyService.rosters f)
      else FacultyService.rosters f
    | None => FacultyService.rosters f
    end.
Proof.
  unfold FacultyService._on_student_dropped. simpl.
  destruct (FacultyService.rosters f !! cid) as [roster|]; [|done].
  by destruct (mem sid roster).
Qed.

(** The dispatcher on the two events: the notification is printed, then
    the faculty callback runs; nothing is raised. *)
Lemma dispatch_head_student_enrolled sid cid email t q w :
  let event := mkEvent "student_enrolled"
                 [("student_id", PStr sid); ("course_id", PStr cid);
                  ("advisor_email", PStr email)] t in
  ∃ w', dispatch_head event q w
        = (EventBus.mk (EventBus.subscribers System.subscriptions) q, w', None)
        ∧ faculty w' = (FacultyService._on_student_enrolled event (faculty w)).1
        ∧ student w' = student w ∧ admin w' = admin w.
Proof.
  intros event. unfold dispatch_head, EventBus.step, EventBus.handle_event.
  cbn [EventBus.event_queue EventBus.subscribers].
  change (event_type event) with "student_enrolled".
  rewrite subscribers_student_enrolled.
  unfold EventBus.run_callbacks, notifier, faculty_callback. simpl.
  destruct (FacultyService._on_student_enrolled event (faculty w)) as [f lines] eqn:E.
  eexists. split; [reflexivity|]. done.
Qed.

Lemma dispatch_head_student_dropped sid cid t q w :
  let event := mkEvent "student_dropped"
                 [("student_id", PStr sid); ("course_id", PStr cid)] t in
  ∃ w', dispatch_head event q w
        = (EventBus.mk (EventBus.subscribers System.subscriptions) q, w', None)
        ∧ faculty w' = (FacultyService._on_student_dropped event (faculty w)).1
        ∧ student w' = student w ∧ admin w' = admin w.
Proof.
  intros event. unfold dispatch_head, EventBus.step, EventBus.handle_event.
  cbn [EventBus.event_queue EventBus.subscribers].
  change (event_type event) with "student_dropped".
  rewrite subscribers_student_dropped.
  unfold EventBus.run_callbacks, notifier, faculty_callback. simpl.
  destruct (FacultyService._on_student_dropped event (faculty w)) as [f lines] eqn:E.
  eexists. split; [reflexivity|]. done.
Qed.
End rosters.

(** [l.remove(x)] on a list without duplicates leaves no [x]. *)
Lemma remove_first_not_elem (x : string) (l : list string) :
  NoDup l → x ∉ remove_first x l.
Proof.
  induction 1 as [|y l Hy Hl IH]; simpl; [apply not_elem_of_nil|].
  destruct (decide (x = y)) as [->|Hne]; [done|].
  rewrite not_elem_of_cons. done.
Qed.

Lemma remove_first_subset (x y : string) (l : list string) :
  y ∈ remove_first x l → y ∈ l.
Proof.
  induction l as [|z l IH]; simpl; [done|].
  destruct (decide (x = z)) as [->|Hne].
  - intros. rewrite elem_of_cons. by right.
  - rewrite !elem_of_cons. intros [->|H]; [by left|right; by apply IH].
Qed.

Lemma remove_first_nodup (x : string) (l : list string) :
  NoDup l → NoDup (remove_first x l).
Proof.
  induction 1 as [|y l Hy Hl IH]; simpl; [constructor|].
  destruct (decide (x = y)) as [->|Hne]; [done|].
  constructor; [|done]. intros Hin. apply Hy. by eapply remove_first_subset.
Qed.

Lemma mem_true (x : string) (l : list string) : mem x l = true ↔ x ∈ l.
Proof. unfold mem. apply bool_decide_eq_true. Qed.

Lemma mem_false (x : string) (l : list string) : mem x l = false ↔ x ∉ l.
Proof. unfold mem. apply bool_decide_eq_false. Qed.

Lemma rosters_nodup_init : rosters_nodup FacultyService.init.
Proof.
  intros cid roster Hcid. simpl in Hcid.
  apply lookup_insert_Some in Hcid as [[_ <-]|[_ Hcid]].
  - by apply (bool_decide_unpack _).
  - apply lookup_singleton_Some in Hcid as [_ <-].
    by apply (bool_decide_unpack _).
Qed.

Lemma rosters_nodup_insert (f : FacultyService.t) cid roster :
  rosters_nodup f → NoDup roster →
  ∀ cid' roster', <[cid := roster]> (FacultyService.rosters f) !! cid' = Some roster' →
                  NoDup roster'.
Proof.
  intros Hf Hroster cid' roster' Hlookup.
  apply lookup_insert_Some in Hlookup as [[_ <-]|[_ Hlookup]]; [done|].
  by eapply Hf.
Qed.

Lemma on_student_enrolled_nodup event (f : FacultyService.t) :
  rosters_nodup f → rosters_nodup (FacultyService._on_student_enrolled event f).1.
Proof.
  intros Hf. unfold FacultyService._on_student_enrolled.
  destruct (dict_get "course_id" (data event)); try done.
  destruct (dict_get "student_id" (data event)); try done.
  destruct (FacultyService.rosters f !! s) as [roster|] eqn:E; [|done].
  destruct (mem s0 roster) eqn:Hmem; [done|].
  apply mem_false in Hmem. simpl. intros cid' roster'. simpl.
  apply rosters_nodup_insert; [done|].
  apply NoDup_app. split_and!.
  - by eapply Hf.
  - intros x Hx. rewrite list_elem_of_singleton. by intros ->.
  - apply NoDup_singleton.
Qed.

Lemma on_student_dropped_nodup event (f : FacultyService.t) :
  rosters_nodup f → rosters_nodup (FacultyService._on_student_dropped event f).1.
Proof.
  intros Hf. unfold FacultyService._on_student_dropped.
  destruct (dict_get "course_id" (data event)); try done.
  destruct (dict_get "student_id" (data event)); try done.
  destruct (FacultyService.rosters f !! s) as [roster|] eqn:E; [|done].
  destruct (mem s0 roster) eqn:Hmem; [|done].
  simpl. intros cid' roster'. simpl. apply rosters_nodup_insert; [done|].
  apply remove_first_nodup. by eapply Hf.
Qed.

(** In any state [w] of the world, reachable or not: let a request of
    student [student_id] for course [course_id] be answered 200, and let
    its event reach the head of the queue; the dispatcher then handles it
    without an exception and takes it off the queue.  If the faculty
    service has a roster for the course: after a [student_enrolled] event
    the student is on it; after a [student_dropped] event the student is
    not on it, provided the roster listed nobody twice.  If the faculty
    service has no roster for the course, its rosters are as before: none
    is created.  The seeded rosters list nobody twice, and the two
    callbacks keep it so. *)
Lemma rosters_follow_events_of_rostered_courses `{!Builtins}
    (w : World) (q : list Event) (now : clock) (d : list (string * pyval))
    (st st' : StudentService.t) (events : list Event) (r : response)
    (student_id course_id : string) :
  dict_get "student_id" d = PStr student_id →
  dict_get "course_id" d = PStr course_id →
  status_of r = 200 →
  let handled event w' :=
    events = [event]
    ∧ dispatch_head event q w
      = (EventBus.mk (EventBus.subscribers System.subscriptions) q, w', None) in
  (StudentService.enroll_student now (PDict d) st = (st', events, r) →
   ∃ event w',
     handled event w'
     ∧ event_type event = "student_enrolled"
     ∧ match FacultyService.rosters (faculty w) !! course_id with
       | Some roster => on_roster (faculty w') course_id student_id
       | None => FacultyService.rosters (faculty w') = FacultyService.rosters (faculty w)
       end)
  ∧ (StudentService.drop_course now (PDict d) st = (st', events, r) →
     ∃ event w',
       handled event w'
       ∧ event_type event = "student_dropped"
       ∧ match FacultyService.rosters (faculty w) !! course_id with
         | Some roster => NoDup roster → ¬ on_roster (faculty w') course_id student_id
         | None => FacultyService.rosters (faculty w') = FacultyService.rosters (faculty w)
         end)
  ∧ rosters_nodup FacultyService.init
  ∧ (∀ event f,
       rosters_nodup f →
       rosters_nodup (FacultyService._on_student_enrolled event f).1
       ∧ rosters_nodup (FacultyService._on_student_dropped event f).1).
Proof.
  intros Hsid Hcid Hr handled. split_and!.
  - intros Hrun.
    pose proof (enroll_student_published _ _ _ _ _ _ _ _ Hsid Hcid Hrun Hr) as ->.
    destruct (dispatch_head_student_enrolled student_id course_id
                ("advisor_" +:+ student_id +:+ "@university.edu") (now 1%nat) q w)
      as (w' & Hstep & Hf & _).
    eexists _, w'. split_and!; [by split|done|].
    rewrite Hf, on_student_enrolled_rosters. unfold on_roster.
    destruct (FacultyService.rosters (faculty w) !! course_id) as [roster|] eqn:E; [|done].
    rewrite on_student_enrolled_rosters, E.
    destruct (mem student_id roster) eqn:Hmem.
    + exists roster. split; [done|]. by apply mem_true.
    + exists (roster ++ [student_id]). split; [apply lookup_insert_eq|].
      apply elem_of_app. right. by apply list_elem_of_singleton.
  - intros Hrun.
    pose proof (drop_course_published _ _ _ _ _ _ _ _ Hsid Hcid Hrun Hr) as ->.
    destruct (dispatch_head_student_dropped student_id course_id (now 0%nat) q w)
      as (w' & Hstep & Hf & _).
    eexists _, w'. split_and!; [by split|done|].
    rewrite Hf, on_student_dropped_rosters. unfold on_roster.
    destruct (FacultyService.rosters (faculty w) !! course_id) as [roster|] eqn:E; [|done].
    intros Hnodup [roster' [Hlookup Hin]].
    rewrite on_student_dropped_rosters, E in Hlookup.
    destruct (mem student_id roster) eqn:Hmem.
    + rewrite lookup_insert_eq in Hlookup. injection Hlookup as <-.
      by apply (remove_first_not_elem student_id roster).
    + apply mem_false in Hmem. rewrite E in Hlookup. by injection Hlookup as <-.
  - apply rosters_nodup_init.
  - intros event f Hf. split.
    + by apply on_student_enrolled_nodup.
    + by apply on_student_dropped_nodup.
Qed.

(** ** Seats of the student service *)

Lemma count_app x l k : count x (l ++ k) = (count x l + count x k)%nat.
Proof. induction l as [|y l IH]; simpl; [done|]. rewrite IH. lia. Qed.

Lemma count_remove_first_eq x l :
  x ∈ l → S (count x (remove_first x l)) = count x l.
Proof.
  induction l as [|y l IH]; simpl.
  - intros []%elem_of_nil.
  - rewrite elem_of_cons. intros Hin.
    destruct (decide (x = y)) as [->|Hne]; simpl.
    + done.
    + rewrite decide_False by done. destruct Hin as [?|Hin]; [done|].
      by rewrite <-IH.
Qed.

Lemma count_remove_first_ne x y l :
  x ≠ y → count x (remove_first y l) = count x l.
Proof.
  intros Hne. induction l as [|z l IH]; simpl; [done|].
  destruct (decide (y = z)) as [->|Hyz]; simpl.
  - by rewrite decide_False.
  - by rewrite IH.
Qed.

Section holders.
Implicit Types (students : gmap string StudentRecord) (record : StudentRecord).

Lemma holders_insert_fresh cid sid record students :
  students !! sid = None →
  holders cid (<[sid := record]> students)
  = (count cid (current_courses record) + holders cid students)%nat.
Proof.
  intros Hfresh. unfold holders.
  rewrite map_fold_insert_L; [done| |done]. intros. lia.
Qed.

Lemma holders_lookup cid sid record students :
  students !! sid = Some record →
  holders cid students
  = (count cid (current_courses record) + holders cid (delete sid students))%nat.
Proof.
  intros Hsid. unfold holders.
  rewrite (map_fold_delete_L _ _ sid record students); [done| |done]. intros. lia.
Qed.

Lemma holders_insert cid sid record students :
  (holders cid (<[sid := record]> students)
   + from_option (λ r, count cid (current_courses r)) 0 (students !! sid)
   = holders cid students + count cid (current_courses record))%nat.
Proof.
  destruct (students !! sid) as [old|] eqn:E; simpl.
  - rewrite (holders_lookup cid sid old students E).
    rewrite <-insert_delete_eq.
    rewrite holders_insert_fresh by apply lookup_delete_eq. lia.
  - rewrite holders_insert_fresh by done. lia.
Qed.
End holders.

(** A trace without an invalid result means the capacity strategy ran and
    found a free seat. *)
Lemma all_valid_capacity (self : StudentService.t) sid cid (course : Course) :
  find (λ r, negb (valid r))
    (ValidationContext.validate_all (StudentService.validator_for course) sid cid
       (StudentService.context_for self sid course)) = None →
  enrolled course < capacity course
  ∧ valid (CapacityValidationStrategy.validate sid cid
             (StudentService.context_for self sid course)) = true.
Proof.
  unfold StudentService.validator_for, ValidationContext.add_strategy,
    ValidationContext.new, CapacityValidationStrategy.validate.
  simpl ctx_course.
  destruct (prerequisites course) eqn:E; simpl.
  - case_bool_decide; simpl; [done|]. intros _. split; [lia|done].
  - destruct (valid (PrerequisiteValidationStrategy.validate _ _ _)) eqn:Hpre;
      simpl; rewrite ?Hpre; simpl; [|done].
    unfold CapacityValidationStrategy.validate. simpl ctx_course.
    case_bool_decide; simpl; [done|]. intros _. split; [lia|done].
Qed.

(** What [enroll_student] does to the service: nothing, or one seat taken
    in a course that had a free one and the course put last among the
    student's current courses. *)
Lemma enroll_student_effect now body (self self' : StudentService.t) events r :
  StudentService.enroll_student now body self = (self', events, r) →
  self' = self
  ∨ ∃ sid cid course record entry,
      body_ids body = Some (sid, cid)
      ∧ Dict.get cid (StudentService.courses self) = Some course
      ∧ enrolled course < capacity course
      ∧ valid (CapacityValidationStrategy.validate sid cid
                 (StudentService.context_for self sid course)) = true
      ∧ record = default (mkStudent [] [] []) (StudentService.student_data self !! sid)
      ∧ self' = StudentService.mk
                  (Dict.set cid (set_enrolled course (enrolled course + 1))
                     (StudentService.courses self))
                  (<[sid := mkStudent (completed_courses record)
                              (current_courses record ++ [cid])
                              (enrollment_history record ++ [entry])]>
                     (StudentService.student_data self)).
Proof.
  unfold StudentService.enroll_student, body_ids. intros Hrun.
  repeat match type of Hrun with
  | context [match ?x with _ => _ end] => destruct x eqn:?
  end; simplify_eq; try (by left).
  right. match goal with Hfind : find _ _ = None |- _ =>
    apply all_valid_capacity in Hfind as [Hfree Hvalid] end.
  by eexists _, _, _, _, _.
Qed.

(** What [drop_course] does to the service: nothing, or one seat given
    back in a course that the student held, whose first occurrence leaves
    the student's current courses. *)
Lemma drop_course_effect now body (self self' : StudentService.t) events r :
  StudentService.drop_course now body self = (self', events, r) →
  self' = self
  ∨ ∃ sid cid course record,
      body_ids body = Some (sid, cid)
      ∧ Dict.get cid (StudentService.courses self) = Some course
      ∧ StudentService.student_data self !! sid = Some record
      ∧ cid ∈ current_courses record
      ∧ self' = StudentService.mk
                  (Dict.set cid (set_enrolled course (enrolled course - 1))
                     (StudentService.courses self))
                  (<[sid := mkStudent (completed_courses record)
                              (remove_first cid (current_courses record))
                              (enrollment_history record)]>
                     (StudentService.student_data self)).
Proof.
  unfold StudentService.drop_course, body_ids. intros Hrun.
  repeat match type of Hrun with
  | context [match ?x with _ => _ end] => destruct x eqn:?
  | context [if ?x then _ else _] => destruct x eqn:?
  end; simplify_eq; try (by left).
  right. match goal with Hmem : mem _ _ = true |- _ => apply mem_true in Hmem end.
  by eexists _, _, _, _.
Qed.

Lemma holders_init :
  holders "CS101" (StudentService.student_data StudentService.init) = 0%nat
  ∧ holders "CS201" (StudentService.student_data StudentService.init) = 1%nat
  ∧ holders "CS301" (StudentService.student_data StudentService.init) = 0%nat.
Proof. vm_compute. repeat split. Qed.

Lemma seats_consistent_init : seats_consistent StudentService.init.
Proof.
  destruct holders_init as (H1 & H2 & H3).
  intros cid course Hget. simpl in Hget.
  destruct (String.eqb cid "CS101") eqn:E1;
    [|destruct (String.eqb cid "CS201") eqn:E2;
      [|destruct (String.eqb cid "CS301") eqn:E3; [|done]]];
    match goal with E : String.eqb _ _ = true |- _ =>
      apply String.eqb_eq in E; subst cid end;
    injection Hget as <-; cbn [enrolled capacity];
    rewrite ?H1, ?H2, ?H3; lia.
Qed.

Lemma seats_consistent_enroll now body (self self' : StudentService.t) events r :
  StudentService.enroll_student now body self = (self', events, r) →
  seats_consistent self → seats_consistent self'.
Proof.
  intros Hrun Hself.
  apply enroll_student_effect in Hrun
    as [->|(sid & cid & course & record & entry & _ & Hcourse & Hfree & _ & Hrecord & ->)];
    [done|].
  intros cid' course'. simpl.
  pose proof (holders_insert cid' sid
                (mkStudent (completed_courses record) (current_courses record ++ [cid])
                   (enrollment_history record ++ [entry]))
                (StudentService.student_data self)) as Hholders.
  simpl in Hholders. rewrite count_app in Hholders.
  assert (from_option (λ r, count cid' (current_courses r)) 0%nat
            (StudentService.student_data self !! sid)
          = count cid' (current_courses record)) as Hold.
  { rewrite Hrecord. by destruct (StudentService.student_data self !! sid). }
  rewrite Hold in Hholders. simpl in Hholders.
  destruct (decide (cid = cid')) as [<-|Hne].
  - rewrite Dict_get_set_eq. intros [= <-]. simpl.
    destruct (Hself _ _ Hcourse) as [Hh Hc].
    rewrite decide_True in Hholders by done. lia.
  - rewrite Dict_get_set_ne by done. intros Hcourse'.
    destruct (Hself _ _ Hcourse') as [Hh Hc].
    rewrite decide_False in Hholders by done. lia.
Qed.

Lemma seats_consistent_drop now body (self self' : StudentService.t) events r :
  StudentService.drop_course now body self = (self', events, r) →
  seats_consistent self → seats_consistent self'.
Proof.
  intros Hrun Hself.
  apply drop_course_effect in Hrun
    as [->|(sid & cid & course & record & _ & Hcourse & Hrecord & Hheld & ->)];
    [done|].
  intros cid' course'. simpl.
  pose proof (holders_insert cid' sid
                (mkStudent (completed_courses record)
                   (remove_first cid (current_courses record))
                   (enrollment_history record))
                (StudentService.student_data self)) as Hholders.
  rewrite Hrecord in Hholders. simpl in Hholders.
  destruct (decide (cid = cid')) as [<-|Hne].
  - rewrite Dict_get_set_eq. intros [= <-]. simpl.
    destruct (Hself _ _ Hcourse) as [Hh Hc].
    pose proof (count_remove_first_eq cid (current_courses record) Hheld). lia.
  - rewrite Dict_get_set_ne by done. intros Hcourse'.
    destruct (Hself _ _ Hcourse') as [Hh Hc].
    rewrite (count_remove_first_ne cid' cid) in Hholders by done. lia.
Qed.

Lemma seats_consistent_requests reqs (self : StudentService.t) :
  seats_consistent self → seats_consistent (handle_student_requests reqs self).
Proof.
  revert self. induction reqs as [|req reqs IH]; intros self Hself; [done|].
  simpl. apply IH. destruct req as [now body|now body]; simpl.
  - destruct (StudentService.enroll_student now body self) as [[self' events] r] eqn:E.
    by eapply seats_consistent_enroll.
  - destruct (StudentService.drop_course now body self) as [[self' events] r] eqn:E.
    by eapply seats_consistent_drop.
Qed.

(** C1.  After any sequence of [POST /enroll] and [POST /drop] requests on
    the seeded student service, handled one after the other, every course
    of its course map has [0 <= enrolled <= capacity].  A request to
    enroll leaves [enrolled] of a course as it was or adds one, and adds
    one only to the course of the request, when the capacity strategy ran
    on it and was valid, which is when [enrolled < capacity]; a request to
    drop leaves it as it was or takes one off, and takes one off only
    from the course of the request when the student's [current_courses]
    holds its id.  Neither changes a capacity. *)
Theorem enrolled_stays_within_capacity (requests : list student_request) :
  (∀ course_id course,
     Dict.get course_id
       (StudentService.courses (handle_student_requests requests StudentService.init))
     = Some course →
     0 ≤ enrolled course ≤ capacity course)
  ∧ (∀ now body self self' events r course_id course course',
       StudentService.enroll_student now body self = (self', events, r) →
       Dict.get course_id (StudentService.courses self) = Some course →
       Dict.get course_id (StudentService.courses self') = Some course' →
       capacity course' = capacity course
       ∧ (enrolled course' = enrolled course
          ∨ enrolled course' = enrolled course + 1
            ∧ enrolled course < capacity course
            ∧ ∃ student_id,
                body_ids body = Some (student_id, course_id)
                ∧ valid (CapacityValidationStrategy.validate student_id course_id
                           (StudentService.context_for self student_id course))
                  = true))
  ∧ (∀ now body self self' events r course_id course course',
       StudentService.drop_course now body self = (self', events, r) →
       Dict.get course_id (StudentService.courses self) = Some course →
       Dict.get course_id (StudentService.courses self') = Some course' →
       capacity course' = capacity course
       ∧ (enrolled course' = enrolled course
          ∨ enrolled course' = enrolled course - 1
            ∧ ∃ student_id record,
                body_ids body = Some (student_id, course_id)
                ∧ StudentService.student_data self !! student_id = Some record
                ∧ course_id ∈ current_courses record)).
Proof.
  split_and!.
  - intros cid course Hcourse.
    destruct (seats_consistent_requests requests StudentService.init
                seats_consistent_init cid course Hcourse) as [Hh Hc].
    lia.
  - intros now body self self' events r cid course course' Hrun Hcourse Hcourse'.
    apply enroll_student_effect in Hrun
      as [->|(sid & cid0 & course0 & record & entry & Hids & Hcourse0 & Hfree & Hvalid & _ & ->)].
    { rewrite Hcourse in Hcourse'. injection Hcourse' as <-. by split; [|left]. }
    simpl in Hcourse'. destruct (decide (cid0 = cid)) as [->|Hne].
    + rewrite Dict_get_set_eq in Hcourse'. injection Hcourse' as <-.
      rewrite Hcourse in Hcourse0. injection Hcourse0 as <-.
      split; [done|]. right. split_and!; [done|done|]. by exists sid.
    + rewrite Dict_get_set_ne, Hcourse in Hcourse' by done.
      injection Hcourse' as <-. by split; [|left].
  - intros now body self self' events r cid course course' Hrun Hcourse Hcourse'.
    apply drop_course_effect in Hrun
      as [->|(sid & cid0 & course0 & record & Hids & Hcourse0 & Hrecord & Hheld & ->)].
    { rewrite Hcourse in Hcourse'. injection Hcourse' as <-. by split; [|left]. }
    simpl in Hcourse'. destruct (decide (cid0 = cid)) as [->|Hne].
    + rewrite Dict_get_set_eq in Hcourse'. injection Hcourse' as <-.
      rewrite Hcourse in Hcourse0. injection Hcourse0 as <-.
      split; [done|]. right. split; [done|]. by exists sid, record.
    + rewrite Dict_get_set_ne, Hcourse in Hcourse' by done.
      injection Hcourse' as <-. by split; [|left].
Qed.

Lemma enrolled_stays_within_capacity_witness :
  let now : clock := λ _, "2025-01-01T10:00:00" in
  let body := PDict [("student_id", PStr "STU001"); ("course_id", PStr "CS201")] in
  let requests := [PostDrop now body; PostEnroll now body; PostEnroll now body] in
  Dict.get "CS201"
    (StudentService.courses (handle_student_requests requests StudentService.init))
  = Some (mkCourse "CS201" "Data Structures" "Dr. Johnson" 25 21 ["CS101"])
  ∧ 0 ≤ 21 ≤ 25.
Proof.
  intros now body requests.
  assert (Dict.get "CS201"
            (StudentService.courses (handle_student_requests requests StudentService.init))
          = Some (mkCourse "CS201" "Data Structures" "Dr. Johnson" 25 21 ["CS101"]))
    as Hcourse by reflexivity.
  split; [exact Hcourse|].
  exact (proj1 (enrolled_stays_within_capacity requests) "CS201" _ Hcourse).
Defined.

(** ** Enrollments the seeded student service can accept *)

Lemma enroll_student_accepted now body (self self' : StudentService.t) events r :
  StudentService.enroll_student now body self = (self', events, r) →
  status_of r = 200 →
  ∃ sid cid course,
    body_ids body = Some (sid, cid)
    ∧ Dict.get cid (StudentService.courses self) = Some course
    ∧ find (λ r, negb (valid r))
        (ValidationContext.validate_all (StudentService.validator_for course) sid cid
           (StudentService.context_for self sid course)) = None.
Proof.
  unfold StudentService.enroll_student, body_ids. intros Hrun Hr.
  repeat match type of Hrun with
  | context [match ?x with _ => _ end] => destruct x eqn:?
  end; simplify_eq; simpl in Hr; try lia.
  by eexists _, _, _.
Qed.

Lemma Dict_get_set_is_Some {V} k k' (v : V) (d : Dict.t V) :
  is_Some (Dict.get k' (Dict.set k v d)) → k' = k ∨ is_Some (Dict.get k' d).
Proof.
  destruct (decide (k = k')) as [->|Hne]; [by left|].
  rewrite Dict_get_set_ne by done. by right.
Qed.

Lemma CS301_closed_init : CS301_closed StudentService.init.
Proof.
  split_and!.
  - intros cid. simpl.
    destruct (String.eqb cid "CS101") eqn:E1;
      [|destruct (String.eqb cid "CS201") eqn:E2;
        [|destruct (String.eqb cid "CS301") eqn:E3; [|by intros []]]];
      match goal with E : String.eqb _ _ = true |- _ =>
        apply String.eqb_eq in E; subst cid end;
      intros _; rewrite !elem_of_cons; auto.
  - intros course [= <-]. simpl. rewrite !elem_of_cons. auto.
  - intros sid record Hrecord. simpl in Hrecord.
    apply lookup_singleton_Some in Hrecord as [_ <-]. simpl.
    rewrite !not_elem_of_cons. split; [discriminate|apply not_elem_of_nil].
Qed.

Lemma CS301_closed_update (self : StudentService.t) sid cid course n record' :
  CS301_closed self →
  Dict.get cid (StudentService.courses self) = Some course →
  "CS201" ∉ completed_courses record' →
  CS301_closed
    (StudentService.mk (Dict.set cid (set_enrolled course n) (StudentService.courses self))
       (<[sid := record']> (StudentService.student_data self))).
Proof.
  intros (Hkeys & Hreq & Hdone) Hcourse Hrecord'. split_and!; simpl.
  - intros cid' [->|Hsome]%Dict_get_set_is_Some; apply Hkeys; [by eexists|done].
  - intros course'. destruct (decide (cid = "CS301")) as [->|Hne].
    + rewrite Dict_get_set_eq. intros [= <-]. simpl. by apply Hreq.
    + rewrite Dict_get_set_ne by done. apply Hreq.
  - intros sid' record [[_ <-]|[_ Hold]]%lookup_insert_Some; [done|].
    by eapply Hdone.
Qed.

Lemma CS301_closed_requests reqs (self : StudentService.t) :
  CS301_closed self → CS301_closed (handle_student_requests reqs self).
Proof.
  revert self. induction reqs as [|req reqs IH]; intros self Hself; [done|].
  simpl. apply IH. destruct req as [now body|now body]; simpl.
  - destruct (StudentService.enroll_student now body self) as [[self' events] r] eqn:E.
    apply enroll_student_effect in E
      as [->|(sid & cid & course & record & entry & _ & Hcourse & _ & _ & Hrecord & ->)];
      [done|].
    apply CS301_closed_update; [done|done|]. simpl. rewrite Hrecord.
    destruct (StudentService.student_data self !! sid) as [old|] eqn:Hold; simpl.
    + destruct Hself as (_ & _ & Hdone). by eapply Hdone.
    + apply not_elem_of_nil.
  - destruct (StudentService.drop_course now body self) as [[self' events] r] eqn:E.
    apply drop_course_effect in E
      as [->|(sid & cid & course & record & _ & Hcourse & Hrecord & _ & ->)];
      [done|].
    apply CS301_closed_update; [done|done|]. simpl.
    destruct Hself as (_ & _ & Hdone). by eapply Hdone.
Qed.

(** From the seeded state the student service accepts enrollments in
    CS101 and CS201 only, the two courses for which the seeded faculty
    service has a roster: CS301 requires CS201, which no student has
    completed. *)
Lemma seeded_enrollments_have_rosters reqs now body self' events r :
  StudentService.enroll_student now body
    (handle_student_requests reqs StudentService.init) = (self', events, r) →
  status_of r = 200 →
  ∃ sid cid,
    body_ids body = Some (sid, cid)
    ∧ is_Some (FacultyService.rosters FacultyService.init !! cid).
Proof.
  intros Hrun Hr.
  pose proof (CS301_closed_requests reqs _ CS301_closed_init) as (Hkeys & Hreq & Hdone).
  apply enroll_student_accepted in Hrun as (sid & cid & course & Hids & Hcourse & Hfind);
    [|done].
  exists sid, cid. split; [done|].
  assert (cid ∈ ["CS101"; "CS201"; "CS301"]) as Hcid by (apply Hkeys; by eexists).
  rewrite !elem_of_cons in Hcid.
  destruct Hcid as [->|[->|[->|[]%elem_of_nil]]]; [by eexists|by eexists|].
  exfalso. specialize (Hreq _ Hcourse).
  assert (prerequisites course ≠ []) as Hpre.
  { intros E. rewrite E in Hreq. by apply not_elem_of_nil in Hreq. }
  rewrite validator_for_prerequisites in Hfind by done.
  unfold StudentService.context_for in Hfind.
  simpl ValidationContext.validate_all in Hfind.
  rewrite prerequisite_validate_missing in Hfind; [done|done|].
  intros E.
  assert ("CS201" ∈ PrerequisiteValidationStrategy.missing_prereqs course
            (from_option completed_courses []
               (StudentService.student_data
                  (handle_student_requests reqs StudentService.init) !! sid))) as Hin.
  { unfold PrerequisiteValidationStrategy.missing_prereqs.
    apply list_elem_of_filter. split; [|done].
    destruct (StudentService.student_data _ !! sid) as [record|] eqn:Hrecord; simpl.
    - by eapply Hdone.
    - apply not_elem_of_nil. }
  rewrite E in Hin. by apply not_elem_of_nil in Hin.
Qed.
(** ** The outcome of a request to enroll *)

Lemma missing_prereqs_nil (course : Course) completed :
  PrerequisiteValidationStrategy.missing_prereqs course completed = []
  ↔ ∀ p, p ∈ prerequisites course → p ∈ completed.
Proof.
  unfold PrerequisiteValidationStrategy.missing_prereqs. split.
  - intros Hnil p Hp. destruct (decide (p ∈ completed)) as [|Hnot]; [done|].
    assert (p ∈ filter (λ q, q ∉ completed) (prerequisites course)) as Hin
      by by apply list_elem_of_filter.
    rewrite Hnil in Hin. by apply not_elem_of_nil in Hin.
  - intros Hall. apply elem_of_nil_inv. intros p [Hnot Hp]%list_elem_of_filter.
    by apply Hnot, Hall.
Qed.

(** X1.  The prerequisite strategy on a context that carries a course is
    valid exactly when every prerequisite of the course is among the
    student's completed courses (so always for a course without
    prerequisites); on a context without a course it is valid. *)
Theorem prerequisite_validate_policy
    (student_id course_id : string) (completed current : list string) :
  (∀ course : Course,
     valid (PrerequisiteValidationStrategy.validate student_id course_id
              (mkContext (Some course) completed current)) = true
     ↔ ∀ p, p ∈ prerequisites course → p ∈ completed)
  ∧ valid (PrerequisiteValidationStrategy.validate student_id course_id
             (mkContext None completed current)) = true.
Proof.
  split; [|done]. intros course.
  rewrite <-missing_prereqs_nil.
  unfold PrerequisiteValidationStrategy.validate. simpl.
  destruct (prerequisites course) as [|p ps] eqn:E.
  - split; [|done]. intros _.
    unfold PrerequisiteValidationStrategy.missing_prereqs. by rewrite E.
  - destruct (PrerequisiteValidationStrategy.missing_prereqs course completed);
      simpl; split; done.
Qed.

(** The trace of the pipeline that [enroll_student] assembles, by the
    three conditions the strategies test. *)
Lemma enrollment_trace (self : StudentService.t) sid cid (course : Course) :
  let completed :=
    from_option completed_courses [] (StudentService.student_data self !! sid) in
  let current :=
    from_option current_courses [] (StudentService.student_data self !! sid) in
  let missing := PrerequisiteValidationStrategy.missing_prereqs course completed in
  find (λ r, negb (valid r))
    (ValidationContext.validate_all (StudentService.validator_for course) sid cid
       (StudentService.context_for self sid course))
  = match missing with
    | _ :: _ => Some (mkResult false ("Missing prerequisites: " +:+ join ", " missing))
    | [] =>
      if bool_decide (enrolled course >= capacity course)
      then Some (mkResult false "Course is at full capacity")
      else if bool_decide (Z.of_nat (length current) >= 5)
           then Some (mkResult false "Schedule conflict: Maximum 5 courses allowed")
           else None
    end.
Proof.
  intros completed current missing.
  unfold StudentService.validator_for, ValidationContext.add_strategy,
    ValidationContext.new, StudentService.context_for.
  fold completed current.
  destruct (prerequisites course) as [|p ps] eqn:E; simpl.
  - assert (missing = []) as ->.
    { unfold missing, PrerequisiteValidationStrategy.missing_prereqs. by rewrite E. }
    unfold CapacityValidationStrategy.validate,
      ScheduleConflictValidationStrategy.validate. simpl.
    repeat (case_bool_decide; simpl); done.
  - unfold PrerequisiteValidationStrategy.validate. simpl. rewrite E.
    fold missing. destruct missing; simpl; [|done].
    unfold CapacityValidationStrategy.validate,
      ScheduleConflictValidationStrategy.validate. simpl.
    repeat (case_bool_decide; simpl); done.
Qed.

(** X2.  For a request with str ids and a course the student service
    knows, [enroll_student] answers 200 exactly when no prerequisite is
    missing, the course has a free seat and the student has fewer than 5
    current courses, and 400 otherwise.  The reason given is the first of
    the three that fails: with the prerequisites met, a full course
    answers "Course is at full capacity", and a course with a free seat
    for a student with 5 courses or more answers the schedule conflict. *)
Theorem enroll_student_outcome
    (now : clock) (d : list (string * pyval)) (self : StudentService.t)
    (student_id course_id : string) (course : Course) :
  dict_get "student_id" d = PStr student_id →
  dict_get "course_id" d = PStr course_id →
  Dict.get course_id (StudentService.courses self) = Some course →
  let completed :=
    from_option completed_courses [] (StudentService.student_data self !! student_id) in
  let current :=
    from_option current_courses [] (StudentService.student_data self !! student_id) in
  let missing := PrerequisiteValidationStrategy.missing_prereqs course completed in
  let r := (StudentService.enroll_student now (PDict d) self).2 in
  (status_of r = 200
   ↔ missing = [] ∧ enrolled course < capacity course ∧ (length current < 5)%nat)
  ∧ (status_of r = 200 ∨ status_of r = 400)
  ∧ (missing = [] → capacity course ≤ enrolled course →
     response_message r = Some (PStr "Course is at full capacity"))
  ∧ (missing = [] → enrolled course < capacity course → (5 ≤ length current)%nat →
     response_message r = Some (PStr "Schedule conflict: Maximum 5 courses allowed"))
  ∧ (status_of r = 200 →
     response_message r = Some (PStr ("Successfully enrolled in " +:+ name course))).
Proof.
  intros Hsid Hcid Hcourse completed current missing r.
  unfold r, StudentService.enroll_student.
  rewrite (get_json_dict _ _ _ Hsid), Hsid, Hcid, Hcourse.
  rewrite enrollment_trace. fold completed current missing.
  destruct missing as [|p ps]; simpl.
  - repeat (case_bool_decide; simpl); split_and!; try done; try lia;
      try (by left); try (by right); intros; try lia;
      try (split; [intros _; split_and!; [done|lia|lia]|done]).
  - split_and!; try done; try (by right).
    split; [intros; lia|by intros (? & _)].
Qed.

Lemma enroll_student_outcome_witness :
  status_of
    (StudentService.enroll_student (λ _, "2025-01-01T10:00:00")
       (PDict [("student_id", PStr "STU001"); ("course_id", PStr "CS101")])
       StudentService.init).2 = 200.
Proof.
  apply (proj1 (enroll_student_outcome (λ _, "2025-01-01T10:00:00")
                  [("student_id", PStr "STU001"); ("course_id", PStr "CS101")]
                  StudentService.init "STU001" "CS101"
                  (mkCourse "CS101" "Intro to Programming" "Dr. Smith" 30 25 [])
                  eq_refl eq_refl eq_refl)).
  split_and!; [reflexivity|simpl; lia|vm_compute; lia].
Defined.

(** ** Requests that change nothing *)

(** X3.  [enroll_student] and [drop_course] are all or nothing: a request
    answered 200 publishes exactly one event, of type [student_enrolled]
    or [student_dropped]; any other answer (400, 404 or an exception)
    leaves the service as it was and publishes nothing. *)
Theorem student_requests_all_or_nothing
    (now : clock) (body : pyval) (self : StudentService.t) :
  (let '(self', events, r) := StudentService.enroll_student now body self in
   status_of r = 200 ∧ event_type <$> events = ["student_enrolled"]
   ∨ status_of r ∈ [400; 404; 500] ∧ self' = self ∧ events = [])
  ∧ (let '(self', events, r) := StudentService.drop_course now body self in
     status_of r = 200 ∧ event_type <$> events = ["student_dropped"]
     ∨ status_of r ∈ [400; 404; 500] ∧ self' = self ∧ events = []).
Proof.
  split.
  - destruct (StudentService.enroll_student now body self) as [[self' events] r] eqn:Hrun.
    unfold StudentService.enroll_student in Hrun.
    repeat match type of Hrun with
    | context [match ?x with _ => _ end] => destruct x eqn:?
    end; simplify_eq; simpl; rewrite ?elem_of_cons; auto 10.
  - destruct (StudentService.drop_course now body self) as [[self' events] r] eqn:Hrun.
    unfold StudentService.drop_course in Hrun.
    repeat match type of Hrun with
    | context [match ?x with _ => _ end] => destruct x eqn:?
    | context [if ?x then _ else _] => destruct x eqn:?
    end; simplify_eq; simpl; rewrite ?elem_of_cons; auto 10.
Qed.

(** ** The outcome of a request to drop *)

(** X4.  For a request with str ids and a course the student service
    knows, [drop_course] answers 200 exactly when the student has a record
    whose [current_courses] holds the course id; otherwise it answers 400
    with the error "Student not enrolled in this course".  A course id the
    service does not know is answered 404. *)
Theorem drop_course_outcome
    (now : clock) (d : list (string * pyval)) (self : StudentService.t)
    (student_id course_id : string) :
  dict_get "student_id" d = PStr student_id →
  dict_get "course_id" d = PStr course_id →
  let r := (StudentService.drop_course now (PDict d) self).2 in
  let current :=
    from_option current_courses [] (StudentService.student_data self !! student_id) in
  match Dict.get course_id (StudentService.courses self) with
  | None => r = Resp 404 (PDict [("error", PStr "Course not found")])
  | Some course =>
    (status_of r = 200 ↔ course_id ∈ current)
    ∧ (course_id ∈ current →
       response_message r = Some (PStr ("Successfully dropped " +:+ name course)))
    ∧ (course_id ∉ current →
       r = Resp 400 (PDict [("error", PStr "Student not enrolled in this course")]))
  end.
Proof.
  intros Hsid Hcid r current. unfold r, StudentService.drop_course.
  rewrite (get_json_dict _ _ _ Hsid), Hsid, Hcid.
  destruct (Dict.get course_id (StudentService.courses self)) as [course|]; [|done].
  unfold current.
  destruct (StudentService.student_data self !! student_id) as [record|]; simpl.
  - destruct (mem course_id (current_courses record)) eqn:Hmem; simpl.
    + apply mem_true in Hmem. split_and!; done.
    + apply mem_false in Hmem. split_and!; try done; try (split; [intros; lia|done]).
  - split_and!; try done; try (by intros ?%elem_of_nil).
    split; [intros; lia|by intros ?%elem_of_nil].
Qed.

Lemma drop_course_outcome_witness :
  status_of
    (StudentService.drop_course (λ _, "2025-01-01T10:00:00")
       (PDict [("student_id", PStr "STU001"); ("course_id", PStr "CS201")])
       StudentService.init).2 = 200.
Proof.
  pose proof (drop_course_outcome (λ _, "2025-01-01T10:00:00")
                [("student_id", PStr "STU001"); ("course_id", PStr "CS201")]
                StudentService.init "STU001" "CS201" eq_refl eq_refl) as Hdrop.
  apply Hdrop. vm_compute. by constructor.
Defined.

(** ** Enrolling and dropping again *)

Lemma Dict_set_set {V} k (v v' : V) (d : Dict.t V) :
  Dict.set k v (Dict.set k v' d) = Dict.set k v d.
Proof.
  induction d as [|[k0 v0] d IH]; simpl.
  - by rewrite String.eqb_refl.
  - destruct (String.eqb k k0) eqn:E; simpl.
    + by rewrite String.eqb_refl.
    + by rewrite E, IH.
Qed.

Lemma Dict_set_id {V} k (v : V) (d : Dict.t V) :
  Dict.get k d = Some v → Dict.set k v d = d.
Proof.
  induction d as [|[k0 v0] d IH]; simpl; [done|].
  destruct (String.eqb k k0) eqn:E.
  - apply String.eqb_eq in E as ->. by intros [= ->].
  - intros Hget. by rewrite IH.
Qed.

Lemma remove_first_app_fresh x l : x ∉ l → remove_first x (l ++ [x]) = l.
Proof.
  induction l as [|y l IH]; simpl.
  - intros _. by rewrite decide_True.
  - rewrite not_elem_of_cons. intros [Hne Hnot].
    rewrite decide_False by done. by rewrite IH.
Qed.

Lemma count_remove_first_app x y l : count y (remove_first x (l ++ [x])) = count y l.
Proof.
  destruct (decide (y = x)) as [->|Hne].
  - assert (x ∈ l ++ [x]) as Hin.
    { apply elem_of_app. right. by apply list_elem_of_singleton. }
    pose proof (count_remove_first_eq x (l ++ [x]) Hin) as Hcount.
    rewrite count_app in Hcount. simpl in Hcount.
    rewrite decide_True in Hcount by done. lia.
  - rewrite count_remove_first_ne by done. rewrite count_app. simpl.
    rewrite decide_False by done. lia.
Qed.

Lemma set_enrolled_back (course : Course) n :
  set_enrolled (set_enrolled course n) (enrolled course) = course.
Proof. by destruct course. Qed.

(** The service after an accepted enrollment. *)
Lemma enroll_student_accepted_state now d (self self' : StudentService.t)
    events r sid cid :
  dict_get "student_id" d = PStr sid →
  dict_get "course_id" d = PStr cid →
  StudentService.enroll_student now (PDict d) self = (self', events, r) →
  status_of r = 200 →
  ∃ course entry,
    Dict.get cid (StudentService.courses self) = Some course
    ∧ let record :=
        default (mkStudent [] [] []) (StudentService.student_data self !! sid) in
      self' = StudentService.mk
                (Dict.set cid (set_enrolled course (enrolled course + 1))
                   (StudentService.courses self))
                (<[sid := mkStudent (completed_courses record)
                            (current_courses record ++ [cid])
                            (enrollment_history record ++ [entry])]>
                   (StudentService.student_data self)).
Proof.
  intros Hsid Hcid. unfold StudentService.enroll_student.
  rewrite (get_json_dict _ _ _ Hsid), Hsid, Hcid. intros Hrun Hr.
  repeat match type of Hrun with
  | context [match ?x with _ => _ end] => destruct x eqn:?
  end; simplify_eq; simpl in Hr; try lia.
  by eexists _, _.
Qed.

(** X5.  A drop that follows an accepted enrollment of the same student
    in the same course is accepted, and gives the course map back as it
    was before the enrollment (the seat is returned).  Every student then
    holds every course as often as before, nobody's completed courses
    changed, and when the student did not hold the course before, the
    student's [current_courses] is the same list as before. *)
Theorem enroll_then_drop_restores
    (now now' : clock) (d : list (string * pyval))
    (self self1 self2 : StudentService.t) (events1 events2 : list Event)
    (r1 r2 : response) (student_id course_id : string) :
  dict_get "student_id" d = PStr student_id →
  dict_get "course_id" d = PStr course_id →
  StudentService.enroll_student now (PDict d) self = (self1, events1, r1) →
  status_of r1 = 200 →
  StudentService.drop_course now' (PDict d) self1 = (self2, events2, r2) →
  let current (s : StudentService.t) (sid : string) :=
    from_option current_courses [] (StudentService.student_data s !! sid) in
  let completed (s : StudentService.t) (sid : string) :=
    from_option completed_courses [] (StudentService.student_data s !! sid) in
  status_of r2 = 200
  ∧ StudentService.courses self2 = StudentService.courses self
  ∧ (∀ sid cid, count cid (current self2 sid) = count cid (current self sid))
  ∧ (∀ sid, completed self2 sid = completed self sid)
  ∧ (course_id ∉ current self student_id → ∀ sid, current self2 sid = current self sid).
Proof.
  intros Hsid Hcid Henroll Hr1 Hdrop current completed.
  destruct (enroll_student_accepted_state _ _ _ _ _ _ _ _ Hsid Hcid Henroll Hr1)
    as (course & entry & Hcourse & ->).
  unfold StudentService.drop_course in Hdrop.
  rewrite (get_json_dict _ _ _ Hsid), Hsid, Hcid in Hdrop. simpl in Hdrop.
  rewrite Dict_get_set_eq, lookup_insert_eq in Hdrop. simpl in Hdrop.
  assert (mem course_id
            (current_courses
               (default (mkStudent [] [] [])
                  (StudentService.student_data self !! student_id)) ++ [course_id])
          = true) as Hmem.
  { apply mem_true, elem_of_app. right. by apply list_elem_of_singleton. }
  rewrite Hmem in Hdrop. simplify_eq. simpl.
  assert (∀ sid,
            StudentService.student_data self !! sid
            = None → current self sid = [] ∧ completed self sid = []) as Hnone.
  { intros sid E. unfold current, completed. by rewrite E. }
  split_and!.
  - done.
  - rewrite Dict_set_set.
    replace (enrolled course + 1 - 1) with (enrolled course) by lia.
    rewrite Dict_set_id; [done|]. by rewrite Hcourse, set_enrolled_back.
  - intros sid cid. unfold current. simpl. rewrite insert_insert_eq.
    destruct (decide (student_id = sid)) as [<-|Hne].
    + rewrite lookup_insert_eq. simpl. rewrite count_remove_first_app.
      by destruct (StudentService.student_data self !! student_id).
    + by rewrite lookup_insert_ne.
  - intros sid. unfold completed. simpl. rewrite insert_insert_eq.
    destruct (decide (student_id = sid)) as [<-|Hne].
    + rewrite lookup_insert_eq. simpl.
      by destruct (StudentService.student_data self !! student_id).
    + by rewrite lookup_insert_ne.
  - intros Hfresh sid. unfold current in *. simpl. rewrite insert_insert_eq.
    destruct (decide (student_id = sid)) as [<-|Hne].
    + rewrite lookup_insert_eq. simpl.
      destruct (StudentService.student_data self !! student_id) as [record|];
        simpl in Hfresh |- *; [by rewrite remove_first_app_fresh|by rewrite decide_True].
    + by rewrite lookup_insert_ne.
Qed.

Lemma enroll_then_drop_restores_witness :
  let now : clock := λ _, "2025-01-01T10:00:00" in
  let d := [("student_id", PStr "STU009"); ("course_id", PStr "CS101")] in
  let enrolled := StudentService.enroll_student now (PDict d) StudentService.init in
  let dropped := StudentService.drop_course now (PDict d) enrolled.1.1 in
  status_of dropped.2 = 200
  ∧ StudentService.courses dropped.1.1 = StudentService.courses StudentService.init.
Proof.
  intros now d enrolled dropped.
  destruct (enroll_then_drop_restores now now d StudentService.init
              enrolled.1.1 dropped.1.1 enrolled.1.2 dropped.1.2 enrolled.2 dropped.2
              "STU009" "CS101") as (Hstatus & Hcourses & _).
  - reflexivity.
  - reflexivity.
  - reflexivity.
  - reflexivity.
  - reflexivity.
  - by split.
Defined.

(** ** The trace of a pipeline *)

(** X6.  Whatever the strategies, the trace of [validate_all] is the
    results of the first strategies of the pipeline, in order: it is never
    longer than the pipeline, it is empty only for an empty pipeline, only
    its last result can be invalid, and it is valid throughout exactly
    when every strategy of the pipeline passes, in which case it has one
    result for each strategy. *)
Theorem validate_all_trace
    (vs : ValidationContext.t) (student_id course_id : string) (ctx : context) :
  let run (s : ValidationStrategy) := s student_id course_id ctx in
  let trace := ValidationContext.validate_all vs student_id course_id ctx in
  (∃ k, trace = map run (take k vs))
  ∧ (length trace ≤ length vs)%nat
  ∧ (trace = [] ↔ vs = [])
  ∧ (∀ i r, trace !! i = Some r → (S i < length trace)%nat → valid r = true)
  ∧ (Forall (λ r, valid r = true) trace ↔ Forall (λ s, valid (run s) = true) vs)
  ∧ (Forall (λ r, valid r = true) trace → trace = map run vs).
Proof.
  intros run. induction vs as [|s vs IH]; simpl.
  { split_and!; try done. by exists 0%nat. }
  destruct IH as ([k Hk] & Hlen & Hnil & Hlast & Hall & Hfull).
  fold (run s). destruct (valid (run s)) eqn:Hs.
  - split_and!.
    + exists (S k). simpl. by rewrite <-Hk.
    + simpl. lia.
    + done.
    + intros [|i] r; simpl.
      * by intros [= <-].
      * intros Hr Hi. apply (Hlast i r Hr). lia.
    + rewrite !Forall_cons, Hall. unfold run at 2. tauto.
    + intros [_ Hrest]%Forall_cons. by rewrite <-Hfull.
  - split_and!.
    + by exists 1%nat.
    + simpl. lia.
    + done.
    + intros [|i] r; simpl; [lia|]. by rewrite lookup_nil.
    + rewrite !Forall_cons. split.
      * intros [Hv _]. simpl in Hv. congruence.
      * intros [Hv _]. simpl in Hv. unfold run in *. congruence.
    + intros [Hv _]%Forall_cons. simpl in Hv. congruence.
Qed.

Lemma validate_all_trace_witness :
  ValidationContext.validate_all
    [CapacityValidationStrategy.validate; ScheduleConflictValidationStrategy.validate]
    "STU001" "CS101"
    (mkContext (Some (mkCourse "CS101" "Intro to Programming" "Dr. Smith" 30 25 []))
       ["CS101"] ["CS201"])
  = [mkResult true "Capacity available"; mkResult true "No schedule conflicts"].
Proof.
  apply (validate_all_trace
           [CapacityValidationStrategy.validate;
            ScheduleConflictValidationStrategy.validate]).
  by repeat constructor.
Defined.

(** ** The dispatcher and its queue *)

(** X7.  The dispatcher handles a queue first in, first out, and what it
    does to [q1 ++ q2] is what it does to [q1] followed, if the thread
    is still alive, by what it does to [q2]; if the thread ended within
    [q1], the events of [q2] stay in the queue behind those left of [q1].
    An event whose type has no subscriber is taken off the queue and
    changes nothing. *)
Theorem process_events_app {W : Type} (print : string → W → W)
    (subs : gmap string (list (EventBus.callback W))) (q1 q2 : list Event) (w : W) :
  EventBus.process_events print subs (q1 ++ q2) w
  = (let '(rest, w', r) := EventBus.process_events print subs q1 w in
     match r with
     | None => EventBus.process_events print subs q2 w'
     | Some e => (rest ++ q2, w', Some e)
     end)
  ∧ (∀ event,
       subs !! event_type event = None →
       EventBus.process_events print subs (event :: q2) w
       = EventBus.process_events print subs q2 w).
Proof.
  split.
  - revert w. induction q1 as [|event q1 IH]; intros w; simpl; [done|].
    destruct (EventBus.handle_event print subs event w) as [w' [e|]]; [done|].
    apply IH.
  - intros event Hnone. simpl. unfold EventBus.handle_event. by rewrite Hnone.
Qed.

Lemma process_events_app_witness :
  let print := λ (line : string) (w : list string), w ++ [line] in
  let subs : gmap string (list (EventBus.callback (list string))) :=
    {[ "student_enrolled" := [printing_callback] ]} in
  EventBus.process_events print subs
    [mkEvent "course_created" [] "t0"; mkEvent "student_enrolled" [] "t1"] []
  = EventBus.process_events print subs [mkEvent "student_enrolled" [] "t1"] [].
Proof.
  intros print subs.
  apply (proj2 (process_events_app print subs []
                  [mkEvent "student_enrolled" [] "t1"] [])).
  reflexivity.
Defined.

(** ** What the running system keeps *)

Section system.
Context `{!Builtins}.

Lemma item_raises d k e : NotificationService.item d k = Raise e → e = KeyError k.
Proof. unfold NotificationService.item. destruct (lookup_key k d); by intros [= <-]. Qed.

Ltac handler_raises :=
  intros event e; cbv beta delta [NotificationService._handle_enrollment_notification
    NotificationService._handle_drop_notification
    NotificationService._handle_grade_notification
    NotificationService._handle_course_created_notification
    NotificationService._handle_system_config_notification]; simpl;
  repeat match goal with
  | |- context [NotificationService.item ?d ?k] =>
    let E := fresh "E" in
    destruct (NotificationService.item d k) eqn:E; simpl;
    [|apply item_raises in E; intros [= <-]; eauto]
  end; try discriminate.

Lemma notification_handlers_raise_KeyError :
  raises_KeyError NotificationService._handle_enrollment_notification
  ∧ raises_KeyError NotificationService._handle_drop_notification
  ∧ raises_KeyError NotificationService._handle_grade_notification
  ∧ raises_KeyError NotificationService._handle_course_created_notification
  ∧ raises_KeyError NotificationService._handle_system_config_notification.
Proof. split_and!; handler_raises. Qed.

Lemma notifier_roster_only h : raises_KeyError h → roster_only (notifier h).
Proof.
  intros Hh event w. unfold notifier.
  destruct (h event) as [lines|e] eqn:E; simpl; (split; [by split_and!|]); [done|].
  intros e' [= <-]. by destruct (Hh _ _ E) as [k ->].
Qed.

Lemma on_student_enrolled_frame event (f : FacultyService.t) :
  let f' := (FacultyService._on_student_enrolled event f).1 in
  FacultyService.courses f' = FacultyService.courses f
  ∧ FacultyService.grades f' = FacultyService.grades f
  ∧ dom (FacultyService.rosters f') = dom (FacultyService.rosters f).
Proof.
  unfold FacultyService._on_student_enrolled.
  destruct (dict_get "course_id" (data event)); try done.
  destruct (dict_get "student_id" (data event)); try done.
  destruct (FacultyService.rosters f !! s) as [roster|] eqn:E; [|done].
  destruct (mem s0 roster); [done|]. simpl. split_and!; try done.
  by rewrite dom_insert_lookup_L.
Qed.

Lemma on_student_dropped_frame event (f : FacultyService.t) :
  let f' := (FacultyService._on_student_dropped event f).1 in
  FacultyService.courses f' = FacultyService.courses f
  ∧ FacultyService.grades f' = FacultyService.grades f
  ∧ dom (FacultyService.rosters f') = dom (FacultyService.rosters f).
Proof.
  unfold FacultyService._on_student_dropped.
  destruct (dict_get "course_id" (data event)); try done.
  destruct (dict_get "student_id" (data event)); try done.
  destruct (FacultyService.rosters f !! s) as [roster|] eqn:E; [|done].
  destruct (mem s0 roster); [|done]. simpl. split_and!; try done.
  by rewrite dom_insert_lookup_L.
Qed.

Lemma faculty_callbacks_roster_only :
  roster_only (faculty_callback FacultyService._on_student_enrolled)
  ∧ roster_only (faculty_callback FacultyService._on_student_dropped).
Proof.
  split; intros event w; unfold faculty_callback.
  - pose proof (on_student_enrolled_frame event (faculty w)) as (Hc & Hg & Hr).
    pose proof (on_student_enrolled_nodup event (faculty w)) as Hn.
    destruct (FacultyService._on_student_enrolled event (faculty w)) as [f lines].
    simpl in *. split; [by split_and!|done].
  - pose proof (on_student_dropped_frame event (faculty w)) as (Hc & Hg & Hr).
    pose proof (on_student_dropped_nodup event (faculty w)) as Hn.
    destruct (FacultyService._on_student_dropped event (faculty w)) as [f lines].
    simpl in *. split; [by split_and!|done].
Qed.

(** The subscriptions of the running system, type by type. *)
Lemma subscriptions_map :
  EventBus.subscribers System.subscriptions
  = {[ "student_enrolled" :=
         [notifier NotificationService._handle_enrollment_notification;
          faculty_callback FacultyService._on_student_enrolled];
       "student_dropped" :=
         [notifier NotificationService._handle_drop_notification;
          faculty_callback FacultyService._on_student_dropped];
       "grade_submitted" :=
         [notifier NotificationService._handle_grade_notification];
       "course_created" :=
         [notifier NotificationService._handle_course_created_notification];
       "system_config_updated" :=
         [notifier NotificationService._handle_system_config_notification] ]}.
Proof. reflexivity. Qed.

Lemma subscriptions_roster_only et cbs :
  EventBus.subscribers System.subscriptions !! et = Some cbs → Forall roster_only cbs.
Proof.
  destruct notification_handlers_raise_KeyError as (H1 & H2 & H3 & H4 & H5).
  destruct faculty_callbacks_roster_only as [He Hd].
  rewrite subscriptions_map. intros Hcbs.
  repeat (apply lookup_insert_Some in Hcbs as [[_ <-]|[_ Hcbs]];
          [repeat first [apply Forall_nil_2|apply Forall_cons_2];
           first [assumption|by apply notifier_roster_only]|]).
  apply lookup_singleton_Some in Hcbs as [_ <-].
  repeat first [apply Forall_nil_2|apply Forall_cons_2].
  by apply notifier_roster_only.
Qed.
Lemma only_rosters_changed_refl w : only_rosters_changed w w.
Proof. by split_and!. Qed.

Lemma only_rosters_changed_trans w1 w2 w3 :
  only_rosters_changed w1 w2 → only_rosters_changed w2 w3 → only_rosters_changed w1 w3.
Proof.
  intros (S1 & A1 & C1 & G1 & D1 & N1) (S2 & A2 & C2 & G2 & D2 & N2).
  split_and!; try congruence. auto.
Qed.

Lemma only_rosters_changed_print line w : only_rosters_changed w (print line w).
Proof. by split_and!. Qed.

Lemma run_callbacks_roster_only event cbs w :
  Forall roster_only cbs →
  ∃ w', EventBus.run_callbacks print event cbs w = (w', None)
        ∧ only_rosters_changed w w'.
Proof.
  intros Hcbs. revert w. induction Hcbs as [|cb cbs Hcb _ IH]; intros w; simpl.
  { exists w. split; [done|apply only_rosters_changed_refl]. }
  destruct (Hcb event w) as [Hframe Hexn].
  destruct (cb event w) as [w1 [e|]]; simpl in *.
  - rewrite (Hexn e eq_refl).
    destruct (IH (print ("Error processing event " +:+ event_type event +:+ ": "
                         +:+ exn_str e) w1)) as (w' & -> & Hw').
    exists w'. split; [done|].
    eapply only_rosters_changed_trans; [exact Hframe|].
    eapply only_rosters_changed_trans; [apply only_rosters_changed_print|exact Hw'].
  - destruct (IH w1) as (w' & -> & Hw'). exists w'. split; [done|].
    by eapply only_rosters_changed_trans.
Qed.

(** One turn of the dispatcher with the subscriptions of the system. *)
Lemma dispatch_step_frame (b : EventBus.t World) w :
  EventBus.subscribers b = EventBus.subscribers System.subscriptions →
  ∃ b' w', EventBus.step print b w = (b', w', None)
           ∧ EventBus.subscribers b' = EventBus.subscribers b
           ∧ only_rosters_changed w w'.
Proof.
  intros Hsubs. unfold EventBus.step.
  destruct (EventBus.event_queue b) as [|event q].
  { exists b, w. split_and!; [done|done|apply only_rosters_changed_refl]. }
  unfold EventBus.handle_event. rewrite Hsubs.
  destruct (EventBus.subscribers System.subscriptions !! event_type event)
    as [cbs|] eqn:E.
  - destruct (run_callbacks_roster_only event cbs w) as (w' & -> & Hw').
    { by eapply subscriptions_roster_only. }
    by eexists _, w'.
  - eexists _, w. split_and!; [done|done|apply only_rosters_changed_refl].
Qed.

Lemma publish_all_subscribers events (b : EventBus.t World) :
  EventBus.subscribers (foldl (λ b event, EventBus.publish event b) b events)
  = EventBus.subscribers b.
Proof.
  revert b. induction events as [|event events IH]; intros b; simpl; [done|].
  by rewrite IH.
Qed.

Lemma submit_grades_frame now body (f f' : FacultyService.t) events r :
  FacultyService.submit_grades now body f = (f', events, r) →
  FacultyService.courses f' = FacultyService.courses f
  ∧ FacultyService.rosters f' = FacultyService.rosters f.
Proof.
  unfold FacultyService.submit_grades. intros Hrun.
  repeat match type of Hrun with
  | context [match ?x with _ => _ end] => destruct x eqn:?
  | context [if ?x then _ else _] => destruct x eqn:?
  end; by simplify_eq.
Qed.

Lemma system_invariant_init : system_invariant System.init.
Proof. split_and!; try done. apply rosters_nodup_init. Qed.

Lemma system_invariant_step a s :
  system_invariant s →
  system_invariant (System.step a s).1
  ∧ student (world (System.step a s).1)
    = match a with
      | System.Enroll now body => (StudentService.enroll_student now body (student (world s))).1.1
      | System.Drop now body => (StudentService.drop_course now body (student (world s))).1.1
      | _ => student (world s)
      end
  ∧ (match a with
     | System.CreateCourse _ _ => True
     | _ => admin (world (System.step a s).1) = admin (world s)
     end)
  ∧ (match a with
     | System.SubmitGrades _ _ => True
     | _ => FacultyService.grades (faculty (world (System.step a s).1))
            = FacultyService.grades (faculty (world s))
     end)
  ∧ (match a with
     | System.Dispatch => True
     | _ => FacultyService.rosters (faculty (world (System.step a s).1))
            = FacultyService.rosters (faculty (world s))
     end).
Proof.
  intros (Halive & Hsubs & Hcourses & Hdom & Hnodup).
  destruct a as [now body|now body|now body|now body|now body|]; simpl.
  - destruct (StudentService.enroll_student now body (student (world s)))
      as [[st events] r]; simpl.
    split_and!; try done. split_and!; try done. by simpl; unfold System.publish_all; rewrite publish_all_subscribers.
  - destruct (StudentService.drop_course now body (student (world s)))
      as [[st events] r]; simpl.
    split_and!; try done. split_and!; try done. by simpl; unfold System.publish_all; rewrite publish_all_subscribers.
  - destruct (FacultyService.submit_grades now body (faculty (world s)))
      as [[f events] r] eqn:E; simpl.
    apply submit_grades_frame in E as [Hc Hr].
    split_and!; try done. split_and!; simpl; try done.
    + by simpl; unfold System.publish_all; rewrite publish_all_subscribers.
    + by rewrite Hc.
    + by rewrite Hr.
    + intros cid roster. rewrite Hr. apply Hnodup.
  - destruct (AdminService.create_course now body (admin (world s)))
      as [[a events] r]; simpl.
    split_and!; try done. split_and!; try done. by simpl; unfold System.publish_all; rewrite publish_all_subscribers.
  - destruct (AdminService.update_system_config now body) as [events r]; simpl.
    split_and!; try done. split_and!; try done. by simpl; unfold System.publish_all; rewrite publish_all_subscribers.
  - rewrite Halive.
    destruct (dispatch_step_frame (bus s) (world s) Hsubs)
      as (b' & w' & -> & Hb' & (Hst & Had & Hco & Hgr & Hdo & Hno)).
    simpl. split_and!; try done.
    split_and!; simpl; [done|by rewrite Hb'|by rewrite Hco|by rewrite Hdo|auto].
Qed.

Lemma system_invariant_run actions s :
  system_invariant s →
  system_invariant (System.run actions s)
  ∧ student (world (System.run actions s))
    = handle_student_requests (student_requests actions) (student (world s)).
Proof.
  revert s. induction actions as [|a actions IH]; intros s Hs; [done|].
  destruct (system_invariant_step a s Hs) as (Hs' & Hstudent & _).
  destruct (IH _ Hs') as [Hinv Hrun].
  unfold System.run in *. simpl. split; [done|].
  rewrite Hrun, Hstudent. by destruct a.
Qed.
End system.

(** X8.  In every state the system reaches from its start, whatever the
    requests and however the dispatcher's turns fall between them: the
    dispatcher thread is alive and the subscriptions are those made at
    the start; the faculty service has the courses it started with and a
    roster for CS101 and for CS201 and for no other course; and no roster
    lists a student twice. *)
Theorem system_keeps_dispatcher_and_rosters `{!Builtins} (actions : list System.action) :
  let s := System.run actions System.init in
  dispatcher_alive s = true
  ∧ EventBus.subscribers (bus s) = EventBus.subscribers System.subscriptions
  ∧ FacultyService.courses (faculty (world s)) = FacultyService.courses FacultyService.init
  ∧ (∀ course_id,
       is_Some (FacultyService.rosters (faculty (world s)) !! course_id)
       ↔ course_id = "CS101" ∨ course_id = "CS201")
  ∧ rosters_nodup (faculty (world s)).
Proof.
  destruct (system_invariant_run actions System.init system_invariant_init)
    as [(Halive & Hsubs & Hcourses & Hdom & Hnodup) _].
  split_and!; try done.
  intros cid. rewrite <-elem_of_dom, Hdom. simpl.
  rewrite dom_insert_L, dom_singleton_L, elem_of_union, !elem_of_singleton. done.
Qed.

(** X9.  Only its own two routes change the student service: after any
    actions of the system it is in the state that its requests to enroll
    and to drop, taken in their order, lead to from the seeded state, as
    if no other request had been made and no event dispatched.  So in the
    running system too every course of the student service keeps
    [0 <= enrolled <= capacity]. *)
Theorem student_service_changed_by_its_requests_only `{!Builtins}
    (actions : list System.action) :
  let st := student (world (System.run actions System.init)) in
  st = handle_student_requests (student_requests actions) StudentService.init
  ∧ ∀ course_id course,
      Dict.get course_id (StudentService.courses st) = Some course →
      0 ≤ enrolled course ≤ capacity course.
Proof.
  destruct (system_invariant_run actions System.init system_invariant_init)
    as [_ Hstudent].
  simpl. split; [exact Hstudent|].
  intros cid course. rewrite Hstudent. intros Hcourse.
  destruct (seats_consistent_requests (student_requests actions) StudentService.init
              seats_consistent_init cid course Hcourse) as [Hh Hc].
  lia.
Qed.

Lemma student_service_changed_by_its_requests_only_witness :
  let now : clock := λ _, "2025-01-01T10:00:00" in
  let body := PDict [("student_id", PStr "STU001"); ("course_id", PStr "CS201")] in
  let actions :=
    [System.Enroll now body; System.Dispatch;
     System.UpdateConfig now (PDict [("message", PStr "Testing config")])] in
  Dict.get "CS201"
    (StudentService.courses
       (student (world (@System.run sample_builtins actions
                          (@System.init sample_builtins)))))
  = Some (mkCourse "CS201" "Data Structures" "Dr. Johnson" 25 21 ["CS101"])
  ∧ 0 ≤ 21 ≤ 25.
Proof.
  intros now body actions.
  assert (Dict.get "CS201"
            (StudentService.courses
               (student (world (@System.run sample_builtins actions
                                  (@System.init sample_builtins)))))
          = Some (mkCourse "CS201" "Data Structures" "Dr. Johnson" 25 21 ["CS101"]))
    as Hcourse by reflexivity.
  split; [exact Hcourse|].
  exact (proj2 (@student_service_changed_by_its_requests_only sample_builtins actions)
           "CS201" _ Hcourse).
Defined.

(** ** Rosters after the dispatcher's turn *)

(** A request answered 200 names its student and its course by strs and
    publishes one event that carries them. *)
Lemma enroll_student_event now body (self self' : StudentService.t) events r :
  StudentService.enroll_student now body self = (self', events, r) →
  status_of r = 200 →
  ∃ sid cid,
    body_ids body = Some (sid, cid)
    ∧ events = [mkEvent "student_enrolled"
                  [("student_id", PStr sid); ("course_id", PStr cid);
                   ("advisor_email", PStr ("advisor_" +:+ sid +:+ "@university.edu"))]
                  (now 1%nat)].
Proof.
  unfold StudentService.enroll_student, body_ids. intros Hrun Hr.
  repeat match type of Hrun with
  | context [match ?x with _ => _ end] => destruct x eqn:?
  end; simplify_eq; simpl in Hr; try lia.
  by eexists _, _.
Qed.

Lemma drop_course_event now body (self self' : StudentService.t) events r :
  StudentService.drop_course now body self = (self', events, r) →
  status_of r = 200 →
  ∃ sid cid,
    body_ids body = Some (sid, cid)
    ∧ events = [mkEvent "student_dropped"
                  [("student_id", PStr sid); ("course_id", PStr cid)] (now 0%nat)].
Proof.
  unfold StudentService.drop_course, body_ids. intros Hrun Hr.
  repeat match type of Hrun with
  | context [match ?x with _ => _ end] => destruct x eqn:?
  | context [if ?x then _ else _] => destruct x eqn:?
  end; simplify_eq; simpl in Hr; try lia.
  by eexists _, _.
Qed.

Section queue.
Context `{!Builtins}.

Lemma publish_all_queue events (b : EventBus.t World) :
  EventBus.event_queue (foldl (λ b event, EventBus.publish event b) b events)
  = EventBus.event_queue b ++ events.
Proof.
  revert b. induction events as [|event events IH]; intros b; simpl.
  - by rewrite app_nil_r.
  - rewrite IH. simpl. by rewrite <- app_assoc.
Qed.

(** A request puts its events last in the queue. *)
Lemma request_step_queue a s :
  a ≠ System.Dispatch →
  ∃ events,
    EventBus.event_queue (bus (System.step a s).1)
    = EventBus.event_queue (bus s) ++ events.
Proof.
  intros Ha. destruct a as [now body|now body|now body|now body|now body|]; [..|done];
    unfold System.step.
  - destruct (StudentService.enroll_student now body (student (world s)))
      as [[st events] r]. exists events. simpl. apply publish_all_queue.
  - destruct (StudentService.drop_course now body (student (world s)))
      as [[st events] r]. exists events. simpl. apply publish_all_queue.
  - destruct (FacultyService.submit_grades now body (faculty (world s)))
      as [[f events] r]. exists events. simpl. apply publish_all_queue.
  - destruct (AdminService.create_course now body (admin (world s)))
      as [[a events] r]. exists events. simpl. apply publish_all_queue.
  - destruct (AdminService.update_system_config now body) as [events r].
    exists events. simpl. apply publish_all_queue.
Qed.

(** A turn of the living dispatcher on a queue that is not empty is
    [dispatch_head] on the world as it is. *)
Lemma dispatch_step_head s event q :
  system_invariant s →
  EventBus.event_queue (bus s) = event :: q →
  (System.step System.Dispatch s).1
  = let '(b, w', r) := dispatch_head event q (world s) in
    mkSystem w' b (bool_decide (r = None)).
Proof.
  intros (Halive & Hsubs & _) Hq. unfold System.step, dispatch_head.
  rewrite Halive. destruct (bus s) as [subs queue]. simpl in Hsubs, Hq. subst.
  by destruct (EventBus.step _ _ _) as [[b w'] r].
Qed.

Lemma dispatch_step_queue s event q :
  system_invariant s →
  EventBus.event_queue (bus s) = event :: q →
  EventBus.event_queue (bus (System.step System.Dispatch s).1) = q.
Proof.
  intros (Halive & Hsubs & _) Hq. unfold System.step. rewrite Halive.
  unfold EventBus.step. rewrite Hq.
  by destruct (EventBus.handle_event _ _ _ _) as [w' r].
Qed.

(** An event with [length ahead] events before it in the queue is at the
    head of the queue after as many turns of the dispatcher, whatever
    requests are handled in between. *)
Lemma run_until_head more : ∀ s ahead event behind,
  system_invariant s →
  EventBus.event_queue (bus s) = ahead ++ event :: behind →
  dispatches more = length ahead →
  ∃ behind',
    EventBus.event_queue (bus (System.run more s)) = event :: behind'
    ∧ system_invariant (System.run more s).
Proof.
  induction more as [|a more IH]; intros s ahead event behind Hs Hq Hn.
  - destruct ahead; [|done]. by exists behind.
  - change (System.run (a :: more) s) with (System.run more (System.step a s).1).
    pose proof (system_invariant_step a s Hs) as [Hs' _].
    assert (a = System.Dispatch ∨ a ≠ System.Dispatch) as [->|Ha]
      by (destruct a; (by left) || (by right)).
    + destruct ahead as [|first ahead]; [done|]. simpl in Hn.
      apply (IH _ ahead event behind Hs').
      * by apply (dispatch_step_queue s first).
      * lia.
    + destruct (request_step_queue a s Ha) as [events Hevents].
      apply (IH _ ahead event (behind ++ events) Hs').
      * rewrite Hevents, Hq. by rewrite <- app_assoc.
      * by destruct a.
Qed.
End queue.

Lemma on_student_enrolled_on_roster sid cid extra t (f : FacultyService.t) :
  is_Some (FacultyService.rosters f !! cid) →
  on_roster (FacultyService._on_student_enrolled
               (mkEvent "student_enrolled"
                  (("student_id", PStr sid) :: ("course_id", PStr cid) :: extra) t) f).1
    cid sid.
Proof.
  intros [roster Hroster]. unfold on_roster.
  rewrite on_student_enrolled_rosters, Hroster.
  destruct (mem sid roster) eqn:Hmem.
  - exists roster. split; [done|]. by apply mem_true.
  - exists (roster ++ [sid]). split; [apply lookup_insert_eq|].
    apply elem_of_app. right. by apply list_elem_of_singleton.
Qed.

Lemma on_student_dropped_off_roster sid cid extra t (f : FacultyService.t) :
  rosters_nodup f →
  ¬ on_roster (FacultyService._on_student_dropped
                 (mkEvent "student_dropped"
                    (("student_id", PStr sid) :: ("course_id", PStr cid) :: extra) t) f).1
      cid sid.
Proof.
  intros Hnodup [roster' [Hlookup Hin]].
  rewrite on_student_dropped_rosters in Hlookup.
  destruct (FacultyService.rosters f !! cid) as [roster|] eqn:E.
  - destruct (mem sid roster) eqn:Hmem.
    + rewrite lookup_insert_eq in Hlookup. injection Hlookup as <-.
      apply (remove_first_not_elem sid roster); [|done]. by eapply Hnodup.
    + apply mem_false in Hmem. rewrite E in Hlookup. by injection Hlookup as <-.
  - by rewrite E in Hlookup.
Qed.

Section eventually.
Context `{!Builtins}.

Lemma enroll_step_queue s now body st events r :
  StudentService.enroll_student now body (student (world s)) = (st, events, r) →
  (System.step (System.Enroll now body) s).2 = Some r
  ∧ EventBus.event_queue (bus (System.step (System.Enroll now body) s).1)
    = EventBus.event_queue (bus s) ++ events.
Proof.
  intros E. unfold System.step. rewrite E. simpl. split; [done|].
  apply publish_all_queue.
Qed.

Lemma drop_step_queue s now body st events r :
  StudentService.drop_course now body (student (world s)) = (st, events, r) →
  (System.step (System.Drop now body) s).2 = Some r
  ∧ EventBus.event_queue (bus (System.step (System.Drop now body) s).1)
    = EventBus.event_queue (bus s) ++ events.
Proof.
  intros E. unfold System.step. rewrite E. simpl. split; [done|].
  apply publish_all_queue.
Qed.

Lemma run_snoc actions a s :
  System.run (actions ++ [a]) s = (System.step a (System.run actions s)).1.
Proof. unfold System.run. by rewrite foldl_app. Qed.

(** C5.  Let the system have handled any requests and made any turns of
    its dispatcher since it started, and let a request to enroll be
    answered 200.  The body of the request then names a student and a
    course by strs, and a [student_enrolled] event was put last in the
    queue.  After as many turns of the dispatcher as there were events
    ahead of it, with any requests handled in between, that event is at
    the head of the queue; the next turn takes it off, and the student is
    then on the faculty service's roster of the course.  Likewise for a
    request to drop answered 200 and its [student_dropped] event, after
    which the student is not on the roster of the course. *)
Theorem rosters_follow_enrollments_and_drops
    (before more : list System.action) (now : clock) (body : pyval) :
  let s := System.run before System.init in
  dispatches more = length (EventBus.event_queue (bus s)) →
  let after request :=
    System.run (more ++ [System.Dispatch]) (System.step request s).1 in
  let dispatched request event :=
    ∃ behind,
      EventBus.event_queue (bus (System.step request s).1)
      = EventBus.event_queue (bus s) ++ [event]
      ∧ EventBus.event_queue (bus (System.run more (System.step request s).1))
        = event :: behind
      ∧ EventBus.event_queue (bus (after request)) = behind in
  (status_of <$> (System.step (System.Enroll now body) s).2 = Some 200 →
   ∃ student_id id event,
     body_ids body = Some (student_id, id)
     ∧ event_type event = "student_enrolled"
     ∧ dispatched (System.Enroll now body) event
     ∧ on_roster (faculty (world (after (System.Enroll now body)))) id student_id)
  ∧ (status_of <$> (System.step (System.Drop now body) s).2 = Some 200 →
     ∃ student_id id event,
       body_ids body = Some (student_id, id)
       ∧ event_type event = "student_dropped"
       ∧ dispatched (System.Drop now body) event
       ∧ ¬ on_roster (faculty (world (after (System.Drop now body)))) id student_id).
Proof.
  intros s Hn after dispatched.
  destruct (system_invariant_run before System.init system_invariant_init)
    as [Hs Hstudent].
  fold s in Hs, Hstudent. change (student (world System.init)) with StudentService.init in Hstudent.
  split.
  - destruct (StudentService.enroll_student now body (student (world s)))
      as [[st events] r] eqn:E.
    destruct (enroll_step_queue s now body st events r E) as [-> Hq].
    intros Hr. injection Hr as Hr.
    destruct (enroll_student_event _ _ _ _ _ _ E Hr) as (sid & cid & Hids & ->).
    rewrite Hstudent in E.
    destruct (seeded_enrollments_have_rosters _ _ _ _ _ _ E Hr)
      as (sid' & cid' & Hids' & Hroster).
    rewrite Hids in Hids'. injection Hids' as <- <-.
    pose proof (system_invariant_step (System.Enroll now body) s Hs) as [Hs1 _].
    destruct (run_until_head more _ _ _ [] Hs1 Hq Hn) as (behind & Hhead & Hs2).
    pose proof (dispatch_step_head _ _ _ Hs2 Hhead) as Hstep.
    destruct (dispatch_head_student_enrolled sid cid
                ("advisor_" +:+ sid +:+ "@university.edu") (now 1%nat) behind
                (world (System.run more (System.step (System.Enroll now body) s).1)))
      as (w' & Hdispatch & Hf & _).
    cbv zeta in Hdispatch. rewrite Hdispatch in Hstep.
    exists sid, cid,
      (mkEvent "student_enrolled"
         [("student_id", PStr sid); ("course_id", PStr cid);
          ("advisor_email", PStr ("advisor_" +:+ sid +:+ "@university.edu"))]
         (now 1%nat)).
    split_and!; [done|done| |].
    + exists behind. split_and!; [done|done|].
      unfold after. rewrite run_snoc, Hstep. done.
    + unfold after. rewrite run_snoc, Hstep. simpl. rewrite Hf.
      apply on_student_enrolled_on_roster.
      destruct Hs2 as (_ & _ & _ & Hdom & _).
      apply elem_of_dom. rewrite Hdom. by apply elem_of_dom.
  - destruct (StudentService.drop_course now body (student (world s)))
      as [[st events] r] eqn:E.
    destruct (drop_step_queue s now body st events r E) as [-> Hq].
    intros Hr. injection Hr as Hr.
    destruct (drop_course_event _ _ _ _ _ _ E Hr) as (sid & cid & Hids & ->).
    pose proof (system_invariant_step (System.Drop now body) s Hs) as [Hs1 _].
    destruct (run_until_head more _ _ _ [] Hs1 Hq Hn) as (behind & Hhead & Hs2).
    pose proof (dispatch_step_head _ _ _ Hs2 Hhead) as Hstep.
    destruct (dispatch_head_student_dropped sid cid (now 0%nat) behind
                (world (System.run more (System.step (System.Drop now body) s).1)))
      as (w' & Hdispatch & Hf & _).
    cbv zeta in Hdispatch. rewrite Hdispatch in Hstep.
    exists sid, cid,
      (mkEvent "student_dropped"
         [("student_id", PStr sid); ("course_id", PStr cid)] (now 0%nat)).
    split_and!; [done|done| |].
    + exists behind. split_and!; [done|done|].
      unfold after. rewrite run_snoc, Hstep. done.
    + unfold after. rewrite run_snoc, Hstep. simpl. rewrite Hf.
      apply on_student_dropped_off_roster.
      by destruct Hs2 as (_ & _ & _ & _ & Hnodup).
Qed.
End eventually.

Lemma rosters_follow_enrollments_and_drops_witness :
  let now : clock := λ _, "2025-01-01T10:00:00" in
  let request sid cid := PDict [("student_id", PStr sid); ("course_id", PStr cid)] in
  let s := @System.run sample_builtins
             [System.Enroll now (request "STU004" "CS101")]
             (@System.init sample_builtins) in
  on_roster
    (faculty (world (@System.run sample_builtins [System.Dispatch; System.Dispatch]
                       (@System.step sample_builtins
                          (System.Enroll now (request "STU009" "CS101")) s).1)))
    "CS101" "STU009"
  ∧ ¬ on_roster
        (faculty (world (@System.run sample_builtins [System.Dispatch; System.Dispatch]
                           (@System.step sample_builtins
                              (System.Drop now (request "STU001" "CS201")) s).1)))
        "CS201" "STU001".
Proof.
  intros now request s. split.
  - destruct (@rosters_follow_enrollments_and_drops sample_builtins
                [System.Enroll now (request "STU004" "CS101")] [System.Dispatch]
                now (request "STU009" "CS101")) as [Henroll _].
    + reflexivity.
    + destruct Henroll as (sid & cid & event & Hids & _ & _ & Hroster).
      * vm_compute. reflexivity.
      * vm_compute in Hids. injection Hids as <- <-. exact Hroster.
  - destruct (@rosters_follow_enrollments_and_drops sample_builtins
                [System.Enroll now (request "STU004" "CS101")] [System.Dispatch]
                now (request "STU001" "CS201")) as [_ Hdrop].
    + reflexivity.
    + destruct Hdrop as (sid & cid & event & Hids & _ & _ & Hroster).
      * vm_compute. reflexivity.
      * vm_compute in Hids. injection Hids as <- <-. exact Hroster.
Defined.

(** ** Courses the student service does not know *)

(** X10.  The student service never learns of a course: in every state
    the system reaches from its start, a request to enroll in or to drop
    a course other than CS101, CS201 and CS301 is answered 404 "Course
    not found", also for a course that [POST /course] has created in the
    administrator service. *)
Theorem student_service_knows_seeded_courses_only `{!Builtins}
    (actions : list System.action) (now : clock) (d : list (string * pyval))
    (student_id course_id : string) :
  dict_get "student_id" d = PStr student_id →
  dict_get "course_id" d = PStr course_id →
  course_id ∉ ["CS101"; "CS201"; "CS301"] →
  let st := student (world (System.run actions System.init)) in
  StudentService.enroll_student now (PDict d) st
  = (st, [], Resp 404 (PDict [("error", PStr "Course not found")]))
  ∧ StudentService.drop_course now (PDict d) st
    = (st, [], Resp 404 (PDict [("error", PStr "Course not found")])).
Proof.
  intros Hsid Hcid Hunknown st.
  assert (Dict.get course_id (StudentService.courses st) = None) as Hnone.
  { destruct (system_invariant_run actions System.init system_invariant_init)
      as [_ Hstudent].
    unfold st. rewrite Hstudent.
    destruct (CS301_closed_requests (student_requests actions) _ CS301_closed_init)
      as (Hkeys & _).
    apply eq_None_not_Some. intros Hsome. by apply Hunknown, Hkeys. }
  unfold StudentService.enroll_student, StudentService.drop_course.
  by rewrite (get_json_dict _ _ _ Hsid), Hsid, Hcid, Hnone.
Qed.

Lemma student_service_knows_seeded_courses_only_witness :
  let now : clock := λ _, "2025-01-01T10:00:00" in
  let create :=
    System.CreateCourse now
      (PDict [("course_id", PStr "CS401"); ("name", PStr "Advanced Software Engineering");
              ("instructor", PStr "Dr. Wilson"); ("capacity", PInt 15);
              ("prerequisites", PList [PStr "CS201"; PStr "CS301"])]) in
  let s := @System.run sample_builtins [create; System.Dispatch]
             (@System.init sample_builtins) in
  is_Some (Dict.get "CS401" (AdminService.courses (admin (world s))))
  ∧ (StudentService.enroll_student now
       (PDict [("student_id", PStr "STU002"); ("course_id", PStr "CS401")])
       (student (world s))).2
    = Resp 404 (PDict [("error", PStr "Course not found")]).
Proof.
  intros now create s. split; [by eexists|].
  destruct (@student_service_knows_seeded_courses_only sample_builtins
              [create; System.Dispatch] now
              [("student_id", PStr "STU002"); ("course_id", PStr "CS401")]
              "STU002" "CS401") as [Henroll _].
  - reflexivity.
  - reflexivity.
  - rewrite !not_elem_of_cons. split_and!; try discriminate. apply not_elem_of_nil.
  - fold s in Henroll. by rewrite Henroll.
Defined.

(** ** Storing a batch of grades *)

Lemma book_get_set s s' v book :
  book_get (PStr s) (book_set (PStr s') v book)
  = if String.eqb s s' then Some v else book_get (PStr s) book.
Proof.
  induction book as [|[k v0] book IH]; [done|].
  destruct k as [| | | | |s0| | |]; simpl; try apply IH.
  destruct (String.eqb s' s0) eqn:E'; simpl.
  - apply String.eqb_eq in E' as ->. by destruct (String.eqb s s0).
  - destruct (String.eqb s s0) eqn:E; [|apply IH].
    apply String.eqb_eq in E as ->.
    destruct (String.eqb s0 s') eqn:E''; [|done].
    apply String.eqb_eq in E'' as ->. by rewrite String.eqb_refl in E'.
Qed.

Lemma storable_entry_inv s g :
  storable_entry s g = true →
  ∃ d sid x,
    g = PDict d ∧ lookup_key "student_id" d = Some (PStr sid)
    ∧ lookup_key "grade" d = Some (PStr x) ∧ mem x (VALID s) = true.
Proof.
  unfold storable_entry. destruct g as [| | | | | | |d|]; try done.
  destruct (lookup_key "student_id" d) as [[]|] eqn:Hsid; try done.
  destruct (lookup_key "grade" d) as [[]|] eqn:Hgrade; try done.
  intros Hmem. by eexists _, _, _.
Qed.

Lemma storable_batch_accepted s batch :
  forallb (storable_entry s) batch = true →
  forallb grade_entry batch = true ∧ illegal_entries s batch = [].
Proof.
  induction batch as [|g batch IH]; simpl; [done|].
  intros [Hg Hbatch]%andb_prop. destruct (IH Hbatch) as [IH1 IH2].
  destruct (storable_entry_inv _ _ Hg) as (d & sid & x & -> & Hsid & Hgrade & Hmem).
  unfold illegal_entries in *. rewrite filter_cons, IH2.
  simpl. unfold legal_grade, grade_of, dict_get. rewrite Hgrade. simpl.
  rewrite IH1, decide_False by (by rewrite Hmem). done.
Qed.

Lemma store_grades_storable s now i cid batch book :
  forallb (storable_entry s) batch = true →
  ∃ book',
    FacultyService.store_grades now i cid batch book
    = (book', imap (λ j g, grade_event now cid (i + j) g) batch, None)
    ∧ ∀ sid, book_get (PStr sid) book'
             = match last_grade sid batch with
               | Some grade => Some grade
               | None => book_get (PStr sid) book
               end.
Proof.
  revert i book. induction batch as [|g batch IH]; intros i book; simpl.
  { intros _. by exists book. }
  intros [Hg Hbatch]%andb_prop.
  destruct (storable_entry_inv _ _ Hg) as (d & sid0 & x & -> & Hsid & Hgrade & Hmem).
  simpl. rewrite Hsid, Hgrade. simpl.
  destruct (IH (S i) (book_set (PStr sid0) (PStr x) book) Hbatch) as (book' & -> & Hget).
  exists book'. split.
  - replace (i + 0)%nat with i by lia.
    assert (grade_event now cid i (PDict d)
            = mkEvent "grade_submitted"
                [("student_id", PStr sid0); ("course_id", PStr cid); ("grade", PStr x)]
                (now i)) as <-.
    { unfold grade_event, grade_of, dict_get. by rewrite Hsid, Hgrade. }
    do 3 f_equal. apply imap_ext. intros j g _. simpl. f_equal. lia.
  - intros sid. rewrite Hget.
    destruct (last_grade sid batch); [done|].
    rewrite book_get_set. by destruct (String.eqb sid sid0).
Qed.

(** X11.  A batch for a known course whose entries all have a str
    [student_id] and a grade of the legal set is answered 200: the courses
    and rosters of the faculty service stay as they are, one
    [grade_submitted] event is published for each entry, in the order of
    the batch, and afterwards the grade book of the course holds for every
    student the grade of the student's last entry in the batch, and what
    it held before for a student the batch does not mention. *)
Theorem submit_grades_stores_batch
    (now : clock) (d : list (string * pyval)) (self : FacultyService.t)
    (course_id : string) (course : Course) (batch : list pyval) :
  dict_get "course_id" d = PStr course_id →
  Dict.get course_id (FacultyService.courses self) = Some course →
  dict_get "grades" d = PList batch →
  forallb (storable_entry (FacultyService.strategy_for course_id)) batch = true →
  ∃ book' r,
    FacultyService.submit_grades now (PDict d) self
    = (FacultyService.mk (FacultyService.courses self) (FacultyService.rosters self)
         (<[course_id := book']> (FacultyService.grades self)),
       imap (grade_event now course_id) batch, r)
    ∧ status_of r = 200
    ∧ response_message r
      = Some (PStr ("Grades submitted for " +:+ pretty (Z.of_nat (length batch))
                    +:+ " students in " +:+ course_id))
    ∧ ∀ student_id,
        book_get (PStr student_id) book'
        = match last_grade student_id batch with
          | Some grade => Some grade
          | None => book_get (PStr student_id)
                      (default [] (FacultyService.grades self !! course_id))
          end.
Proof.
  intros Hcid Hcourse Hgrades Hbatch.
  destruct (storable_batch_accepted _ _ Hbatch) as [Hentries Hlegal].
  rewrite (submit_grades_known_course _ _ _ _ _ _ Hcid Hcourse Hgrades).
  unfold GradeProcessor_process, process.
  rewrite invalid_of_illegal_entries, Hlegal by done. simpl.
  destruct (store_grades_storable _ now 0 course_id batch
              (default [] (FacultyService.grades self !! course_id)) Hbatch)
    as (book' & -> & Hget).
  eexists book', _. split_and!; done.
Qed.

Lemma submit_grades_stores_batch_witness :
  let d := [("course_id", PStr "CS101");
            ("grades",
             PList [PDict [("student_id", PStr "STU001"); ("grade", PStr "B+")];
                    PDict [("student_id", PStr "STU001"); ("grade", PStr "A")]])] in
  ∃ book' r,
    (FacultyService.submit_grades (λ _, "2025-01-01T10:00:00") (PDict d)
       FacultyService.init).1.1
    = FacultyService.mk (FacultyService.courses FacultyService.init)
        (FacultyService.rosters FacultyService.init) {[ "CS101" := book' ]}
    ∧ status_of r = 200
    ∧ book_get (PStr "STU001") book' = Some (PStr "A").
Proof.
  intros d.
  destruct (submit_grades_stores_batch (λ _, "2025-01-01T10:00:00") d
              FacultyService.init "CS101"
              (mkCourse "CS101" "Intro to Programming" "Dr. Smith" 30 25 [])
              [PDict [("student_id", PStr "STU001"); ("grade", PStr "B+")];
               PDict [("student_id", PStr "STU001"); ("grade", PStr "A")]])
    as (book' & r & Hrun & Hr & _ & Hbook).
  - reflexivity.
  - reflexivity.
  - reflexivity.
  - reflexivity.
  - exists book', r. rewrite Hrun. split_and!; [done|done|].
    by rewrite (Hbook "STU001").
Defined.

(** ** Batches that end in an exception *)

Lemma storable_entry_grade_entry s g : storable_entry s g = true → grade_entry g = true.
Proof.
  intros (d & sid & x & -> & _ & Hgrade & _)%storable_entry_inv.
  unfold grade_entry, dict_get. by rewrite Hgrade.
Qed.

Lemma illegal_entries_app s l k :
  illegal_entries s (l ++ k) = illegal_entries s l ++ illegal_entries s k.
Proof. unfold illegal_entries. apply filter_app. Qed.

Lemma store_grades_stops s now i cid pre bad post book e :
  forallb (storable_entry s) pre = true →
  subscript bad "student_id" = Raise e →
  ∃ book',
    FacultyService.store_grades now i cid (pre ++ bad :: post) book
    = (book', imap (λ j g, grade_event now cid (i + j) g) pre, Some e)
    ∧ ∀ sid, book_get (PStr sid) book'
             = match last_grade sid pre with
               | Some grade => Some grade
               | None => book_get (PStr sid) book
               end.
Proof.
  intros Hpre Hbad. revert i book Hpre.
  induction pre as [|g pre IH]; intros i book; simpl.
  { intros _. rewrite Hbad. by exists book. }
  intros [Hg Hpre]%andb_prop.
  destruct (storable_entry_inv _ _ Hg) as (d & sid0 & x & -> & Hsid & Hgrade & Hmem).
  simpl. rewrite Hsid, Hgrade. simpl.
  destruct (IH (S i) (book_set (PStr sid0) (PStr x) book) Hpre) as (book' & -> & Hget).
  exists book'. split.
  - replace (i + 0)%nat with i by lia.
    assert (grade_event now cid i (PDict d)
            = mkEvent "grade_submitted"
                [("student_id", PStr sid0); ("course_id", PStr cid); ("grade", PStr x)]
                (now i)) as <-.
    { unfold grade_event, grade_of, dict_get. by rewrite Hsid, Hgrade. }
    do 3 f_equal. apply imap_ext. intros j g _. simpl. f_equal. lia.
  - intros sid. rewrite Hget.
    destruct (last_grade sid pre); [done|].
    rewrite book_get_set. by destruct (String.eqb sid sid0).
Qed.

(** X12.  A batch that passes the grade check is stored entry by entry,
    and an entry without a [student_id] ends the request in [KeyError]
    when its turn comes: the entries before it (each with a str
    [student_id] and a legal grade) are then already in the grade book
    and their events published, and the entries after it are not
    stored. *)
Theorem submit_grades_stops_at_missing_student_id
    (now : clock) (d : list (string * pyval)) (self : FacultyService.t)
    (course_id : string) (course : Course)
    (pre post : list pyval) (entry : list (string * pyval)) :
  dict_get "course_id" d = PStr course_id →
  Dict.get course_id (FacultyService.courses self) = Some course →
  dict_get "grades" d = PList (pre ++ PDict entry :: post) →
  let s := FacultyService.strategy_for course_id in
  forallb (storable_entry s) pre = true →
  lookup_key "student_id" entry = None →
  forallb grade_entry (PDict entry :: post) = true →
  illegal_entries s (PDict entry :: post) = [] →
  ∃ book',
    FacultyService.submit_grades now (PDict d) self
    = (FacultyService.mk (FacultyService.courses self) (FacultyService.rosters self)
         (<[course_id := book']> (FacultyService.grades self)),
       imap (grade_event now course_id) pre,
       Crash (KeyError "student_id"))
    ∧ ∀ student_id,
        book_get (PStr student_id) book'
        = match last_grade student_id pre with
          | Some grade => Some grade
          | None => book_get (PStr student_id)
                      (default [] (FacultyService.grades self !! course_id))
          end.
Proof.
  intros Hcid Hcourse Hgrades s Hpre Hentry Hrest Hlegal.
  destruct (storable_batch_accepted _ _ Hpre) as [Hpre_entries Hpre_legal].
  rewrite (submit_grades_known_course _ _ _ _ _ _ Hcid Hcourse Hgrades).
  unfold GradeProcessor_process, process. fold s.
  rewrite invalid_of_illegal_entries
    by (rewrite forallb_app; by apply andb_true_intro).
  rewrite illegal_entries_app, Hpre_legal, Hlegal. simpl.
  destruct (store_grades_stops s now 0 course_id pre (PDict entry) post
              (default [] (FacultyService.grades self !! course_id))
              (KeyError "student_id") Hpre) as (book' & -> & Hget).
  { simpl. by rewrite Hentry. }
  by exists book'.
Qed.

Lemma submit_grades_stops_at_missing_student_id_witness :
  let d := [("course_id", PStr "CS101");
            ("grades",
             PList [PDict [("student_id", PStr "STU001"); ("grade", PStr "A")];
                    PDict [("grade", PStr "B")];
                    PDict [("student_id", PStr "STU002"); ("grade", PStr "C")]])] in
  let result :=
    FacultyService.submit_grades (λ _, "2025-01-01T10:00:00") (PDict d)
      FacultyService.init in
  result.2 = Crash (KeyError "student_id")
  ∧ event_type <$> result.1.2 = ["grade_submitted"]
  ∧ ∃ book', FacultyService.grades result.1.1 = {[ "CS101" := book' ]}
             ∧ book_get (PStr "STU001") book' = Some (PStr "A")
             ∧ book_get (PStr "STU002") book' = None.
Proof.
  intros d result.
  destruct (submit_grades_stops_at_missing_student_id (λ _, "2025-01-01T10:00:00") d
              FacultyService.init "CS101"
              (mkCourse "CS101" "Intro to Programming" "Dr. Smith" 30 25 [])
              [PDict [("student_id", PStr "STU001"); ("grade", PStr "A")]]
              [PDict [("student_id", PStr "STU002"); ("grade", PStr "C")]]
              [("grade", PStr "B")])
    as (book' & Hrun & Hbook).
  - reflexivity.
  - reflexivity.
  - reflexivity.
  - reflexivity.
  - reflexivity.
  - reflexivity.
  - reflexivity.
  - unfold result. rewrite Hrun. split_and!; [done|done|].
    exists book'. split_and!; [done| |].
    + by rewrite (Hbook "STU001").
    + by rewrite (Hbook "STU002").
Defined.

Lemma invalid_of_raises valid_set pre g post e :
  forallb grade_entry pre = true →
  (grade ← get g "grade"; not_in_set valid_set grade) = Raise e →
  invalid_of valid_set (pre ++ g :: post) = Raise e.
Proof.
  intros Hpre Hg. induction pre as [|g0 pre IH]; simpl.
  - unfold mbind, result_bind in *.
    destruct (get g "grade") as [grade|e0]; [|by simplify_eq].
    destruct (not_in_set valid_set grade) as [b|e1]; by simplify_eq.
  - simpl in Hpre. apply andb_prop in Hpre as [Hg0 Hpre].
    destruct g0 as [| | | | | | |d0|]; try discriminate Hg0. simpl in Hg0.
    simpl. unfold not_in_set. rewrite Hg0. simpl. by rewrite (IH Hpre).
Qed.

(** X13.  A batch is checked in order, and the first entry that is not a
    JSON object, or whose grade is itself an array or an object, ends the
    request in an exception ([AttributeError] for the first, [TypeError]
    for the second): nothing is stored and nothing is published, whatever
    the entries after it. *)
Theorem submit_grades_malformed_entry
    (now : clock) (d : list (string * pyval)) (self : FacultyService.t)
    (course_id : string) (course : Course) (pre post : list pyval) (g : pyval) :
  dict_get "course_id" d = PStr course_id →
  Dict.get course_id (FacultyService.courses self) = Some course →
  dict_get "grades" d = PList (pre ++ g :: post) →
  forallb grade_entry pre = true →
  grade_entry g = false →
  FacultyService.submit_grades now (PDict d) self
  = (self, [],
     Crash (match g with
            | PDict _ => TypeError "unhashable type"
            | _ => AttributeError "object has no attribute 'get'"
            end)).
Proof.
  intros Hcid Hcourse Hgrades Hpre Hg.
  rewrite (submit_grades_known_course _ _ _ _ _ _ Hcid Hcourse Hgrades).
  unfold GradeProcessor_process, process.
  rewrite (invalid_of_raises _ pre g post
             (match g with
              | PDict _ => TypeError "unhashable type"
              | _ => AttributeError "object has no attribute 'get'"
              end)); [done|done|].
  destruct g as [| | | | | | |dg|]; try done.
  simpl in *. unfold not_in_set. by rewrite Hg.
Qed.

Lemma submit_grades_malformed_entry_witness :
  FacultyService.submit_grades (λ _, "2025-01-01T10:00:00")
    (PDict [("course_id", PStr "CS101");
            ("grades",
             PList [PDict [("student_id", PStr "STU001"); ("grade", PStr "A")];
                    PStr "B+"])])
    FacultyService.init
  = (FacultyService.init, [], Crash (AttributeError "object has no attribute 'get'")).
Proof.
  apply (submit_grades_malformed_entry _ _ _ "CS101"
           (mkCourse "CS101" "Intro to Programming" "Dr. Smith" 30 25 [])
           [PDict [("student_id", PStr "STU001"); ("grade", PStr "A")]] []
           (PStr "B+")); reflexivity.
Defined.

(** ** Rosters *)

(** X14.  [GET /roster/<course_id>] answers 404 when the faculty service
    has no roster for the course, and otherwise 200 with the students in
    the order of the roster, each with the name "Student <id>", and their
    number as [total_enrolled]; it raises nothing.  In every state the
    system reaches from its start the answer is 200 for CS101 and CS201
    and 404 for every other course id. *)
Theorem get_roster_answer `{!Builtins} (course_id : string) :
  (∀ self : FacultyService.t,
     FacultyService.get_roster course_id self
     = match FacultyService.rosters self !! course_id with
       | None => Resp 404 (PDict [("error", PStr "Course not found")])
       | Some roster =>
         Resp 200
           (PDict [("course_id", PStr course_id);
                   ("students",
                    PList (map (λ sid, PDict [("student_id", PStr sid);
                                              ("name", PStr ("Student " +:+ sid))])
                               roster));
                   ("total_enrolled", PInt (Z.of_nat (length roster)))])
       end)
  ∧ (∀ actions,
       status_of (FacultyService.get_roster course_id
                    (faculty (world (System.run actions System.init))))
       = if bool_decide (course_id = "CS101" ∨ course_id = "CS201") then 200 else 404).
Proof.
  assert (∀ self : FacultyService.t,
            FacultyService.get_roster course_id self
            = match FacultyService.rosters self !! course_id with
              | None => Resp 404 (PDict [("error", PStr "Course not found")])
              | Some roster =>
                Resp 200
                  (PDict [("course_id", PStr course_id);
                          ("students",
                           PList (map (λ sid, PDict [("student_id", PStr sid);
                                                     ("name", PStr ("Student " +:+ sid))])
                                      roster));
                          ("total_enrolled", PInt (Z.of_nat (length roster)))])
              end) as Hroster.
  { intros self. unfold FacultyService.get_roster.
    destruct (FacultyService.rosters self !! course_id) as [roster|]; [|done].
    simpl. by rewrite length_map. }
  split; [done|]. intros actions. rewrite Hroster.
  destruct (system_invariant_run actions System.init system_invariant_init)
    as [(_ & _ & _ & Hdom & _) _].
  destruct (FacultyService.rosters (faculty (world (System.run actions System.init)))
              !! course_id) as [roster|] eqn:E.
  - apply elem_of_dom_2 in E. rewrite Hdom in E. simpl in E.
    rewrite dom_insert_L, dom_singleton_L, elem_of_union, !elem_of_singleton in E.
    by rewrite bool_decide_eq_true_2.
  - apply not_elem_of_dom in E. rewrite Hdom in E. simpl in E.
    rewrite dom_insert_L, dom_singleton_L, elem_of_union, !elem_of_singleton in E.
    by rewrite bool_decide_eq_false_2.
Qed.

Lemma on_student_enrolled_by_ids event (f : FacultyService.t) sid cid :
  dict_get "course_id" (data event) = PStr cid →
  dict_get "student_id" (data event) = PStr sid →
  FacultyService._on_student_enrolled event f
  = match FacultyService.rosters f !! cid with
    | Some roster =>
      if mem sid roster then (f, [])
      else (FacultyService.mk (FacultyService.courses f)
              (<[cid := roster ++ [sid]]> (FacultyService.rosters f))
              (FacultyService.grades f),
            ["FACULTY SERVICE: Added " +:+ sid +:+ " to roster for " +:+ cid])
    | None => (f, [])
    end.
Proof. intros Hcid Hsid. unfold FacultyService._on_student_enrolled. by rewrite Hcid, Hsid. Qed.

Lemma on_student_dropped_by_ids event (f : FacultyService.t) sid cid :
  dict_get "course_id" (data event) = PStr cid →
  dict_get "student_id" (data event) = PStr sid →
  FacultyService._on_student_dropped event f
  = match FacultyService.rosters f !! cid with
    | Some roster =>
      if mem sid roster
      then (FacultyService.mk (FacultyService.courses f)
              (<[cid := remove_first sid roster]> (FacultyService.rosters f))
              (FacultyService.grades f),
            ["FACULTY SERVICE: Removed " +:+ sid +:+ " from roster for " +:+ cid])
      else (f, [])
    | None => (f, [])
    end.
Proof. intros Hcid Hsid. unfold FacultyService._on_student_dropped. by rewrite Hcid, Hsid. Qed.

(** X15.  The two roster callbacks of the faculty service, on events that
    name the same student and course: a second [student_enrolled] changes
    nothing and prints nothing; so does a second [student_dropped] when no
    roster lists a student twice; and for a student who is not on the
    roster, [student_enrolled] followed by [student_dropped] gives back
    the faculty service as it was.  An event whose course or student id
    is not a str changes nothing. *)
Theorem roster_callbacks_repeat_and_undo
    (enrolled_event dropped_event : Event) (f : FacultyService.t)
    (student_id course_id : string) :
  dict_get "course_id" (data enrolled_event) = PStr course_id →
  dict_get "student_id" (data enrolled_event) = PStr student_id →
  dict_get "course_id" (data dropped_event) = PStr course_id →
  dict_get "student_id" (data dropped_event) = PStr student_id →
  let enrolled := (FacultyService._on_student_enrolled enrolled_event f).1 in
  let dropped := (FacultyService._on_student_dropped dropped_event f).1 in
  FacultyService._on_student_enrolled enrolled_event enrolled = (enrolled, [])
  ∧ (rosters_nodup f →
     FacultyService._on_student_dropped dropped_event dropped = (dropped, []))
  ∧ (¬ on_roster f course_id student_id →
     (FacultyService._on_student_dropped dropped_event enrolled).1 = f)
  ∧ (∀ event,
       is_str (dict_get "course_id" (data event))
       && is_str (dict_get "student_id" (data event)) = false →
       FacultyService._on_student_enrolled event f = (f, [])
       ∧ FacultyService._on_student_dropped event f = (f, [])).
Proof.
  intros Hec Hes Hdc Hds enrolled dropped. unfold enrolled, dropped.
  rewrite (on_student_enrolled_by_ids _ f _ _ Hec Hes).
  rewrite (on_student_dropped_by_ids _ f _ _ Hdc Hds).
  split_and!.
  - destruct (FacultyService.rosters f !! course_id) as [roster|] eqn:E; simpl.
    + destruct (mem student_id roster) eqn:Hmem; simpl.
      * by rewrite (on_student_enrolled_by_ids _ f _ _ Hec Hes), E, Hmem.
      * rewrite (on_student_enrolled_by_ids _ _ _ _ Hec Hes). simpl.
        rewrite lookup_insert_eq.
        assert (mem student_id (roster ++ [student_id]) = true) as ->; [|done].
        apply mem_true, elem_of_app. right. by apply list_elem_of_singleton.
    + by rewrite (on_student_enrolled_by_ids _ f _ _ Hec Hes), E.
  - intros Hnodup.
    destruct (FacultyService.rosters f !! course_id) as [roster|] eqn:E; simpl.
    + destruct (mem student_id roster) eqn:Hmem; simpl.
      * rewrite (on_student_dropped_by_ids _ _ _ _ Hdc Hds). simpl.
        rewrite lookup_insert_eq.
        assert (mem student_id (remove_first student_id roster) = false) as ->; [|done].
        apply mem_false, remove_first_not_elem. by eapply Hnodup.
      * by rewrite (on_student_dropped_by_ids _ f _ _ Hdc Hds), E, Hmem.
    + by rewrite (on_student_dropped_by_ids _ f _ _ Hdc Hds), E.
  - intros Hnot.
    destruct (FacultyService.rosters f !! course_id) as [roster|] eqn:E; simpl.
    + assert (student_id ∉ roster) as Hfresh.
      { intros Hin. apply Hnot. by exists roster. }
      rewrite (proj2 (mem_false _ _) Hfresh). simpl.
      rewrite (on_student_dropped_by_ids _ _ _ _ Hdc Hds). simpl.
      rewrite lookup_insert_eq.
      assert (mem student_id (roster ++ [student_id]) = true) as ->.
      { apply mem_true, elem_of_app. right. by apply list_elem_of_singleton. }
      simpl. rewrite insert_insert_eq, remove_first_app_fresh by done.
      rewrite insert_id by done. by destruct f.
    + by rewrite (on_student_dropped_by_ids _ f _ _ Hdc Hds), E.
  - intros event Hstr.
    unfold FacultyService._on_student_enrolled, FacultyService._on_student_dropped.
    destruct (dict_get "course_id" (data event)); try done;
      destruct (dict_get "student_id" (data event)); done.
Qed.

Lemma roster_callbacks_repeat_and_undo_witness :
  let enrolled_event :=
    mkEvent "student_enrolled"
      [("student_id", PStr "STU009"); ("course_id", PStr "CS101")] "t0" in
  let dropped_event :=
    mkEvent "student_dropped"
      [("student_id", PStr "STU009"); ("course_id", PStr "CS101")] "t1" in
  (FacultyService._on_student_dropped dropped_event
     (FacultyService._on_student_enrolled enrolled_event FacultyService.init).1).1
  = FacultyService.init.
Proof.
  intros enrolled_event dropped_event.
  destruct (roster_callbacks_repeat_and_undo enrolled_event dropped_event
              FacultyService.init "STU009" "CS101") as (_ & _ & Hundo & _).
  - reflexivity.
  - reflexivity.
  - reflexivity.
  - reflexivity.
  - apply Hundo. intros [roster [Hroster Hin]].
    vm_compute in Hroster. injection Hroster as <-.
    rewrite !elem_of_cons in Hin.
    destruct Hin as [|[|[|Hin]]]; try discriminate. by apply elem_of_nil in Hin.
Defined.

(** ** Creating courses *)

Lemma Dict_set_fresh {V} k (v : V) (d : Dict.t V) :
  Dict.get k d = None → Dict.set k v d = d ++ [(k, v)].
Proof.
  induction d as [|[k0 v0] d IH]; simpl; [done|].
  destruct (String.eqb k k0); [done|]. intros Hnone. by rewrite IH.
Qed.


Lemma percent_zero_capacity e : percent e 0 = Raise (ZeroDivisionError "division by zero").
Proof. done. Qed.

Lemma percent_of_zero c : c ≠ 0 → percent 0 c = Ok (PPercent 0 c).
Proof.
  intros Hc. unfold percent.
  destruct (Z.eqb_spec c 0) as [->|_]; [done|].
  assert (2 ≤ 2 ^ 1024 - 2 ^ 970) as Hbound by (by vm_compute).
  destruct (Z.leb_spec ((2 ^ 1024 - 2 ^ 970) * Z.abs c) (Z.abs 0)) as [Hle|_]; [|done].
  generalize dependent (2 ^ 1024 - 2 ^ 970). intros bound Hbound Hle. nia.
Qed.

(** X16.  A request to create a course with a str id, name and
    instructor: when the administrator service already has the id, it is
    answered 400 "Course already exists" and nothing changes; otherwise
    the course is put last in the course map with the narrowed capacity
    and prerequisites and no student enrolled, the courses before it stay
    as they are, one [course_created] event is published, the answer is
    200 unless the capacity is 0 (then the request ends in
    [ZeroDivisionError], the course being stored all the same), and the
    same request made again is answered 400. *)
Theorem create_course_outcome `{!Builtins}
    (now now' : clock) (d : list (string * pyval)) (self : AdminService.t)
    (id title teacher : string) :
  dict_get "course_id" d = PStr id →
  dict_get "name" d = PStr title →
  dict_get "instructor" d = PStr teacher →
  let seats := AdminService.narrow_capacity (default (PInt 20) (lookup_key "capacity" d)) in
  let required :=
    AdminService.narrow_prerequisites
      (default (PList []) (lookup_key "prerequisites" d)) in
  let new_course := mkCourse id title teacher seats 0 required in
  let result := AdminService.create_course now (PDict d) self in
  match Dict.get id (AdminService.courses self) with
  | Some _ =>
    result = (self, [], Resp 400 (PDict [("error", PStr "Course already exists")]))
  | None =>
    AdminService.courses result.1.1 = AdminService.courses self ++ [(id, new_course)]
    ∧ event_type <$> result.1.2 = ["course_created"]
    ∧ (seats ≠ 0 → status_of result.2 = 200)
    ∧ (seats = 0 → result.2 = Crash (ZeroDivisionError "division by zero"))
    ∧ AdminService.create_course now' (PDict d) result.1.1
      = (result.1.1, [], Resp 400 (PDict [("error", PStr "Course already exists")]))
  end.
Proof.
  intros Hid Hname Hteacher seats required new_course result.
  unfold result, AdminService.create_course.
  rewrite (get_json_dict _ _ _ Hid), Hid, Hname, Hteacher.
  fold seats required.
  destruct (Dict.get id (AdminService.courses self)) as [old|] eqn:E; [done|].
  fold new_course. simpl. split_and!.
  - by apply Dict_set_fresh.
  - done.
  - intros Hseats. by rewrite percent_of_zero.
  - by intros ->.
  - by rewrite Dict_get_set_eq.
Qed.

Lemma create_course_outcome_witness :
  let now : clock := λ _, "2025-01-01T10:00:00" in
  let d := [("course_id", PStr "CS401"); ("name", PStr "Advanced Software Engineering");
            ("instructor", PStr "Dr. Wilson"); ("capacity", PInt 15);
            ("prerequisites", PList [PStr "CS201"; PStr "CS301"])] in
  let result := @AdminService.create_course sample_builtins now (PDict d)
                  AdminService.init in
  status_of result.2 = 200
  ∧ Dict.get "CS401" (AdminService.courses result.1.1)
    = Some (mkCourse "CS401" "Advanced Software Engineering" "Dr. Wilson" 15 0
              ["CS201"; "CS301"]).
Proof.
  intros now d result.
  pose proof (@create_course_outcome sample_builtins now now d AdminService.init
                "CS401" "Advanced Software Engineering" "Dr. Wilson"
                eq_refl eq_refl eq_refl) as Houtcome.
  simpl in Houtcome. destruct Houtcome as (Hcourses & _ & Hok & _).
  split.
  - apply Hok. discriminate.
  - reflexivity.
Defined.

(** X17.  [create_course] checks the fields in the order id, name,
    instructor: the first that is missing or not a str is named in a 400
    answer, nothing is stored and nothing is published.  A missing or
    empty body counts as an empty object, and a body that is not an object
    (and is not empty) ends the request in [AttributeError]. *)
Theorem create_course_invalid_payload `{!Builtins}
    (now : clock) (body : pyval) (self : AdminService.t) :
  let result := AdminService.create_course now body self in
  let rejected field :=
    result = (self, [], Resp 400 (PDict [("error", PStr ("Invalid payload: " +:+ field))])) in
  match get_json_or_empty body with
  | PDict d =>
    (is_str (dict_get "course_id" d) = false → rejected "course_id")
    ∧ (is_str (dict_get "course_id" d) = true →
       is_str (dict_get "name" d) = false → rejected "name")
    ∧ (is_str (dict_get "course_id" d) = true →
       is_str (dict_get "name" d) = true →
       is_str (dict_get "instructor" d) = false → rejected "instructor")
  | _ => result = (self, [], Crash (AttributeError "object has no attribute 'get'"))
  end.
Proof.
  intros result rejected. unfold rejected, result, AdminService.create_course.
  destruct (get_json_or_empty body) as [| | | | | | |d|]; try done.
  destruct (dict_get "course_id" d); simpl; split_and!; try done;
    destruct (dict_get "name" d); simpl; try done;
    destruct (dict_get "instructor" d); simpl; done.
Qed.

Lemma create_course_invalid_payload_witness :
  @AdminService.create_course sample_builtins (λ _, "2025-01-01T10:00:00")
    (PDict [("course_id", PInt 123); ("name", PNone); ("instructor", PList [])])
    AdminService.init
  = (AdminService.init, [],
     Resp 400 (PDict [("error", PStr "Invalid payload: course_id")])).
Proof.
  pose proof (@create_course_invalid_payload sample_builtins (λ _, "2025-01-01T10:00:00")
                (PDict [("course_id", PInt 123); ("name", PNone); ("instructor", PList [])])
                AdminService.init) as Hinvalid.
  simpl in Hinvalid. destruct Hinvalid as (Hid & _).
  by apply Hid.
Defined.

(** ** Reports and course lists *)






(** ** The course list after an enrollment *)

Lemma Dict_get_app_fresh {V} k (c : V) (before after : Dict.t V) :
  Dict.get k before = None → Dict.get k (before ++ (k, c) :: after) = Some c.
Proof.
  induction before as [|[k0 v0] before IH]; simpl.
  - by rewrite String.eqb_refl.
  - destruct (String.eqb k k0); [done|]. apply IH.
Qed.

Lemma Dict_set_at {V} k (v c : V) (before after : Dict.t V) :
  Dict.get k before = None →
  Dict.set k v (before ++ (k, c) :: after) = before ++ (k, v) :: after.
Proof.
  induction before as [|[k0 v0] before IH]; simpl.
  - by rewrite String.eqb_refl.
  - destruct (String.eqb k k0); [done|]. intros Hnone. by rewrite IH.
Qed.

(** X19.  [GET /courses] of the student service answers 200 with the
    courses in the order of the course map and never raises.  After an
    accepted enrollment the list is the same but for the course of the
    request, which keeps its place and shows one available seat
    fewer. *)
Theorem get_courses_after_enrollment
    (now : clock) (d : list (string * pyval)) (self self' : StudentService.t)
    (events : list Event) (r : response) (student_id id : string)
    (course : Course) (before after : Dict.t Course) :
  dict_get "student_id" d = PStr student_id →
  dict_get "course_id" d = PStr id →
  StudentService.courses self = before ++ (id, course) :: after →
  Dict.get id before = None →
  StudentService.enroll_student now (PDict d) self = (self', events, r) →
  status_of r = 200 →
  let shown c := StudentDTOFactory.create_response_dto (PCourse c) in
  let listing c :=
    Resp 200
      (PDict [("courses",
               PList (map shown (Dict.values before) ++ shown c
                      :: map shown (Dict.values after)))]) in
  StudentService.get_courses self = listing course
  ∧ StudentService.get_courses self'
    = listing (set_enrolled course (enrolled course + 1))
  ∧ shown (set_enrolled course (enrolled course + 1))
    = PDict [("course_id", PStr (course_id course));
             ("name", PStr (name course));
             ("instructor", PStr (instructor course));
             ("available_seats", PInt (capacity course - enrolled course - 1));
             ("schedule", Course_schedule);
             ("prerequisites", PList (map PStr (prerequisites course)));
             ("can_enroll", PBool true)].
Proof.
  intros Hsid Hcid Hcourses Hfresh Hrun Hr shown listing.
  destruct (enroll_student_accepted_state _ _ _ _ _ _ _ _ Hsid Hcid Hrun Hr)
    as (course0 & entry & Hcourse & ->).
  rewrite Hcourses, Dict_get_app_fresh in Hcourse by done.
  injection Hcourse as <-.
  assert (∀ l, StudentDTOFactory.create_response_dto (PList (map PCourse l))
               = PDict [("courses", PList (map shown l))]) as Hlist.
  { intros l. simpl. by rewrite map_map. }
  unfold StudentService.get_courses, Dict.values. simpl StudentService.courses.
  rewrite Hcourses, Dict_set_at by done.
  rewrite !Hlist, !map_app. simpl.
  split_and!; try done.
  unfold shown. simpl.
  by replace (capacity course - (enrolled course + 1))
    with (capacity course - enrolled course - 1) by lia.
Qed.

Lemma get_courses_after_enrollment_witness :
  let now : clock := λ _, "2025-01-01T10:00:00" in
  let d := [("student_id", PStr "STU001"); ("course_id", PStr "CS201")] in
  let result := StudentService.enroll_student now (PDict d) StudentService.init in
  ∃ first last seats,
    StudentService.get_courses result.1.1
    = Resp 200 (PDict [("courses", PList [first; PDict seats; last])])
    ∧ lookup_key "available_seats" seats = Some (PInt 4).
Proof.
  intros now d result.
  destruct (get_courses_after_enrollment now d StudentService.init
              result.1.1 result.1.2 result.2 "STU001" "CS201"
              (mkCourse "CS201" "Data Structures" "Dr. Johnson" 25 20 ["CS101"])
              [("CS101", mkCourse "CS101" "Intro to Programming" "Dr. Smith" 30 25 [])]
              [("CS301", mkCourse "CS301" "Algorithms" "Dr. Brown" 20 15
                           ["CS101"; "CS201"])])
    as (_ & Hafter & _).
  - reflexivity.
  - reflexivity.
  - reflexivity.
  - reflexivity.
  - reflexivity.
  - reflexivity.
  - rewrite Hafter. by eexists _, _, _.
Defined.

(** ** Events and their notification handlers *)

Section notified.
Context `{!Builtins}.

Lemma store_grades_notified now i cid batch book :
  Forall notified (FacultyService.store_grades now i cid batch book).1.2.
Proof.
  revert i book. induction batch as [|g batch IH]; intros i book; simpl; [done|].
  destruct (subscript g "student_id") as [sid|]; [|done].
  destruct (subscript g "grade") as [grade|]; [|done].
  destruct (hashable sid); [|done].
  specialize (IH (S i) (book_set sid grade book)).
  destruct (FacultyService.store_grades now (S i) cid batch (book_set sid grade book))
    as [[book' events] r]. simpl in *.
  constructor; [|done]. by eexists _, _.
Qed.

(** X20.  Every event that a route publishes has a handler in the
    notification service and carries the keys that the handler reads:
    the handler returns on it, so the dispatcher never has to catch a
    [KeyError] of the notification service for an event of the routes. *)
Theorem published_events_are_notified (now : clock) (body : pyval) :
  (∀ self, Forall notified (StudentService.enroll_student now body self).1.2)
  ∧ (∀ self, Forall notified (StudentService.drop_course now body self).1.2)
  ∧ (∀ self, Forall notified (FacultyService.submit_grades now body self).1.2)
  ∧ (∀ self, Forall notified (AdminService.create_course now body self).1.2)
  ∧ Forall notified (AdminService.update_system_config now body).1.
Proof.
  split_and!.
  - intros self. unfold StudentService.enroll_student.
    repeat match goal with
    | |- context [match ?x with _ => _ end] => destruct x eqn:?
    end; simpl; try done.
    constructor; [|done]. by eexists _, _.
  - intros self. unfold StudentService.drop_course.
    repeat match goal with
    | |- context [match ?x with _ => _ end] => destruct x eqn:?
    | |- context [if ?x then _ else _] => destruct x eqn:?
    end; simpl; try done.
    constructor; [|done]. by eexists _, _.
  - intros self. unfold FacultyService.submit_grades.
    repeat match goal with
    | |- context [FacultyService.store_grades ?a ?b ?c ?e ?f] =>
      let H := fresh "Hstore" in
      pose proof (store_grades_notified a b c e f) as H;
      destruct (FacultyService.store_grades a b c e f) as [[? ?] ?]
    | |- context [match ?x with _ => _ end] => destruct x eqn:?
    | |- context [if ?x then _ else _] => destruct x eqn:?
    end; simpl in *; done.
  - intros self. unfold AdminService.create_course.
    repeat match goal with
    | |- context [match ?x with _ => _ end] => destruct x eqn:?
    end; simpl; try done.
    all: constructor; [|done]; by eexists _, _.
  - unfold AdminService.update_system_config.
    destruct (get_json_or_empty body); simpl; try done.
    constructor; [|done]. by eexists _, _.
Qed.
End notified.
